(** * Profit-and-loss dashboard (app.py): aggregation and comparison pipeline

    A shallow embedding of the data-processing core of [app.py]:
    [load_data], the period filters of the analysis page, the trend
    aggregation [aggregate_profit_trend], the breakdown and trend variance
    tables with the grand-total row, [analyze_cost_breakdown] and
    [generate_ai_insights].

    Conventions of the model.
    - Amounts (매출액, the cost columns, 총비용, 영업이익) are whole won and are
      modelled as [Z].
    - A percentage is a numpy float; it is modelled by [np_float], the
      rationals extended with [PosInf], [NegInf] and [NaN], so that the
      results of a division by zero are visible in the model.
    - A pandas frame is a list of typed rows together with the list of its
      column names; Python dicts are association lists in insertion order.
    - Python exceptions that escape a function are results [Raise e]. *)

From Stdlib Require Import ZArith QArith List Sorted String Ascii Bool Lia.
From Stdlib Require Import Qabs Qround DecimalString.
Import ListNotations.

Local Open Scope string_scope.
Local Open Scope list_scope.
Local Open Scope Z_scope.

(* ================================================================= *)
(** ** Python, numpy and pandas primitives *)

Module Py.

(** Exceptions that can escape the modelled code. *)
Inductive exn :=
| KeyError (key : string)
| ZeroDivisionError.

Inductive result (A : Type) :=
| Ok (a : A)
| Raise (e : exn).
Arguments Ok {A} a.
Arguments Raise {A} e.

Definition bind {A B} (m : result A) (k : A -> result B) : result B :=
  match m with
  | Ok a => k a
  | Raise e => Raise e
  end.

(** [x in xs] for strings, also [Series.isin] on one cell. *)
Definition isin (x : string) (xs : list string) : bool :=
  existsb (String.eqb x) xs.

(** A Python dict with string keys, in insertion order. *)
Definition dict (V : Type) := list (string * V).

Fixpoint dict_get {V} (d : dict V) (k : string) : option V :=
  match d with
  | [] => None
  | (k', v) :: d' => if String.eqb k k' then Some v else dict_get d' k
  end.

(** [d[k]]: raises [KeyError] when the key is absent. *)
Definition dict_item {V} (d : dict V) (k : string) : result V :=
  match dict_get d k with
  | Some v => Ok v
  | None => Raise (KeyError k)
  end.

(** [d[k] = v]: replaces in place, or appends a new key. *)
Fixpoint dict_set {V} (d : dict V) (k : string) (v : V) : dict V :=
  match d with
  | [] => [(k, v)]
  | (k', v') :: d' =>
      if String.eqb k k' then (k, v) :: d' else (k', v') :: dict_set d' k v
  end.

(** numpy float64 values, as far as the pipeline can tell them apart. *)
Inductive np_float :=
| Finite (q : Q)
| PosInf
| NegInf
| NaN.

Definition of_Z (z : Z) : np_float := Finite (inject_Z z).

(** Element-wise [a / b] of numpy and pandas: no exception, a zero
    divisor gives an infinity or NaN. *)
Definition np_true_divide (a b : Z) : np_float :=
  if b =? 0 then
    if a =? 0 then NaN else if 0 <? a then PosInf else NegInf
  else Finite (inject_Z a / inject_Z b)%Q.

(** [x * 100]. *)
Definition times100 (x : np_float) : np_float :=
  match x with
  | Finite q => Finite (q * 100)%Q
  | other => other
  end.

Definition fneg (x : np_float) : np_float :=
  match x with
  | Finite q => Finite (- q)%Q
  | PosInf => NegInf
  | NegInf => PosInf
  | NaN => NaN
  end.

(** [np.where(c, x, y)] on one element: both [x] and [y] have been
    computed by the caller, one of them is selected. *)
Definition np_where {A} (c : bool) (x y : A) : A := if c then x else y.

(** [x > k] and [x < k] for a float and an integer literal; every
    comparison with NaN is False. *)
Definition gt (x : np_float) (k : Z) : bool :=
  match x with
  | Finite q => negb (Qle_bool q (inject_Z k))
  | PosInf => true
  | NegInf | NaN => false
  end.

Definition lt (x : np_float) (k : Z) : bool :=
  match x with
  | Finite q => negb (Qle_bool (inject_Z k) q)
  | NegInf => true
  | PosInf | NaN => false
  end.

(** [x <= y] between floats, NaN never related. *)
Definition fle (x y : np_float) : bool :=
  match x, y with
  | NaN, _ | _, NaN => false
  | NegInf, _ => true
  | _, PosInf => true
  | Finite p, Finite q => Qle_bool p q
  | _, _ => false
  end.

Definition is_nan (x : np_float) : bool :=
  match x with NaN => true | _ => false end.

(** [abs(x)]. *)
Definition fabs (x : np_float) : np_float :=
  match x with
  | Finite q => Finite (Qabs q)
  | NegInf => PosInf
  | other => other
  end.

(** Float addition, for the column sums of a frame. *)
Definition fadd (x y : np_float) : np_float :=
  match x, y with
  | NaN, _ | _, NaN => NaN
  | PosInf, NegInf | NegInf, PosInf => NaN
  | PosInf, _ | _, PosInf => PosInf
  | NegInf, _ | _, NegInf => NegInf
  | Finite p, Finite q => Finite (p + q)%Q
  end.

Definition fsub (x y : np_float) : np_float := fadd x (fneg y).

(** Float division by a divisor that is not zero. *)
Definition fdiv (x y : np_float) : np_float :=
  match x, y with
  | NaN, _ | _, NaN => NaN
  | Finite p, Finite q => Finite (p / q)%Q
  | Finite _, _ => Finite 0
  | PosInf, Finite q => if Qle_bool 0 q then PosInf else NegInf
  | NegInf, Finite q => if Qle_bool 0 q then NegInf else PosInf
  | _, _ => NaN
  end.

(** A native Python number, as [Series.to_dict()] hands the entries of a
    numeric column out: an [int] or a [float]. *)
Inductive num :=
| Int (z : Z)
| Float (x : np_float).

Definition to_float (n : num) : np_float :=
  match n with
  | Int z => of_Z z
  | Float x => x
  end.

(** [a - b], [a == 0] and [a / b] on native Python numbers.  Python's
    true division raises on a zero divisor, where numpy's gives an
    infinity or NaN. *)
Definition py_sub (a b : num) : num :=
  match a, b with
  | Int x, Int y => Int (x - y)
  | _, _ => Float (fsub (to_float a) (to_float b))
  end.

Definition py_is_zero (a : num) : bool :=
  match a with
  | Int z => z =? 0
  | Float (Finite q) => Qeq_bool q 0
  | Float _ => false
  end.

Definition py_truediv (a b : num) : result np_float :=
  if py_is_zero b then Raise ZeroDivisionError
  else Ok (fdiv (to_float a) (to_float b)).

(** Stable insertion sort by a "less or equal" test: the order pandas
    produces for [sort_values] on short columns, and for group keys. *)
Section Sorting.
Context {A : Type} (le : A -> A -> bool).

Fixpoint insert_sorted (x : A) (l : list A) : list A :=
  match l with
  | [] => [x]
  | y :: l' => if le x y then x :: l else y :: insert_sorted x l'
  end.

Definition sort_values (l : list A) : list A :=
  fold_right insert_sorted [] l.
End Sorting.

(** [Series.unique()]: first occurrences, in order of appearance. *)
Fixpoint unique {A} (eqb : A -> A -> bool) (l : list A) : list A :=
  match l with
  | [] => []
  | x :: l' => x :: filter (fun y => negb (eqb x y)) (unique eqb l')
  end.

(** [sum] of an integer column. *)
Definition zsum (l : list Z) : Z := fold_right Z.add 0 l.

(** [cumsum] of an integer column. *)
Fixpoint cumsum_from (acc : Z) (l : list Z) : list Z :=
  match l with
  | [] => []
  | x :: l' => (acc + x) :: cumsum_from (acc + x) l'
  end.

Definition cumsum (l : list Z) : list Z := cumsum_from 0 l.

(** [max(xs)] for a non-empty list of strings: the first greatest one. *)
Definition max_str (xs : list string) : option string :=
  match xs with
  | [] => None
  | x :: xs' =>
      Some (fold_left (fun m y => if String.ltb m y then y else m) xs' x)
  end.

(** [s.lstrip('0')]. *)
Fixpoint lstrip0 (s : string) : string :=
  match s with
  | String c s' => if Ascii.eqb c "0"%char then lstrip0 s' else s
  | EmptyString => s
  end.

End Py.
Import Py.

Notation "x <- m ;; k" := (bind m (fun x => k))
  (at level 61, m at next level, right associativity).

(* ================================================================= *)
(** ** Schema and derivation: [COST_COLUMNS], [get_quarter], [load_data] *)

Module Schema.

(** The cost columns, in the order of the source list. *)
Definition COST_COLUMNS : list string :=
  [ "관리자A"; "관리자B"; "관리자C"; "강사A"; "강사B"; "강사C"; "강사D";
    "4대보험근로자"; "4대보험강사D"; "퇴직추계"; "해지미정산"; "인센티브직접";
    "인센티브간저";
    "경비"; "본사급여"; "본사4대보험"; "본사퇴직추계"; "셔틀"; "동승자";
    "임차A"; "임차B"; "임차C"; "임차D"; "관리비A"; "관리비B"; "관리비C";
    "관리비D";
    "청소용역A"; "청소용역B"; "청소용역C"; "청소용역D"; "복구충당";
    "공통감가비A"; "캠퍼스감가비B"; "관별감가비B"; "공통감가비B";
    "기타1"; "제경비"; "카드매출수수료"; "공기청정기"; "정수기"; "캡스";
    "복합기"; "LMS";
    "관마케팅"; "캠퍼스마케팅"; "관기타2"; "캠퍼스기타2" ].

(** The grouping of the cost columns used by the insight rules. *)
Definition COST_CATEGORIES : dict (list string) :=
  [ ("인건비", ["관리자A"; "관리자B"; "관리자C"; "강사A"; "강사B"; "강사C";
               "강사D"; "본사급여"]);
    ("4대보험/퇴직", ["4대보험근로자"; "4대보험강사D"; "퇴직추계";
                     "본사4대보험"; "본사퇴직추계"]);
    ("인센티브", ["인센티브직접"; "인센티브간저"]);
    ("임차/관리비", ["임차A"; "임차B"; "임차C"; "임차D"; "관리비A";
                    "관리비B"; "관리비C"; "관리비D"]);
    ("용역/청소", ["청소용역A"; "청소용역B"; "청소용역C"; "청소용역D"]);
    ("감가상각", ["공통감가비A"; "캠퍼스감가비B"; "관별감가비B";
                 "공통감가비B"; "복구충당"]);
    ("운영비", ["경비"; "셔틀"; "동승자"; "공기청정기"; "정수기"; "캡스";
               "복합기"; "LMS"]);
    ("마케팅", ["관마케팅"; "캠퍼스마케팅"]);
    ("기타", ["해지미정산"; "기타1"; "제경비"; "카드매출수수료"; "관기타2";
             "캠퍼스기타2"]) ].

Definition FILTER_COLUMNS : list string :=
  ["수익코드"; "캠퍼스"; "브랜드"; "사업부"].

(** A cell of the sheet as [pd.read_excel] delivers it. *)
Inductive cell :=
| CNum (z : Z)
| CStr (s : string)
| CNaN.

(** The sheet: its header and its rows, each row a dict from column
    name to cell. *)
Record RawTable := mkRaw {
  raw_columns : list string;
  raw_rows : list (dict cell)
}.

Definition raw_cell (r : dict cell) (c : string) : cell :=
  match dict_get r c with
  | Some v => v
  | None => CNaN
  end.

(** A row of the loaded ledger.  The fields are the columns
    년월, 년, 월, 분기, 년분기, sort_key, 수익코드, 캠퍼스, 브랜드, 사업부,
    매출액, the cost columns that the sheet has, 총비용 and 영업이익. *)
Record Row := mkRow {
  ym : string;
  year : string;
  month : string;
  quarter : string;
  year_quarter : string;
  sort_key : Z;
  revenue_code : string;
  campus : string;
  brand : string;
  business_unit : string;
  revenue : Z;
  costs : dict Z;
  total_cost : Z;
  operating_profit : Z
}.

Record DataFrame := mkFrame {
  columns : list string;
  rows : list Row
}.

(** [pd.DataFrame()] and [df.empty]. *)
Definition no_frame : DataFrame := mkFrame [] [].

Definition empty (df : DataFrame) : bool :=
  match rows df with
  | [] => true
  | _ :: _ => false
  end.

(** [df[col].sum()] for a cost column: absent cells count as 0. *)
Definition cost_of (col : string) (r : Row) : Z :=
  match dict_get (costs r) col with
  | Some z => z
  | None => 0
  end.

(** [df[col].sum()] of an amount column.  The amounts of the model are
    whole numbers; pandas adds them as int64, or as float64 once the
    column had a blank cell.  Both give this exact sum as long as the
    absolute values add up to at most 2^53 ([exact_column] and
    [rounded_sum] below). *)
Definition col_sum (f : Row -> Z) (df : DataFrame) : Z :=
  zsum (map f (rows df)).

(** [str(z)]. *)
Definition string_of_Z (z : Z) : string :=
  NilZero.string_of_int (Z.to_int z).

(** [astype(str)] on one cell. *)
Definition astype_str (c : cell) : string :=
  match c with
  | CNum z => string_of_Z z
  | CStr s => s
  | CNaN => "nan"
  end.

(** [fillna('N/A').astype(str)] on one cell. *)
Definition fill_na_str (c : cell) : string :=
  match c with
  | CNaN => "N/A"
  | other => astype_str other
  end.

(** [df[c] = ...]: a new column goes to the end of the header. *)
Definition add_column (cols : list string) (c : string) : list string :=
  if isin c cols then cols else cols ++ [c].

Inductive load_error :=
| MissingColumn (c : string)
| ProcessingError.

Fixpoint traverse {A B} (f : A -> option B) (l : list A) : option (list B) :=
  match l with
  | [] => Some []
  | x :: l' =>
      match f x, traverse f l' with
      | Some y, Some ys => Some (y :: ys)
      | _, _ => None
      end
  end.

Section Loading.
(** [int(s)] on a string, [None] for the ValueError it raises, and the
    number [pd.to_numeric] reads from a text cell, [None] when it
    reads none.  Both are library functions; the development holds for
    any behaviour of theirs. *)
Variable py_int : string -> option Z.
Variable str_to_numeric : string -> option Z.

Definition get_quarter (month_str : string) : option string :=
  match py_int month_str with
  | None => None
  | Some month =>
      Some (if (1 <=? month) && (month <=? 3) then "Q1"
            else if (4 <=? month) && (month <=? 6) then "Q2"
            else if (7 <=? month) && (month <=? 9) then "Q3"
            else if (10 <=? month) && (month <=? 12) then "Q4"
            else "N/A")
  end.

(** [pd.to_numeric(..., errors='coerce').fillna(0)] on one cell. *)
Definition to_numeric_coerce (c : cell) : Z :=
  match c with
  | CNum z => z
  | CStr s => match str_to_numeric s with Some z => z | None => 0 end
  | CNaN => 0
  end.

(** The calendar columns of one row: 년월, 년, 월, 분기, sort_key. *)
Definition calendar (raw : dict cell)
  : option (string * string * string * string * Z) :=
  let ym_s := astype_str (raw_cell raw "년월") in
  let y := substring 0 4 ym_s in
  let m := substring 4 2 ym_s in
  match get_quarter m, py_int ym_s with
  | Some q, Some k => Some (ym_s, y, m, q, k)
  | _, _ => None
  end.

(** The cost cells of one row, for the cost columns the sheet has.  In
    the degraded mode pandas keeps these columns as they were read; the
    model reads them through the same coercion, which agrees with it on
    numeric and empty cells.  A sheet with text in a cost cell is not
    covered in that mode (the page raises TypeError when it adds such a
    column up); [numeric_amounts] below names the sheets that are. *)
Definition row_costs (cols : list string) (raw : dict cell) : dict Z :=
  map (fun c => (c, to_numeric_coerce (raw_cell raw c)))
    (filter (fun c => isin c cols) COST_COLUMNS).

Definition finish_row (cols : list string) (all_costs_present : bool)
    (rc : dict cell * (string * string * string * string * Z)) : Row :=
  let '(raw, (ym_s, y, m, q, k)) := rc in
  let rev := to_numeric_coerce (raw_cell raw "매출액") in
  let cs := row_costs cols raw in
  let total :=
    if all_costs_present
    then zsum (map (fun c => to_numeric_coerce (raw_cell raw c))
                 COST_COLUMNS)
    else 0 in
  {| ym := ym_s; year := y; month := m; quarter := q;
     year_quarter := String.append y (String.append " " q);
     sort_key := k;
     revenue_code := fill_na_str (raw_cell raw "수익코드");
     campus := fill_na_str (raw_cell raw "캠퍼스");
     brand := fill_na_str (raw_cell raw "브랜드");
     business_unit := fill_na_str (raw_cell raw "사업부");
     revenue := rev;
     costs := cs;
     total_cost := total;
     operating_profit := if all_costs_present then rev - total else rev |}.

(** [load_data]: the loaded frame and whether the missing-cost warning
    was shown, or the error that made it return [None]. *)
Definition load_data (file : RawTable) : load_error + DataFrame * bool :=
  let cols0 := raw_columns file in
  if negb (isin "년월" cols0) then inl (MissingColumn "년월") else
  match traverse calendar (raw_rows file) with
  | None => inl ProcessingError
  | Some cal =>
      let cols1 :=
        fold_left add_column ["년"; "월"; "분기"; "년분기"; "sort_key"]
          cols0 in
      match find (fun c => negb (isin c cols1)) FILTER_COLUMNS with
      | Some c => inl (MissingColumn c)
      | None =>
          if negb (isin "매출액" cols1) then inl (MissingColumn "매출액")
          else
            let all_costs_present :=
              forallb (fun c => isin c cols1) COST_COLUMNS in
            let cols2 :=
              fold_left add_column ["총비용"; "영업이익"] cols1 in
            inr (mkFrame cols2
                   (map (finish_row cols1 all_costs_present)
                      (combine (raw_rows file) cal)),
                 negb all_costs_present)
      end
  end.
End Loading.

(** A reading of [int] and [pd.to_numeric] on plain decimal digit
    strings, used to run the model on concrete sheets. *)
Fixpoint digits_from (acc : Z) (s : string) : option Z :=
  match s with
  | EmptyString => Some acc
  | String c s' =>
      let n := Z.of_nat (nat_of_ascii c) in
      if (48 <=? n) && (n <=? 57) then digits_from (10 * acc + (n - 48)) s'
      else None
  end.

Definition digits_int (s : string) : option Z :=
  match s with
  | EmptyString => None
  | _ => digits_from 0 s
  end.

End Schema.
Import Schema.

(* ================================================================= *)
(** ** Period and dimension filters of the analysis page *)

Module Filter.

(** The four dimension columns that a detail filter can address. *)
Inductive dim :=
| RevenueCode     (* 수익코드 *)
| BusinessUnit    (* 사업부 *)
| Brand           (* 브랜드 *)
| Campus.         (* 캠퍼스 *)

Definition dim_value (d : dim) (r : Row) : string :=
  match d with
  | RevenueCode => revenue_code r
  | BusinessUnit => business_unit r
  | Brand => brand r
  | Campus => campus r
  end.

(** [selected_filter_values]: for each filter column the chosen values. *)
Definition filter_values := list (dim * list string).

(** The loop "동적 필터 적용": a filter with no chosen value is skipped. *)
Definition apply_filters (fs : filter_values) (rs : list Row) : list Row :=
  fold_left
    (fun acc (f : dim * list string) =>
       match snd f with
       | [] => acc
       | _ :: _ => filter (fun r => isin (dim_value (fst f) r) (snd f)) acc
       end)
    fs rs.

(** [sorted(df['월'].unique().tolist())]. *)
Definition all_months_two_digits (df : DataFrame) : list string :=
  sort_values String.leb (unique String.eqb (map month (rows df))).

(** [df_target]: the rows of the chosen years and months. *)
Definition select_target (df : DataFrame)
    (selected_years selected_months : list string) (fs : filter_values)
  : DataFrame :=
  match selected_years, selected_months with
  | _ :: _, _ :: _ =>
      mkFrame (columns df)
        (apply_filters fs
           (filter (fun r => isin (year r) selected_years
                             && isin (month r) selected_months)
              (rows df)))
  | _, _ => no_frame
  end.

(** [df_trend_base]: from the first month up to the greatest chosen one. *)
Definition select_trend_base (df : DataFrame)
    (selected_years selected_months : list string) (fs : filter_values)
  : DataFrame :=
  match selected_years, max_str selected_months with
  | _ :: _, Some max_selected_month_str =>
      let all_months_in_range_target :=
        sort_values String.leb
          (filter (fun m => String.leb m max_selected_month_str)
             (all_months_two_digits df)) in
      mkFrame (columns df)
        (apply_filters fs
           (filter (fun r => isin (year r) selected_years
                             && isin (month r) all_months_in_range_target)
              (rows df)))
  | _, _ => no_frame
  end.

(** The entry '선택 안함' of the comparison-year box. *)
Definition NOT_SELECTED : string := "선택 안함".

Definition is_comparison_active (comparison_year : string) : bool :=
  negb (String.eqb comparison_year NOT_SELECTED).

(** [df_comparison]: built only under a target selection, and left as
    [pd.DataFrame()] unless a comparison year and months are chosen. *)
Definition select_comparison (df : DataFrame)
    (comparison_year : string) (comparison_selected_months : list string)
    (fs : filter_values) : DataFrame :=
  match is_comparison_active comparison_year, comparison_selected_months with
  | true, _ :: _ =>
      mkFrame (columns df)
        (apply_filters fs
           (filter (fun r => String.eqb (year r) comparison_year
                             && isin (month r) comparison_selected_months)
              (rows df)))
  | _, _ => no_frame
  end.

(** [df_comp_trend_base]. *)
Definition select_comp_trend_base (df : DataFrame)
    (comparison_year : string) (comparison_selected_months : list string)
    (fs : filter_values) : DataFrame :=
  match is_comparison_active comparison_year,
        max_str comparison_selected_months with
  | true, Some max_comp_month_str =>
      let all_months_in_range_comp :=
        sort_values String.leb
          (filter (fun m => String.leb m max_comp_month_str)
             (all_months_two_digits df)) in
      mkFrame (columns df)
        (apply_filters fs
           (filter (fun r => String.eqb (year r) comparison_year
                             && isin (month r) all_months_in_range_comp)
              (rows df)))
  | _, _ => no_frame
  end.

(** The condition a row meets under the detail filters. *)
Definition passes (fs : filter_values) (r : Row) : bool :=
  forallb
    (fun f : dim * list string =>
       match snd f with
       | [] => true
       | _ :: _ => isin (dim_value (fst f) r) (snd f)
       end)
    fs.

End Filter.
Import Filter.

(* ================================================================= *)
(** ** Aggregation: group-by sums and the trend table *)

Module Aggregate.

(** [df.groupby(key)]: the groups in the order of their sorted keys. *)
Definition groupby {K} (eqb leb : K -> K -> bool) (key : Row -> K)
    (rs : list Row) : list (K * list Row) :=
  map (fun k => (k, filter (fun r => eqb (key r) k) rs))
    (sort_values leb (unique eqb (map key rs))).

(** ['min'] of a group's column. *)
Definition zmin (l : list Z) : Z :=
  match l with
  | [] => 0
  | x :: l' => fold_left Z.min l' x
  end.

(** The grouping column of the trend: 년월 or 년분기. *)
Inductive time_column :=
| YearMonth
| YearQuarter.

(** A row of the frame [aggregate_profit_trend] returns:
    display_label, 영업이익, 매출액 and 기간. *)
Record TrendRow := mkTrend {
  display_label : string;
  trend_profit : Z;
  trend_revenue : Z;
  period : string
}.

(** A group before [sort_col] and [time_col] are dropped. *)
Record TrendGroup := mkGroup {
  time_label : string;
  group_sort : Z;
  group_profit : Z;
  group_revenue : Z
}.

Definition pair_eqb (a b : string * Z) : bool :=
  String.eqb (fst a) (fst b) && (snd a =? snd b).

Definition pair_leb (a b : string * Z) : bool :=
  if String.eqb (fst a) (fst b) then snd a <=? snd b
  else String.leb (fst a) (fst b).

Definition trend_groups (time_col : time_column) (sort_col : Row -> Z)
    (rs : list Row) : list TrendGroup :=
  match time_col with
  | YearQuarter =>
      map (fun g : string * list Row =>
             mkGroup (fst g) (zmin (map sort_col (snd g)))
               (zsum (map operating_profit (snd g)))
               (zsum (map revenue (snd g))))
        (groupby String.eqb String.leb
           (fun r => String.append (year r) (String.append " " (quarter r)))
           rs)
  | YearMonth =>
      map (fun g : string * Z * list Row =>
             mkGroup (fst (fst g)) (snd (fst g))
               (zsum (map operating_profit (snd g)))
               (zsum (map revenue (snd g))))
        (groupby pair_eqb pair_leb (fun r => (ym r, sort_col r)) rs)
  end.

Definition label_of (time_col : time_column) (g : TrendGroup) : string :=
  match time_col with
  | YearQuarter => time_label g
  | YearMonth => lstrip0 (substring 4 2 (time_label g))
  end.

(** [aggregate_profit_trend]; [None] for an empty input. *)
Definition aggregate_profit_trend (df_input : DataFrame)
    (time_col : time_column) (sort_col : Row -> Z) (is_cumulative : bool)
    (period_label : string) : option (list TrendRow) :=
  if empty df_input then None
  else
    let df_agg :=
      sort_values (fun a b => group_sort a <=? group_sort b)
        (trend_groups time_col sort_col (rows df_input)) in
    let labels := map (label_of time_col) df_agg in
    let profit := map group_profit df_agg in
    let revenue := map group_revenue df_agg in
    let profit' := if is_cumulative then cumsum profit else profit in
    let revenue' := if is_cumulative then cumsum revenue else revenue in
    Some (map (fun t : string * (Z * Z) =>
                 mkTrend (fst t) (fst (snd t)) (snd (snd t)) period_label)
            (combine labels (combine profit' revenue'))).

(** [pd.merge(left, right, on=key, how='outer')]: one entry per pair
    of rows with the same key, and one per unmatched row, by sorted key. *)
Definition merge_outer {K A B} (eqb leb : K -> K -> bool)
    (kl : A -> K) (kr : B -> K) (left : list A) (right : list B)
  : list (K * option A * option B) :=
  flat_map
    (fun k =>
       let ls := filter (fun a => eqb (kl a) k) left in
       let rs := filter (fun b => eqb (kr b) k) right in
       match ls, rs with
       | [], _ => map (fun b => (k, None, Some b)) rs
       | _, [] => map (fun a => (k, Some a, None)) ls
       | _, _ =>
           flat_map (fun a => map (fun b => (k, Some a, Some b)) rs) ls
       end)
    (sort_values leb (unique eqb (map kl left ++ map kr right))).

End Aggregate.
Import Aggregate.

(* ================================================================= *)
(** ** Variance tables: breakdown, grand total, trend *)

Module Variance.

(** The percentage column of a merged frame, on one row:
    [np.where(comp == 0, np.where(target == 0, 0, np.inf),
              (diff / comp) * 100)]. *)
Definition rate_where (target comp diff : Z) : np_float :=
  np_where (comp =? 0)
    (np_where (target =? 0) (of_Z 0) PosInf)
    (times100 (np_true_divide diff comp)).

(** A row of a merged frame after the variance columns are added:
    the key, 영업이익, 영업이익 증감, 영업이익 증감률, 매출액, 매출액 증감,
    매출액 증감률. *)
Record VarianceRow {K : Type} := mkVar {
  var_key : K;
  var_profit : Z;
  var_profit_diff : Z;
  var_profit_rate : np_float;
  var_revenue : Z;
  var_revenue_diff : Z;
  var_revenue_rate : np_float
}.
Arguments VarianceRow K : clear implicits.

(** [fillna(0)] after the merge, then the difference and rate columns.
    The arguments are the target and comparison (profit, revenue). *)
Definition variance_row {K} (k : K) (t c : option (Z * Z)) : VarianceRow K :=
  let profit := match t with Some v => fst v | None => 0 end in
  let rev := match t with Some v => snd v | None => 0 end in
  let comp_profit := match c with Some v => fst v | None => 0 end in
  let comp_rev := match c with Some v => snd v | None => 0 end in
  let rev_diff := rev - comp_rev in
  let profit_diff := profit - comp_profit in
  mkVar K k profit profit_diff (rate_where profit comp_profit profit_diff)
    rev rev_diff (rate_where rev comp_rev rev_diff).

(** *** Breakdown by organisational columns *)

Definition breakdown_cols (analysis_menu : string) : list dim :=
  if String.eqb analysis_menu "수익코드" then [RevenueCode]
  else if String.eqb analysis_menu "사업부" then [BusinessUnit; Brand; Campus]
  else if String.eqb analysis_menu "브랜드" then [Brand; Campus]
  else if String.eqb analysis_menu "캠퍼스" then [Campus]
  else [RevenueCode].

Fixpoint key_eqb (a b : list string) : bool :=
  match a, b with
  | [], [] => true
  | x :: a', y :: b' => String.eqb x y && key_eqb a' b'
  | _, _ => false
  end.

Fixpoint key_leb (a b : list string) : bool :=
  match a, b with
  | [], _ => true
  | _ :: _, [] => false
  | x :: a', y :: b' =>
      if String.eqb x y then key_leb a' b' else String.leb x y
  end.

(** A row of [groupby(breakdown_cols)[['매출액', '영업이익']].sum()]. *)
Record GroupRow := mkSums {
  group_key : list string;
  sum_revenue : Z;
  sum_profit : Z
}.

Definition group_sums (cols : list dim) (df : DataFrame) : list GroupRow :=
  map (fun g : list string * list Row =>
         mkSums (fst g) (zsum (map revenue (snd g)))
           (zsum (map operating_profit (snd g))))
    (groupby key_eqb key_leb (fun r => map (fun d => dim_value d r) cols)
       (rows df)).

(** [df_display_raw]: the target groups alone, or the merged frame with
    the variance columns. *)
Inductive DisplayRaw :=
| TargetOnly (t : list GroupRow)
| Compared (t : list (VarianceRow (list string))).

Definition breakdown_table (cols : list dim)
    (current_df df_comparison : DataFrame) (comparison_active : bool)
  : DisplayRaw :=
  let df_target_group := group_sums cols current_df in
  if comparison_active && negb (empty df_comparison) then
    let df_comp_group := group_sums cols df_comparison in
    Compared
      (map (fun m : list string * option GroupRow * option GroupRow =>
              let pr (g : GroupRow) := (sum_profit g, sum_revenue g) in
              variance_row (fst (fst m))
                (option_map pr (snd (fst m))) (option_map pr (snd m)))
         (merge_outer key_eqb key_leb group_key group_key
            df_target_group df_comp_group))
  else TargetOnly df_target_group.

(** Sum of a float column; NaN entries are skipped. *)
Definition fsum (l : list np_float) : np_float :=
  fold_left (fun acc x => if is_nan x then acc else fadd acc x) l (of_Z 0).

(** [df_display_raw.select_dtypes(include=np.number).sum().to_dict()]:
    a dict from the name of each numeric column to its sum, as native
    Python numbers. *)
Definition column_sums (raw : DisplayRaw) : dict num :=
  match raw with
  | TargetOnly t =>
      [ ("매출액", Int (zsum (map sum_revenue t)));
        ("영업이익", Int (zsum (map sum_profit t))) ]
  | Compared t =>
      [ ("영업이익", Int (zsum (map var_profit t)));
        ("영업이익 증감", Int (zsum (map var_profit_diff t)));
        ("영업이익 증감률", Float (fsum (map var_profit_rate t)));
        ("매출액", Int (zsum (map var_revenue t)));
        ("매출액 증감", Int (zsum (map var_revenue_diff t)));
        ("매출액 증감률", Float (fsum (map var_revenue_rate t))) ]
  end.

(** "Grand Total Calculation".  The entries of [total_row_data] are
    native Python numbers, and the arguments of [np.where] are evaluated
    before it is called: the quotient is computed by Python's [/] even
    when the comparison total is zero. *)
Definition grand_total (comparison_active : bool) (raw : DisplayRaw)
  : result (dict num) :=
  let total_row_data := column_sums raw in
  if comparison_active then
    p <- dict_item total_row_data "영업이익" ;;
    pd <- dict_item total_row_data "영업이익 증감" ;;
    let total_comp_profit := py_sub p pd in
    r <- dict_item total_row_data "매출액" ;;
    rd <- dict_item total_row_data "매출액 증감" ;;
    let total_comp_revenue := py_sub r rd in
    p' <- dict_item total_row_data "영업이익" ;;
    pd' <- dict_item total_row_data "영업이익 증감" ;;
    pq <- py_truediv pd' total_comp_profit ;;
    let total_profit_rate :=
      np_where (py_is_zero total_comp_profit)
        (np_where (py_is_zero p') (of_Z 0) PosInf) (times100 pq) in
    r' <- dict_item total_row_data "매출액" ;;
    rd' <- dict_item total_row_data "매출액 증감" ;;
    rq <- py_truediv rd' total_comp_revenue ;;
    let total_revenue_rate :=
      np_where (py_is_zero total_comp_revenue)
        (np_where (py_is_zero r') (of_Z 0) PosInf) (times100 rq) in
    Ok (dict_set
          (dict_set total_row_data "영업이익 증감률" (Float total_profit_rate))
          "매출액 증감률" (Float total_revenue_rate))
  else Ok total_row_data.

(** *** Trend table *)

(** [df_trend_raw]: the target trend alone, or merged with the
    comparison trend on [display_label]. *)
Inductive TrendRaw :=
| TrendTargetOnly (t : list TrendRow)
| TrendCompared (t : list (VarianceRow string)).

Definition trend_table (df_trend_target : list TrendRow)
    (df_trend_comp : option (list TrendRow)) : TrendRaw :=
  match df_trend_comp with
  | Some comp =>
      TrendCompared
        (map (fun m : string * option TrendRow * option TrendRow =>
                let pr (t : TrendRow) := (trend_profit t, trend_revenue t) in
                variance_row (fst (fst m))
                  (option_map pr (snd (fst m))) (option_map pr (snd m)))
           (merge_outer String.eqb String.leb display_label display_label
              df_trend_target comp))
  | None => TrendTargetOnly df_trend_target
  end.

End Variance.
Import Variance.

(* ================================================================= *)
(** ** Cost analysis and rule-based insights *)

Module Insight.

(** A row of the frame [analyze_cost_breakdown] returns:
    비용항목, 주요기간, 비교기간, 증감액, 증감률. *)
Record CostRow := mkCost {
  cost_item : string;
  target_val : Z;
  comp_val : Z;
  diff : Z;
  diff_rate : np_float
}.

(** [df[col].sum() if col in df.columns else 0]. *)
Definition cost_total (df : DataFrame) (col : string) : Z :=
  if isin col (columns df) then col_sum (cost_of col) df else 0.

(** [analyze_cost_breakdown]; the display unit and divisor it is passed
    are not used by it. *)
Definition analyze_cost_breakdown (df_target : DataFrame)
    (df_comparison : option DataFrame) (cost_columns : list string)
  : list CostRow :=
  let target_costs := map (fun col => (col, cost_total df_target col))
                        cost_columns in
  let comp_costs :=
    match df_comparison with
    | Some dfc =>
        if negb (empty dfc)
        then map (fun col => (col, cost_total dfc col)) cost_columns
        else map (fun col => (col, 0)) cost_columns
    | None => map (fun col => (col, 0)) cost_columns
    end in
  map (fun col =>
         let target_val :=
           match dict_get target_costs col with Some v => v | None => 0 end in
         let comp_val :=
           match dict_get comp_costs col with Some v => v | None => 0 end in
         let diff := target_val - comp_val in
         let diff_rate :=
           if negb (comp_val =? 0)
           then times100 (np_true_divide diff comp_val)
           else if target_val =? 0 then of_Z 0 else PosInf in
         mkCost col target_val comp_val diff diff_rate)
    cost_columns.

Inductive insight_type :=
| positive
| negative
| neutral.

(** An entry of the insight list: the keys 'type', 'title', 'content'. *)
Record insight := mkInsight {
  type : insight_type;
  title : string;
  content : string
}.

(** [(diff / comp * 100) if comp != 0 else 0]: the rate of the summary
    and category rules. *)
Definition rate_or_zero (diff comp : Z) : np_float :=
  if negb (comp =? 0) then times100 (np_true_divide diff comp) else of_Z 0.

(** An entry of [category_changes]. *)
Record CategoryChange := mkChange {
  category : string;
  cat_target : Z;
  cat_comp : Z;
  cat_diff : Z;
  cat_rate : np_float
}.

Definition category_changes (cost_categories : dict (list string))
    (df_target df_comparison : DataFrame) : list CategoryChange :=
  map (fun entry : string * list string =>
         let cols := snd entry in
         let target_sum :=
           zsum (map (fun col => col_sum (cost_of col) df_target)
                   (filter (fun col => isin col (columns df_target)) cols)) in
         let comp_sum :=
           zsum (map (fun col => col_sum (cost_of col) df_comparison)
                   (filter (fun col => isin col (columns df_comparison))
                      cols)) in
         let diff := target_sum - comp_sum in
         mkChange (fst entry) target_sum comp_sum diff
           (rate_or_zero diff comp_sum))
    cost_categories.

Definition cat (l : list string) : string := String.concat "" l.

Section Rules.
(** The renderings used in the texts: the format [:.1f] of a rate and
    [format_currency] at the chosen display unit and divisor. *)
Variable format_1f : np_float -> string.
Variable format_currency : Z -> string.

Definition revenue_insight (revenue_rate : np_float) (revenue_diff : Z)
  : insight :=
  if gt revenue_rate 5 then
    mkInsight positive "📈 매출 성장"
      (cat ["매출액이 전기 대비 "; format_1f revenue_rate;
            "% 증가했습니다. ("; format_currency revenue_diff; " 증가)"])
  else if lt revenue_rate (-5) then
    mkInsight negative "📉 매출 감소"
      (cat ["매출액이 전기 대비 "; format_1f (fabs revenue_rate);
            "% 감소했습니다. ("; format_currency (Z.abs revenue_diff);
            " 감소)"])
  else
    mkInsight neutral "➡️ 매출 유지"
      (cat ["매출액이 전기와 유사한 수준입니다. (변동률: ";
            format_1f revenue_rate; "%)"]).

Definition profit_insight (profit_rate : np_float) : list insight :=
  if gt profit_rate 10 then
    [mkInsight positive "💰 수익성 개선"
       (cat ["영업이익이 전기 대비 "; format_1f profit_rate;
             "% 증가했습니다. 비용 효율화 또는 매출 증가의 효과로 보입니다."])]
  else if lt profit_rate (-10) then
    [mkInsight negative "⚠️ 수익성 악화"
       (cat ["영업이익이 전기 대비 "; format_1f (fabs profit_rate);
             "% 감소했습니다. 비용 구조 점검이 필요합니다."])]
  else [].

(** The rules on the category with the largest increase and the one
    with the largest decrease; an empty [cost_categories] makes
    [sort_values('diff')] raise. *)
Definition category_insights (changes : list CategoryChange)
  : result (list insight) :=
  match changes with
  | [] => Raise (KeyError "diff")
  | first :: _ =>
      let df_cat_sorted :=
        sort_values (fun a b => cat_diff b <=? cat_diff a) changes in
      let top_increase := hd first df_cat_sorted in
      let top_decrease := last df_cat_sorted first in
      Ok ((if 0 <? cat_diff top_increase then
             [mkInsight negative
                (cat ["🔺 비용 증가 주요 항목: "; category top_increase])
                (cat [category top_increase; " 비용이 ";
                      format_currency (cat_diff top_increase);
                      " 증가했습니다 ("; format_1f (cat_rate top_increase);
                      "% ↑). 해당 카테고리의 세부 항목을 점검하세요."])]
           else [])
          ++
          (if cat_diff top_decrease <? 0 then
             [mkInsight positive
                (cat ["🔻 비용 절감 항목: "; category top_decrease])
                (cat [category top_decrease; " 비용이 ";
                      format_currency (Z.abs (cat_diff top_decrease));
                      " 감소했습니다 (";
                      format_1f (fabs (cat_rate top_decrease));
                      "% ↓). 효율화가 잘 이루어지고 있습니다."])]
           else []))
  end.

(** The rule on single cost items: among the items whose comparison
    amount exceeds 1,000,000, the three largest rates, each reported
    when above 20.  An empty [cost_columns] makes the column lookup
    raise. *)
Definition item_insights (cost_analysis : list CostRow)
  : result (list insight) :=
  match cost_analysis with
  | [] => Raise (KeyError "비교기간")
  | _ :: _ =>
      let significant_costs :=
        filter (fun row => 1000000 <? comp_val row) cost_analysis in
      let top_increase_items :=
        firstn 3
          (sort_values (fun a b => fle (diff_rate b) (diff_rate a))
             significant_costs) in
      Ok (flat_map
            (fun row =>
               if gt (diff_rate row) 20 then
                 [mkInsight negative
                    (cat ["⚡ "; cost_item row; " 급증"])
                    (cat [cost_item row; "이(가) ";
                          format_1f (diff_rate row);
                          "% 급증했습니다. 원인 파악이 필요합니다."])]
               else [])
            top_increase_items)
  end.

(** The branch taken without comparison data. *)
Definition current_period_insights (df_target : DataFrame)
    (total_revenue_target operating_profit_target : Z) : list insight :=
  let summary :=
    mkInsight neutral "📊 현재 기간 분석"
      (cat ["총 매출액 "; format_currency total_revenue_target;
            ", 영업이익 "; format_currency operating_profit_target;
            "입니다."]) in
  let total_cost :=
    if isin "총비용" (columns df_target)
    then col_sum total_cost df_target else 0 in
  if 0 <? total_cost then
    let profit_margin :=
      if negb (total_revenue_target =? 0)
      then times100
             (np_true_divide operating_profit_target total_revenue_target)
      else of_Z 0 in
    [ summary;
      mkInsight (if gt profit_margin 10 then positive else negative)
        "📈 영업이익률"
        (cat ["현재 영업이익률은 "; format_1f profit_margin; "%입니다. ";
              if gt profit_margin 10 then "양호한 수준입니다."
              else "개선이 필요합니다."]) ]
  else [summary].

Definition generate_ai_insights (df_target : DataFrame)
    (df_comparison : option DataFrame) (cost_columns : list string)
    (cost_categories : dict (list string))
    (total_revenue_target total_revenue_comp : Z)
    (operating_profit_target operating_profit_comp : Z)
  : result (list insight) :=
  match df_comparison with
  | Some dfc =>
      if negb (empty dfc) then
        let revenue_diff := total_revenue_target - total_revenue_comp in
        let profit_diff :=
          operating_profit_target - operating_profit_comp in
        let revenue_rate := rate_or_zero revenue_diff total_revenue_comp in
        let profit_rate := rate_or_zero profit_diff operating_profit_comp in
        let summary :=
          revenue_insight revenue_rate revenue_diff
            :: profit_insight profit_rate in
        by_category <-
          category_insights
            (category_changes cost_categories df_target dfc) ;;
        by_item <-
          item_insights
            (analyze_cost_breakdown df_target df_comparison cost_columns) ;;
        Ok (summary ++ by_category ++ by_item)
      else
        Ok (current_period_insights df_target total_revenue_target
              operating_profit_target)
  | None =>
      Ok (current_period_insights df_target total_revenue_target
            operating_profit_target)
  end.
End Rules.

End Insight.
Import Insight.

(* ================================================================= *)
(** ** The analysis page: filters, totals, tables and insights in order *)

Module Dashboard.

(** The choice "추이 분석 단위": 월별 or 분기별. *)
Inductive agg_type :=
| Monthly
| Quarterly.

(** What the sidebar and the comparison boxes hand to the page. *)
Record Inputs := mkInputs {
  analysis_menu : string;
  selected_years : list string;
  selected_months : list string;
  selected_filter_values : filter_values;
  time_agg_type : agg_type;
  is_cumulative : bool;
  comparison_year : string;
  comparison_selected_months : list string
}.

(** What the page computes before formatting. *)
Record Report := mkReport {
  total_revenue_target : Z;
  total_cost_target : Z;
  operating_profit_target : Z;
  insights : list insight;
  df_display_raw : DisplayRaw;
  total_row_data : dict num;
  cost_df : option (list CostRow);
  df_trend_raw : option TrendRaw
}.

(** The page shows the "no data" warning or the analysis. *)
Inductive page :=
| NoData
| Analysis (r : Report).

Section Page.
Variable format_1f : np_float -> string.
Variable format_currency : Z -> string.

Definition render (df : DataFrame) (i : Inputs) : result page :=
  let active := is_comparison_active (comparison_year i) in
  let df_target :=
    select_target df (selected_years i) (selected_months i)
      (selected_filter_values i) in
  let df_trend_base :=
    select_trend_base df (selected_years i) (selected_months i)
      (selected_filter_values i) in
  let df_comparison :=
    select_comparison df (comparison_year i)
      (comparison_selected_months i) (selected_filter_values i) in
  let df_comp_trend_base :=
    select_comp_trend_base df (comparison_year i)
      (comparison_selected_months i) (selected_filter_values i) in
  let current_df := df_target in
  if empty current_df then Ok NoData
  else
    let total_revenue_target := col_sum revenue current_df in
    let total_cost_target := col_sum total_cost current_df in
    let operating_profit_target := col_sum operating_profit current_df in
    let compared := active && negb (empty df_comparison) in
    let total_revenue_comp :=
      if compared then col_sum revenue df_comparison else 0 in
    let operating_profit_comp :=
      if compared then col_sum operating_profit df_comparison else 0 in
    insights <-
      generate_ai_insights format_1f format_currency current_df
        (if active then Some df_comparison else None)
        COST_COLUMNS COST_CATEGORIES
        total_revenue_target total_revenue_comp
        operating_profit_target operating_profit_comp ;;
    let df_display_raw :=
      breakdown_table (breakdown_cols (analysis_menu i)) current_df
        df_comparison active in
    total_row_data <- grand_total active df_display_raw ;;
    let existing_cost_cols :=
      filter (fun col => isin col (columns current_df)) COST_COLUMNS in
    let cost_df :=
      match existing_cost_cols with
      | [] => None
      | _ :: _ =>
          Some (analyze_cost_breakdown current_df
                  (if active then Some df_comparison else None)
                  existing_cost_cols)
      end in
    let time_col :=
      match time_agg_type i with
      | Monthly => YearMonth
      | Quarterly => YearQuarter
      end in
    let target_label_full :=
      cat ["주요기간 ("; String.concat ", " (selected_years i); "년)"] in
    let comp_label_full :=
      cat ["비교기간 ("; comparison_year i; "년)"] in
    let df_trend_target :=
      aggregate_profit_trend df_trend_base time_col sort_key
        (is_cumulative i) target_label_full in
    let df_trend_comp :=
      if active && negb (empty df_comp_trend_base)
      then aggregate_profit_trend df_comp_trend_base time_col sort_key
             (is_cumulative i) comp_label_full
      else None in
    Ok (Analysis
          (mkReport total_revenue_target total_cost_target
             operating_profit_target insights df_display_raw
             total_row_data cost_df
             (option_map (fun t => trend_table t df_trend_comp)
                df_trend_target))).
End Page.

End Dashboard.
Import Dashboard.

(* ================================================================= *)
(** ** The percentage policy of the specification *)

Module Policy.

(** The percentage-delta policy in the words of the specification
    (section 4.4): the quotient for a comparison that is not zero, 0 when
    comparison and target are both zero, +infinity when only the
    comparison is zero. *)
Definition delta_policy (target comparison : Z) (pct : np_float) : Prop :=
  (comparison <> 0 ->
   pct = Finite ((inject_Z (target - comparison) / inject_Z comparison) * 100)%Q)
  /\ (comparison = 0 -> target = 0 -> pct = of_Z 0)
  /\ (comparison = 0 -> target <> 0 -> pct = PosInf).

(** The policy the summary and category rules of the insight generator
    follow: the quotient for a comparison that is not zero, and 0 for a
    zero comparison, whatever the target. *)
Definition zero_policy (target comparison : Z) (pct : np_float) : Prop :=
  (comparison <> 0 ->
   pct = Finite ((inject_Z (target - comparison) / inject_Z comparison) * 100)%Q)
  /\ (comparison = 0 -> pct = of_Z 0).

(** A float that is the integer [k] as a number. *)
Definition rate_is (x : np_float) (k : Z) : Prop :=
  exists q, x = Finite q /\ (q == inject_Z k)%Q.

(** Mean of a float column, for the comparison with the grand total. *)
Definition fmean (l : list np_float) : np_float :=
  fdiv (fsum l) (of_Z (Z.of_nat (List.length l))).

(** Equality of two floats as numbers. *)
Definition feq (x y : np_float) : bool :=
  match x, y with
  | Finite p, Finite q => Qeq_bool p q
  | PosInf, PosInf | NegInf, NegInf => true
  | _, _ => false
  end.

(** An insight that is not one of the two profit-direction insights. *)
Definition not_profit_direction (i : insight) : Prop :=
  title i <> "💰 수익성 개선" /\ title i <> "⚠️ 수익성 악화".

(** The values [get_quarter] returns, and the frames whose 분기 column
    holds only such values, as every loaded ledger does. *)
Definition QUARTERS : list string := ["Q1"; "Q2"; "Q3"; "Q4"; "N/A"].

Definition valid_quarters (df : DataFrame) : bool :=
  forallb (fun r => isin (quarter r) QUARTERS) (rows df).

Fixpoint has_char (c : ascii) (s : string) : bool :=
  match s with
  | EmptyString => false
  | String c' s' => Ascii.eqb c c' || has_char c s'
  end.

(** The percentages of a merged row that has no partner in the other
    period: 0, +infinity, or -100. *)
Definition unmatched_rate (x : np_float) : Prop :=
  x = of_Z 0 \/ x = PosInf \/ rate_is x (-100).

End Policy.
Import Policy.

(* ================================================================= *)
(** ** Sample sheets and ledgers *)

Module Samples.

(** A sheet row with the given cost cells for the cost columns [cs]. *)
Definition sheet_row (cs : list string) (period : Z)
    (code camp br unit : string) (rev : Z) (cost : dict Z) : dict cell :=
  [ ("년월", CNum period); ("수익코드", CStr code); ("캠퍼스", CStr camp);
    ("브랜드", CStr br); ("사업부", CStr unit); ("매출액", CNum rev) ]
  ++ map (fun c => (c, CNum (match dict_get cost c with
                             | Some z => z
                             | None => 0
                             end))) cs.

Definition sheet (cs : list string) (rs : list (dict cell)) : RawTable :=
  mkRaw (["년월"; "수익코드"; "캠퍼스"; "브랜드"; "사업부"; "매출액"] ++ cs) rs.

(** The ledger [load_data] returns for a sheet, digits read in decimal. *)
Definition ledger (file : RawTable) : DataFrame :=
  match load_data digits_int digits_int file with
  | inr (df, _) => df
  | inl _ => no_frame
  end.

(** Two months of one cost centre, every cost column present. *)
Definition sheet_two_months : RawTable :=
  sheet COST_COLUMNS
    [ sheet_row COST_COLUMNS 202401 "R1" "C1" "B1" "U1" 1000000
        [("관리자A", 600000)];
      sheet_row COST_COLUMNS 202402 "R1" "C1" "B1" "U1" 1200000
        [("관리자A", 700000)] ].

(** One row whose sheet has only the first 44 cost columns, each
    holding 1. *)
Definition first44 : list string := firstn 44 COST_COLUMNS.

Definition sheet_44_columns : RawTable :=
  sheet first44
    [ sheet_row first44 202401 "R1" "C1" "B1" "U1" 1000
        (map (fun c => (c, 1)) first44) ].

(** Stand-ins for the two renderings used in the insight texts. *)
Definition show_rate (x : np_float) : string :=
  match x with
  | Finite q => string_of_Z (Qfloor q)
  | PosInf => "inf"
  | NegInf => "-inf"
  | NaN => "nan"
  end.

Definition show_won (z : Z) : string := String.append (string_of_Z z) " 원".

(** January of two years, one revenue code. *)
Definition sheet_two_years : RawTable :=
  sheet COST_COLUMNS
    [ sheet_row COST_COLUMNS 202301 "R1" "C1" "B1" "U1" 500000
        [("관리자A", 300000)];
      sheet_row COST_COLUMNS 202401 "R1" "C1" "B1" "U1" 1000000
        [("관리자A", 600000)] ].

(** January of two years; the earlier year has a row with no revenue and
    no cost. *)
Definition sheet_zero_comparison : RawTable :=
  sheet COST_COLUMNS
    [ sheet_row COST_COLUMNS 202301 "R1" "C1" "B1" "U1" 0 [];
      sheet_row COST_COLUMNS 202401 "R1" "C1" "B1" "U1" 5000 [] ].

(** January of two years, three revenue codes of differing size. *)
Definition sheet_three_codes : RawTable :=
  sheet COST_COLUMNS
    [ sheet_row COST_COLUMNS 202301 "R1" "C1" "B1" "U1" 100 [("관리자A", 50)];
      sheet_row COST_COLUMNS 202301 "R2" "C1" "B1" "U1" 1000
        [("관리자A", 500)];
      sheet_row COST_COLUMNS 202301 "R3" "C1" "B1" "U1" 10000
        [("관리자A", 5000)];
      sheet_row COST_COLUMNS 202401 "R1" "C1" "B1" "U1" 200 [("관리자A", 50)];
      sheet_row COST_COLUMNS 202401 "R2" "C1" "B1" "U1" 1100
        [("관리자A", 500)];
      sheet_row COST_COLUMNS 202401 "R3" "C1" "B1" "U1" 10100
        [("관리자A", 5000)] ].

(** January of two years; the code R2 appears in the later year only. *)
Definition sheet_new_code : RawTable :=
  sheet COST_COLUMNS
    [ sheet_row COST_COLUMNS 202301 "R1" "C1" "B1" "U1" 500000
        [("관리자A", 300000)];
      sheet_row COST_COLUMNS 202401 "R1" "C1" "B1" "U1" 600000
        [("관리자A", 300000)];
      sheet_row COST_COLUMNS 202401 "R2" "C1" "B1" "U1" 400000
        [("관리자A", 300000)] ].

(** January 2024 against 2023: by revenue code, by month. *)
Definition january (comparison_year : string)
    (comparison_months : list string) (unit : agg_type) : Inputs :=
  mkInputs "수익코드" ["2024"] ["01"] [(RevenueCode, [])] unit false
    comparison_year comparison_months.

End Samples.
Import Samples.

From Stdlib Require Import Permutation.

(** The rows the outer merge makes for one key. *)
Definition merged_for {K A B} (eqb : K -> K -> bool)
    (kl : A -> K) (kr : B -> K) (left : list A) (right : list B) (k : K)
  : list (K * option A * option B) :=
  let ls := filter (fun a => eqb (kl a) k) left in
  let rs := filter (fun b => eqb (kr b) k) right in
  match ls, rs with
  | [], _ => map (fun b => (k, None, Some b)) rs
  | _, [] => map (fun a => (k, Some a, None)) ls
  | _, _ => flat_map (fun a => map (fun b => (k, Some a, Some b)) rs) ls
  end.

(* ================================================================= *)
(** ** Display helpers: the rate cells and the month box *)

Module Display.

Definition is_inf (x : np_float) : bool :=
  match x with PosInf => true | _ => false end.

(** [x == 0] on a float. *)
Definition is_zero (x : np_float) : bool :=
  match x with
  | Finite q => Qeq_bool q 0
  | _ => false
  end.

(** The cell of a percentage column, in the breakdown, the grand total,
    the cost table and the trend table:
    [f"{x:,.1f} %" if not pd.isna(x) and x != np.inf
     else ('N/A' if x == 0 else 'Inf %')]. *)
Definition format_rate (format_c1f : np_float -> string) (x : np_float)
  : string :=
  if negb (is_nan x) && negb (is_inf x)
  then String.append (format_c1f x) " %"
  else if is_zero x then "N/A" else "Inf %".

(** [display_months]: the months of the ledger without leading zeros. *)
Definition display_months (df : DataFrame) : list string :=
  map lstrip0 (all_months_two_digits df).

(** [month_map = {m.lstrip('0'): m for m in all_months_two_digits}]. *)
Definition month_map (df : DataFrame) : dict string :=
  fold_left (fun d m => dict_set d (lstrip0 m) m)
    (all_months_two_digits df) [].

(** [[month_map[m] for m in selected_display_months]]. *)
Fixpoint selected_months_of (map_ : dict string) (chosen : list string)
  : result (list string) :=
  match chosen with
  | [] => Ok []
  | d :: rest =>
      m <- dict_item map_ d ;;
      ms <- selected_months_of map_ rest ;;
      Ok (m :: ms)
  end.

End Display.
Import Display.

(* ================================================================= *)
(** ** Heat map: [create_heatmap] *)

Module Heatmap.

Definition month_order : list string :=
  ["01"; "02"; "03"; "04"; "05"; "06"; "07"; "08"; "09"; "10"; "11"; "12"].

(** [f"{int(m)}월"] for a month of [month_order]. *)
Definition month_label (m : string) : string :=
  String.append
    (match digits_int m with
     | Some k => string_of_Z k
     | None => m
     end) "월".

(** The pivot of the heat map: the sorted group values, the labels of
    the months kept, the summed cells, and the cells divided by the
    display divisor, which the figure and the table show. *)
Record HeatmapData := mkHeat {
  heat_index : list string;
  heat_columns : list string;
  heat_values : list (list Z);
  heat_scaled : list (list np_float)
}.

(** The months of [month_order] that occur in the frame. *)
Definition existing_months (df : DataFrame) : list string :=
  filter
    (fun m => isin m (sort_values String.leb
                        (unique String.eqb (map month (rows df)))))
    month_order.

(** [create_heatmap]: the pivot table of [value_column] by
    [grouping_column] and 월 with ['sum'] and [fill_value=0], restricted
    to the months of [month_order]. *)
Definition create_heatmap (df : DataFrame) (grouping_column : dim)
    (value_column : Row -> Z) (display_divisor : Z) : HeatmapData :=
  let index :=
    sort_values String.leb
      (unique String.eqb (map (dim_value grouping_column) (rows df))) in
  let months := existing_months df in
  let values :=
    map (fun g =>
           map (fun m =>
                  zsum (map value_column
                          (filter (fun r =>
                                     String.eqb (dim_value grouping_column r) g
                                     && String.eqb (month r) m)
                             (rows df))))
             months)
      index in
  mkHeat index (map month_label months) values
    (map (map (fun v => np_true_divide v display_divisor)) values).

End Heatmap.
Import Heatmap.

(* ================================================================= *)
(** ** The cost table of the page *)

Module CostTable.

(** [existing_cost_cols]: the cost columns the shown frame has. *)
Definition existing_cost_cols (current_df : DataFrame) : list string :=
  filter (fun col => isin col (columns current_df)) COST_COLUMNS.

(** [cost_df]: built when some cost column exists; the comparison frame
    is passed only under a comparison year. *)
Definition cost_df (current_df df_comparison : DataFrame) (active : bool)
  : option (list CostRow) :=
  match existing_cost_cols current_df with
  | [] => None
  | cols =>
      Some (analyze_cost_breakdown current_df
              (if active then Some df_comparison else None) cols)
  end.

End CostTable.
Import CostTable.

(* ================================================================= *)
(** ** More sample pages *)

Module Pages.

(** The report of a page, when it shows the analysis. *)
Definition report_of (p : result page) : Report :=
  match p with
  | Ok (Analysis r) => r
  | _ => mkReport 0 0 0 [] (TargetOnly []) [] None None
  end.

(** January 2024 of the two-year ledger with no comparison year, and
    January 2024 of the three-code ledger against January 2023. *)
Definition report_plain : Report :=
  report_of (render show_rate show_won (ledger sheet_two_years)
               (january NOT_SELECTED [] Monthly)).

Definition report_compared : Report :=
  report_of (render show_rate show_won (ledger sheet_three_codes)
               (january "2023" ["01"] Monthly)).

End Pages.
Import Pages.

(* ================================================================= *)
(** ** The ledgers on which pandas' sums are exact *)

Module Domain.

(** Whole numbers up to 2^53 in absolute value are float64 values, and
    int64 values too. *)
Definition EXACT_BOUND : Z := 2 ^ 53.

(** A column whose absolute values add up to at most 2^53: every sum
    pandas forms over some of its rows, in whatever order, is then a
    whole number within the bound, and neither rounds nor wraps. *)
Definition exact_column (f : Row -> Z) (rs : list Row) : bool :=
  zsum (map (fun r => Z.abs (f r)) rs) <=? EXACT_BOUND.

(** The absolute cost cells of a row, added up. *)
Definition cost_magnitude (r : Row) : Z :=
  zsum (map (fun c => Z.abs (cost_of c r)) COST_COLUMNS).

(** The amount columns of a frame: 매출액, 총비용, 영업이익 and the cost
    columns. *)
Definition exact_amounts (df : DataFrame) : bool :=
  exact_column revenue (rows df) && exact_column total_cost (rows df)
  && exact_column operating_profit (rows df)
  && exact_column cost_magnitude (rows df).

(** A cell that is a number or blank. *)
Definition numeric_cell (c : cell) : bool :=
  match c with
  | CStr _ => false
  | CNum _ | CNaN => true
  end.

(** A sheet with no text in 매출액 and in the cost columns: its amounts
    are the whole numbers of its cells in both modes of [load_data]. *)
Definition numeric_amounts (file : RawTable) : bool :=
  forallb
    (fun raw =>
       forallb (fun c => numeric_cell (raw_cell raw c))
         ("매출액" :: COST_COLUMNS))
    (raw_rows file).

(** An order in which the terms of a sum are added, and the sum that
    rounds after every addition, as float64 arithmetic does. *)
Inductive additions :=
| Term (x : Z)
| Plus (a b : additions).

Fixpoint terms (t : additions) : list Z :=
  match t with
  | Term x => [x]
  | Plus a b => terms a ++ terms b
  end.

Fixpoint rounded_sum (round : Z -> Z) (t : additions) : Z :=
  match t with
  | Term x => round x
  | Plus a b => round (rounded_sum round a + rounded_sum round b)
  end.

End Domain.
Import Domain.

(* ================================================================= *)
(** ** The buckets of the trend *)

Module Buckets.

(** Whether a row falls into the bucket of a group: [groupby] is on
    time_label for 년분기, and on 년월 together with the sort column
    otherwise. *)
Definition in_bucket (time_col : time_column) (sort_col : Row -> Z)
    (g : TrendGroup) (r : Row) : bool :=
  match time_col with
  | YearQuarter =>
      String.eqb (String.append (year r) (String.append " " (quarter r)))
        (time_label g)
  | YearMonth =>
      String.eqb (ym r) (time_label g) && (sort_col r =? group_sort g)
  end.

(** The rows of the input that a group aggregates. *)
Definition bucket (time_col : time_column) (sort_col : Row -> Z)
    (g : TrendGroup) (rs : list Row) : list Row :=
  filter (in_bucket time_col sort_col g) rs.

End Buckets.
Import Buckets.

(* ================================================================= *)
(** * Properties *)

(** ** Derivation *)

Lemma traverse_length {A B} (f : A -> option B) l l' :
  traverse f l = Some l' -> List.length l' = List.length l.
Proof.
  revert l'; induction l as [|x l IH]; simpl; intros l' H.
  - inversion H; reflexivity.
  - destruct (f x); [|discriminate].
    destruct (traverse f l) as [ys|]; [|discriminate].
    inversion H; subst; simpl; f_equal; auto.
Qed.

Lemma isin_app x l1 l2 : isin x (l1 ++ l2) = isin x l1 || isin x l2.
Proof. unfold isin; apply existsb_app. Qed.

Lemma isin_In x l : isin x l = true <-> In x l.
Proof.
  unfold isin; rewrite existsb_exists; split.
  - intros (y & Hy & E); apply String.eqb_eq in E; subst; exact Hy.
  - intros H; exists x; split; [exact H | apply String.eqb_refl].
Qed.

Lemma isin_add_column x cols c :
  isin x (add_column cols c) = isin x cols || String.eqb x c.
Proof.
  unfold add_column; destruct (isin c cols) eqn:E.
  - destruct (String.eqb_spec x c) as [->|_]; [|now rewrite orb_false_r].
    now rewrite E.
  - rewrite isin_app; simpl; now rewrite orb_false_r.
Qed.

Lemma isin_add_columns x cs cols :
  isin x (fold_left add_column cs cols) = isin x cols || isin x cs.
Proof.
  revert cols; induction cs as [|c cs IH]; simpl; intros cols.
  - now rewrite orb_false_r.
  - rewrite IH, isin_add_column, <- orb_assoc; reflexivity.
Qed.

(** No cost column carries the name of a derived calendar column. *)
Lemma cost_columns_not_derived c :
  In c COST_COLUMNS -> isin c ["년"; "월"; "분기"; "년분기"; "sort_key"] = false.
Proof.
  intros H.
  assert (A : forallb
                (fun c => negb (isin c ["년"; "월"; "분기"; "년분기"; "sort_key"]))
                COST_COLUMNS = true) by (vm_compute; reflexivity).
  rewrite forallb_forall in A; apply A in H.
  now apply negb_true_iff in H.
Qed.

Lemma forallb_ext_In {A} (f g : A -> bool) l :
  (forall x, In x l -> f x = g x) -> forallb f l = forallb g l.
Proof.
  induction l as [|x l IH]; simpl; intros H; [reflexivity|].
  rewrite (H x (or_introl eq_refl)), IH; [reflexivity|].
  intros y Hy; apply H; now right.
Qed.

Lemma all_costs_present_raw cols :
  forallb (fun c => isin c
             (fold_left add_column ["년"; "월"; "분기"; "년분기"; "sort_key"] cols))
    COST_COLUMNS
  = forallb (fun c => isin c cols) COST_COLUMNS.
Proof.
  apply forallb_ext_In; intros c Hc.
  rewrite isin_add_columns, (cost_columns_not_derived c Hc).
  apply orb_false_r.
Qed.

Lemma Forall2_map_combine {A B C} (P : A -> C -> Prop) (f : A * B -> C)
    (l : list A) (l' : list B) :
  List.length l' = List.length l ->
  (forall a b, P a (f (a, b))) ->
  Forall2 P l (map f (combine l l')).
Proof.
  revert l'; induction l as [|a l IH]; intros [|b l'] Hlen HP; simpl in *;
    try discriminate; constructor; auto.
Qed.

(** C1 (amended): when [load_data] succeeds, every row of the ledger it
    returns has 영업이익 = 매출액 - 총비용.  The cost list has 48 columns;
    when the sheet has all of them no warning is shown and 총비용 is the
    row-wise sum of the 48 coerced cost cells, and when one of them is
    absent the warning is shown, 총비용 is 0 and 영업이익 equals 매출액. *)
Theorem load_data_operating_profit :
  forall py_int str_to_numeric file df warned,
    load_data py_int str_to_numeric file = inr (df, warned) ->
    List.length COST_COLUMNS = 48%nat /\
    warned = negb (forallb (fun c => isin c (raw_columns file)) COST_COLUMNS) /\
    Forall2
      (fun raw r =>
         operating_profit r = revenue r - total_cost r /\
         (warned = false ->
          total_cost r =
            zsum (map (fun c => to_numeric_coerce str_to_numeric (raw_cell raw c))
                    COST_COLUMNS)) /\
         (warned = true -> total_cost r = 0 /\ operating_profit r = revenue r))
      (raw_rows file) (rows df).
Proof.
  intros py_int str_to_numeric file df warned H.
  split; [reflexivity|].
  unfold load_data in H.
  destruct (negb (isin "년월" (raw_columns file))); [discriminate|].
  destruct (traverse (calendar py_int) (raw_rows file)) as [cal|] eqn:Hcal;
    [|discriminate].
  destruct (find _ FILTER_COLUMNS); [discriminate|].
  destruct (negb (isin "매출액" _)); [discriminate|].
  rewrite all_costs_present_raw in H.
  remember (forallb (fun c => isin c (raw_columns file)) COST_COLUMNS)
    as present eqn:Hp.
  injection H as Hdf Hw; subst df warned.
  split; [reflexivity|].
  cbn [rows].
  apply Forall2_map_combine; [eapply traverse_length; eassumption|].
  intros raw [[[[ym_s y] m] q] k].
  destruct present;
    unfold finish_row; cbn [operating_profit revenue total_cost negb];
    repeat split; intros; try discriminate; try reflexivity; lia.
Qed.

(** The theorem at the two-month sheet with all 48 cost columns. *)
Lemma load_data_operating_profit_witness :
  Forall2
    (fun raw r =>
       operating_profit r = revenue r - total_cost r /\
       (false = false ->
        total_cost r =
          zsum (map (fun c => to_numeric_coerce digits_int (raw_cell raw c))
                  COST_COLUMNS)) /\
       (false = true -> total_cost r = 0 /\ operating_profit r = revenue r))
    (raw_rows sheet_two_months) (rows (ledger sheet_two_months)).
Proof.
  exact (proj2 (proj2
    (load_data_operating_profit digits_int digits_int sheet_two_months
       (ledger sheet_two_months) false eq_refl))).
Defined.

(** C1, as stated with 44 cost columns, fails: the cost list has 48
    names, and a sheet that holds 44 cost columns, each cell 1, is loaded
    in the degraded mode with 총비용 0, not the row-wise sum 44. *)
Lemma load_data_44_columns_counterexample :
  List.length COST_COLUMNS <> 44%nat /\
  List.length first44 = 44%nat /\
  forallb (fun c => isin c (raw_columns sheet_44_columns)) first44 = true /\
  load_data digits_int digits_int sheet_44_columns
    = inr (ledger sheet_44_columns, true) /\
  map total_cost (rows (ledger sheet_44_columns)) = [0] /\
  map (fun raw =>
         zsum (map (fun c => to_numeric_coerce digits_int (raw_cell raw c))
                 first44))
    (raw_rows sheet_44_columns) = [44].
Proof.
  repeat split; try (vm_compute; reflexivity).
  vm_compute; discriminate.
Qed.

(** ** Strings in Python's order *)

Lemma ascii_compare_refl c : Ascii.compare c c = Eq.
Proof. unfold Ascii.compare; apply N.compare_refl. Qed.

Lemma ascii_compare_lt_trans a b c :
  Ascii.compare a b = Lt -> Ascii.compare b c = Lt -> Ascii.compare a c = Lt.
Proof.
  unfold Ascii.compare; rewrite !N.compare_lt_iff; apply N.lt_trans.
Qed.

Lemma string_compare_lt_trans a :
  forall b c, String.compare a b = Lt -> String.compare b c = Lt ->
              String.compare a c = Lt.
Proof.
  induction a as [|x a IH]; intros [|y b] [|z c]; simpl;
    try discriminate; auto.
  destruct (Ascii.compare x y) eqn:E1; try discriminate;
    destruct (Ascii.compare y z) eqn:E2; try discriminate; intros H1 H2.
  - apply Ascii.compare_eq_iff in E1, E2; subst.
    rewrite ascii_compare_refl; eauto.
  - apply Ascii.compare_eq_iff in E1; subst; now rewrite E2.
  - apply Ascii.compare_eq_iff in E2; subst; now rewrite E1.
  - now rewrite (ascii_compare_lt_trans _ _ _ E1 E2).
Qed.

Lemma string_compare_refl a : String.compare a a = Eq.
Proof.
  induction a as [|x a IH]; simpl; [reflexivity|].
  now rewrite ascii_compare_refl.
Qed.

Lemma string_leb_refl a : String.leb a a = true.
Proof. unfold String.leb; now rewrite string_compare_refl. Qed.

Lemma string_leb_trans a b c :
  String.leb a b = true -> String.leb b c = true -> String.leb a c = true.
Proof.
  unfold String.leb.
  destruct (String.compare a b) eqn:E1; try discriminate;
    destruct (String.compare b c) eqn:E2; try discriminate; intros _ _.
  - apply String.compare_eq_iff in E1; subst; now rewrite E2.
  - apply String.compare_eq_iff in E1; subst; now rewrite E2.
  - apply String.compare_eq_iff in E2; subst; now rewrite E1.
  - now rewrite (string_compare_lt_trans _ _ _ E1 E2).
Qed.

Lemma string_ltb_leb a b : String.ltb a b = true -> String.leb a b = true.
Proof.
  unfold String.ltb, String.leb; destruct (String.compare a b); auto.
Qed.

Lemma string_ltb_false_leb a b :
  String.ltb a b = false -> String.leb b a = true.
Proof.
  unfold String.ltb, String.leb; rewrite (String.compare_antisym b a).
  destruct (String.compare a b); simpl; auto; discriminate.
Qed.

(** [max] returns an upper bound of its argument. *)
Lemma fold_max_upper xs :
  forall x,
    let r := fold_left (fun m y => if String.ltb m y then y else m) xs x in
    String.leb x r = true /\ forall y, In y xs -> String.leb y r = true.
Proof.
  induction xs as [|z xs IH]; intros x; simpl.
  - split; [apply string_leb_refl | contradiction].
  - destruct (IH (if String.ltb x z then z else x)) as [H1 H2].
    destruct (String.ltb x z) eqn:E.
    + split.
      * eapply string_leb_trans; [apply string_ltb_leb; eassumption | exact H1].
      * intros y [<-|Hy]; auto.
    + split; [exact H1|].
      intros y [<-|Hy]; auto.
      eapply string_leb_trans; [apply string_ltb_false_leb; eassumption|].
      exact H1.
Qed.

Lemma max_str_upper xs mx :
  max_str xs = Some mx -> forall y, In y xs -> String.leb y mx = true.
Proof.
  destruct xs as [|x xs]; simpl; [discriminate|].
  intros H; injection H as <-.
  destruct (fold_max_upper xs x) as [H1 H2].
  intros y [<-|Hy]; auto.
Qed.

Lemma max_str_some xs : xs <> [] <-> exists mx, max_str xs = Some mx.
Proof.
  destruct xs as [|x xs]; simpl; split.
  - intros H; now elim H.
  - intros [mx H]; discriminate.
  - intros _; eexists; reflexivity.
  - intros _; discriminate.
Qed.

(** ** Sorting and duplicates *)

Lemma insert_sorted_In {A} (le : A -> A -> bool) x y l :
  In x (insert_sorted le y l) <-> x = y \/ In x l.
Proof.
  induction l as [|z l IH]; simpl.
  - intuition.
  - destruct (le y z); simpl; rewrite ?IH; intuition.
Qed.

Lemma sort_values_In {A} (le : A -> A -> bool) x l :
  In x (sort_values le l) <-> In x l.
Proof.
  induction l as [|y l IH]; simpl; [reflexivity|].
  rewrite insert_sorted_In, IH; intuition.
Qed.

Lemma insert_sorted_length {A} (le : A -> A -> bool) y l :
  List.length (insert_sorted le y l) = S (List.length l).
Proof.
  induction l as [|z l IH]; simpl; [reflexivity|].
  destruct (le y z); simpl; auto.
Qed.

Lemma unique_In_string x l : In x (unique String.eqb l) <-> In x l.
Proof.
  induction l as [|y l IH]; simpl; [reflexivity|].
  rewrite filter_In, IH.
  destruct (String.eqb_spec y x) as [->|N]; simpl; intuition.
Qed.

(** ** Filters *)

Lemma filter_filter {A} (p q : A -> bool) l :
  filter q (filter p l) = filter (fun x => p x && q x) l.
Proof.
  induction l as [|x l IH]; simpl; [reflexivity|].
  destruct (p x); simpl; [destruct (q x)|]; now rewrite IH.
Qed.

Lemma filter_all {A} (p : A -> bool) l :
  (forall x, In x l -> p x = true) -> filter p l = l.
Proof.
  induction l as [|x l IH]; simpl; intros H; [reflexivity|].
  rewrite (H x (or_introl eq_refl)), IH; auto.
Qed.

Lemma filter_none {A} (p : A -> bool) l :
  (forall x, In x l -> p x = false) -> filter p l = [].
Proof.
  induction l as [|x l IH]; simpl; intros H; [reflexivity|].
  rewrite (H x (or_introl eq_refl)), IH; auto.
Qed.

(** The detail filters keep the rows that meet [passes]. *)
Lemma apply_filters_passes fs :
  forall rs, apply_filters fs rs = filter (passes fs) rs.
Proof.
  unfold apply_filters.
  induction fs as [|f fs IH]; intros rs; simpl.
  - symmetry; apply filter_all; auto.
  - rewrite IH; unfold passes; cbn [forallb].
    destruct (snd f) eqn:E.
    + reflexivity.
    + rewrite filter_filter; reflexivity.
Qed.

Lemma passes_spec fs r :
  passes fs r = true <->
  forall d vals, In (d, vals) fs -> vals <> [] -> In (dim_value d r) vals.
Proof.
  unfold passes; rewrite forallb_forall; split.
  - intros H d vals Hin Hne.
    specialize (H _ Hin); simpl in H.
    destruct vals; [now elim Hne|].
    now apply isin_In.
  - intros H [d vals] Hin; simpl.
    destruct vals as [|v vals]; [reflexivity|].
    apply isin_In; apply H; [exact Hin | discriminate].
Qed.

Lemma passes_skip_empty fs1 d fs2 r :
  passes (fs1 ++ (d, []) :: fs2) r = passes (fs1 ++ fs2) r.
Proof.
  unfold passes; rewrite !forallb_app; simpl; reflexivity.
Qed.

(** [df_target] as one filter over the ledger, in the ledger's order. *)
Lemma select_target_rows df Y M fs :
  rows (select_target df Y M fs)
  = filter (fun r => isin (year r) Y && isin (month r) M && passes fs r)
      (rows df).
Proof.
  unfold select_target.
  destruct Y as [|y Y].
  - simpl; symmetry; apply filter_none; auto.
  - destruct M as [|m M].
    + simpl; symmetry; apply filter_none; intros r _.
      now rewrite andb_false_r.
    + cbn [rows]; rewrite apply_filters_passes, filter_filter; reflexivity.
Qed.

(** C7: the exact selection keeps a row iff its year and month are among
    the chosen ones and it meets every detail filter that has a chosen
    value; with no year or no month chosen the selection is empty, and a
    detail filter with no chosen value excludes nothing. *)
Theorem select_target_exact :
  forall df Y M fs,
    (forall r,
        In r (rows (select_target df Y M fs)) <->
        In r (rows df) /\ In (year r) Y /\ In (month r) M /\
        (forall d vals, In (d, vals) fs -> vals <> [] ->
                        In (dim_value d r) vals)) /\
    select_target df [] M fs = no_frame /\
    select_target df Y [] fs = no_frame /\
    (forall d fs1 fs2,
        rows (select_target df Y M (fs1 ++ (d, []) :: fs2))
        = rows (select_target df Y M (fs1 ++ fs2))).
Proof.
  intros df Y M fs; repeat split.
  - rewrite select_target_rows in H; apply filter_In in H; tauto.
  - rewrite select_target_rows in H; apply filter_In in H.
    destruct H as [_ H]; apply andb_true_iff in H as [H _].
    apply andb_true_iff in H as [H _]; now apply isin_In.
  - rewrite select_target_rows in H; apply filter_In in H.
    destruct H as [_ H]; apply andb_true_iff in H as [H _].
    apply andb_true_iff in H as [_ H]; now apply isin_In.
  - rewrite select_target_rows in H; apply filter_In in H.
    destruct H as [_ H]; apply andb_true_iff in H as [_ H].
    now apply passes_spec.
  - intros (Hr & Hy & Hm & Hf).
    rewrite select_target_rows; apply filter_In; split; [exact Hr|].
    rewrite !andb_true_iff; repeat split;
      [now apply isin_In | now apply isin_In | now apply passes_spec].
  - destruct Y; reflexivity.
  - intros d fs1 fs2; rewrite !select_target_rows.
    apply filter_ext; intros r; now rewrite passes_skip_empty.
Qed.

(** [df_trend_base] as one condition on the rows of the ledger. *)
Lemma select_trend_base_In df Y M fs mx r :
  max_str M = Some mx ->
  In r (rows (select_trend_base df Y M fs)) <->
  In r (rows df) /\ In (year r) Y /\ String.leb (month r) mx = true /\
  passes fs r = true.
Proof.
  intros Hmx; unfold select_trend_base; rewrite Hmx.
  destruct Y as [|y Y]; [simpl; tauto|].
  cbn [rows]; rewrite apply_filters_passes, filter_filter, filter_In.
  rewrite !andb_true_iff, !isin_In, sort_values_In, filter_In.
  unfold all_months_two_digits; rewrite sort_values_In, unique_In_string.
  split.
  - intros (Hr & (Hy & _ & Hle) & Hp); auto.
  - intros (Hr & Hy & Hle & Hp); repeat split; auto.
    now apply in_map.
Qed.

(** C6: for a non-empty choice of months with greatest element [mx], the
    range-to-date selection keeps exactly the rows of the chosen years
    whose month is at most [mx] and that meet the detail filters, and
    every row of the exact selection is among them. *)
Theorem exact_subset_range_to_date :
  forall df Y M fs mx,
    max_str M = Some mx ->
    (forall r, In r (rows (select_target df Y M fs)) ->
               In r (rows (select_trend_base df Y M fs))) /\
    (forall r,
        In r (rows (select_trend_base df Y M fs)) <->
        In r (rows df) /\ In (year r) Y /\ String.leb (month r) mx = true /\
        passes fs r = true).
Proof.
  intros df Y M fs mx Hmx; split.
  - intros r H.
    rewrite (select_trend_base_In df Y M fs mx r Hmx).
    rewrite select_target_rows in H; apply filter_In in H.
    destruct H as [Hr H]; rewrite !andb_true_iff, !isin_In in H.
    destruct H as [[Hy Hm] Hp]; repeat split; auto.
    eapply max_str_upper; eassumption.
  - intros r; now apply select_trend_base_In.
Qed.

(** The theorem at the two-month ledger, for the choice of February 2024. *)
Lemma exact_subset_range_to_date_witness :
  max_str ["02"] = Some "02" /\
  (forall r,
      In r (rows (select_target (ledger sheet_two_months) ["2024"] ["02"] [])) ->
      In r (rows (select_trend_base (ledger sheet_two_months)
                    ["2024"] ["02"] []))).
Proof.
  split; [reflexivity|].
  exact (proj1 (exact_subset_range_to_date (ledger sheet_two_months)
                  ["2024"] ["02"] [] "02" eq_refl)).
Defined.

(** ** Trend aggregation *)

Lemma cumsum_from_length l : forall acc,
  List.length (cumsum_from acc l) = List.length l.
Proof. induction l as [|x l IH]; simpl; intros acc; auto. Qed.

Lemma nth_cumsum_from l : forall acc i,
  (i < List.length l)%nat ->
  nth i (cumsum_from acc l) 0 = acc + zsum (firstn (S i) l).
Proof.
  induction l as [|x l IH]; intros acc i Hi; simpl in Hi; [lia|].
  destruct i as [|i].
  - simpl; lia.
  - change (nth i (cumsum_from (acc + x) l) 0
            = acc + (x + zsum (firstn (S i) l))).
    rewrite IH by lia; lia.
Qed.

Lemma sort_values_length {A} (le : A -> A -> bool) l :
  List.length (sort_values le l) = List.length l.
Proof.
  induction l as [|x l IH]; simpl; [reflexivity|].
  now rewrite insert_sorted_length, IH.
Qed.

Lemma groupby_length {K} (eqb leb : K -> K -> bool) key rs :
  rs <> [] -> List.length (groupby eqb leb key rs) <> 0%nat.
Proof.
  unfold groupby; rewrite length_map, sort_values_length.
  destruct rs as [|r rs]; [intros H; now elim H|]; simpl; intros _; lia.
Qed.

Lemma trend_groups_length time_col sort_col rs :
  rs <> [] -> List.length (trend_groups time_col sort_col rs) <> 0%nat.
Proof.
  intros H; destruct time_col; unfold trend_groups; rewrite length_map;
    now apply groupby_length.
Qed.

(** The columns of a frame put together from three columns. *)
Lemma trend_frame_columns lbl (a : list string) :
  forall (b c : list Z),
    List.length b = List.length a -> List.length c = List.length a ->
    let t := map (fun t : string * (Z * Z) =>
                    mkTrend (fst t) (fst (snd t)) (snd (snd t)) lbl)
               (combine a (combine b c)) in
    map display_label t = a /\ map trend_profit t = b /\
    map trend_revenue t = c /\ List.length t = List.length a.
Proof.
  induction a as [|x a IH]; intros [|y b] [|z c] Hb Hc; simpl in *;
    try discriminate; [repeat split|].
  destruct (IH b c) as (H1 & H2 & H3 & H4); [lia | lia |].
  repeat split; f_equal; assumption.
Qed.

(** Sorting by the sort key leaves the groups in ascending order. *)
Lemma insert_sorted_Sorted {A} (f : A -> Z) x l :
  Sorted (fun a b => f a <= f b) l ->
  Sorted (fun a b => f a <= f b)
    (insert_sorted (fun a b => f a <=? f b) x l).
Proof.
  induction l as [|y l IH]; simpl; intros H.
  - repeat constructor.
  - destruct (Z.leb_spec (f x) (f y)) as [L|L].
    + constructor; [exact H | constructor; exact L].
    + apply Sorted_inv in H as [Hs Hh].
      constructor; [auto|].
      destruct l as [|z l]; simpl.
      * constructor; lia.
      * destruct (f x <=? f z); constructor; [lia|].
        now inversion Hh.
Qed.

Lemma sort_values_Sorted {A} (f : A -> Z) l :
  Sorted (fun a b => f a <= f b) (sort_values (fun a b => f a <=? f b) l).
Proof.
  induction l as [|x l IH]; simpl; [constructor|].
  now apply insert_sorted_Sorted.
Qed.

(** The scenario of two months: labels 1 and 2, profits 400,000 and
    500,000, and 900,000 in the second cumulative row. *)
Example trend_two_months :
  aggregate_profit_trend (ledger sheet_two_months) YearMonth sort_key false ""
    = Some [ mkTrend "1" 400000 1000000 ""; mkTrend "2" 500000 1200000 "" ] /\
  aggregate_profit_trend (ledger sheet_two_months) YearMonth sort_key true ""
    = Some [ mkTrend "1" 400000 1000000 ""; mkTrend "2" 900000 2200000 "" ] /\
  aggregate_profit_trend (ledger sheet_two_months) YearQuarter sort_key true ""
    = Some [ mkTrend "2024 Q1" 900000 2200000 "" ].
Proof. repeat split; vm_compute; reflexivity. Qed.


(** ** Percentage deltas *)

Lemma rate_where_policy t c :
  delta_policy t c (rate_where t c (t - c)) /\
  is_nan (rate_where t c (t - c)) = false.
Proof.
  unfold delta_policy, rate_where, np_where, np_true_divide.
  destruct (Z.eqb_spec c 0) as [Hc|Hc].
  - destruct (Z.eqb_spec t 0) as [Ht|Ht]; repeat split; intros;
      try reflexivity; contradiction.
  - repeat split; intros; try reflexivity; contradiction.
Qed.

Lemma variance_row_policy {K} (k : K) (t c : option (Z * Z)) :
  let row := variance_row k t c in
  delta_policy (var_profit row) (var_profit row - var_profit_diff row)
    (var_profit_rate row) /\
  delta_policy (var_revenue row) (var_revenue row - var_revenue_diff row)
    (var_revenue_rate row) /\
  is_nan (var_profit_rate row) = false /\
  is_nan (var_revenue_rate row) = false.
Proof.
  unfold variance_row; cbn [var_profit var_profit_diff var_profit_rate
                            var_revenue var_revenue_diff var_revenue_rate].
  set (p := match t with Some v => fst v | None => 0 end).
  set (r := match t with Some v => snd v | None => 0 end).
  set (cp := match c with Some v => fst v | None => 0 end).
  set (cr := match c with Some v => snd v | None => 0 end).
  replace (p - (p - cp)) with cp by lia.
  replace (r - (r - cr)) with cr by lia.
  destruct (rate_where_policy p cp), (rate_where_policy r cr); auto.
Qed.

Lemma rate_or_zero_policy t c :
  zero_policy t c (rate_or_zero (t - c) c) /\
  is_nan (rate_or_zero (t - c) c) = false.
Proof.
  unfold zero_policy, rate_or_zero, np_true_divide.
  destruct (Z.eqb_spec c 0) as [Hc|Hc]; simpl; repeat split; intros;
    try reflexivity; contradiction.
Qed.

Lemma dict_get_map_key {V} (f : string -> V) col cols :
  In col cols -> dict_get (map (fun c => (c, f c)) cols) col = Some (f col).
Proof.
  induction cols as [|c cols IH]; simpl; [contradiction|].
  destruct (String.eqb_spec col c) as [->|N]; [reflexivity|].
  intros [E|H]; [now elim N | auto].
Qed.

Lemma analyze_cost_breakdown_policy df_target df_comparison cost_columns :
  Forall
    (fun row =>
       diff row = target_val row - comp_val row /\
       delta_policy (target_val row) (comp_val row) (diff_rate row) /\
       is_nan (diff_rate row) = false)
    (analyze_cost_breakdown df_target df_comparison cost_columns).
Proof.
  unfold analyze_cost_breakdown.
  apply Forall_forall; intros row Hrow.
  apply in_map_iff in Hrow as (col & <- & Hcol).
  cbn [diff target_val comp_val diff_rate].
  match goal with
  | |- context [?a - ?b] => generalize a; generalize b
  end.
  intros c t; split; [reflexivity|].
  unfold delta_policy, np_true_divide.
  destruct (Z.eqb_spec c 0) as [Hc|Hc]; simpl.
  - destruct (Z.eqb_spec t 0) as [Ht|Ht]; repeat split; intros;
      try reflexivity; contradiction.
  - repeat split; intros; try reflexivity; contradiction.
Qed.

Lemma category_changes_policy cost_categories df_target df_comparison :
  Forall
    (fun ch =>
       cat_diff ch = cat_target ch - cat_comp ch /\
       zero_policy (cat_target ch) (cat_comp ch) (cat_rate ch) /\
       is_nan (cat_rate ch) = false)
    (category_changes cost_categories df_target df_comparison).
Proof.
  unfold category_changes.
  apply Forall_forall; intros ch Hch.
  apply in_map_iff in Hch as (entry & <- & _).
  cbn [cat_diff cat_target cat_comp cat_rate].
  split; [reflexivity|]; apply rate_or_zero_policy.
Qed.

(** The grand total of a merged breakdown whose implied comparison
    totals are not zero. *)
Lemma grand_total_nonzero t :
  let sp := zsum (map var_profit t) in
  let dp := zsum (map var_profit_diff t) in
  let sr := zsum (map var_revenue t) in
  let dr := zsum (map var_revenue_diff t) in
  sp - dp <> 0 -> sr - dr <> 0 ->
  grand_total true (Compared t)
  = Ok [ ("영업이익", Int sp); ("영업이익 증감", Int dp);
         ("영업이익 증감률",
          Float (Finite ((inject_Z dp / inject_Z (sp - dp)) * 100)%Q));
         ("매출액", Int sr); ("매출액 증감", Int dr);
         ("매출액 증감률",
          Float (Finite ((inject_Z dr / inject_Z (sr - dr)) * 100)%Q)) ].
Proof.
  intros sp dp sr dr Hp Hr.
  unfold grand_total, column_sums.
  fold sp dp sr dr.
  generalize (fsum (map var_profit_rate t)) (fsum (map var_revenue_rate t)).
  intros x y.
  apply Z.eqb_neq in Hp, Hr.
  cbn -[Z.sub inject_Z Qdiv Qmult Z.eqb py_truediv].
  unfold py_truediv, py_is_zero; rewrite Hp, Hr.
  reflexivity.
Qed.

(** The insight generator with comparison data: the summary rules first,
    then the category rules, then the item rules. *)
Lemma generate_ai_insights_compared f1 fc df_target dfc cost_columns
    cost_categories rt rc pt pc :
  empty dfc = false -> cost_columns <> [] -> cost_categories <> [] ->
  exists by_category by_item,
    category_insights f1 fc (category_changes cost_categories df_target dfc)
      = Ok by_category /\
    item_insights f1
      (analyze_cost_breakdown df_target (Some dfc) cost_columns) = Ok by_item /\
    generate_ai_insights f1 fc df_target (Some dfc) cost_columns
      cost_categories rt rc pt pc
    = Ok ((revenue_insight f1 fc (rate_or_zero (rt - rc) rc) (rt - rc)
             :: profit_insight f1 (rate_or_zero (pt - pc) pc))
          ++ by_category ++ by_item).
Proof.
  intros He Hcols Hcats.
  unfold generate_ai_insights; rewrite He; cbn [negb].
  destruct cost_categories as [|c0 cats]; [now elim Hcats|].
  destruct cost_columns as [|k0 cols]; [now elim Hcols|].
  unfold category_insights at 1 2.
  cbn [category_changes map].
  unfold item_insights at 1 2.
  unfold analyze_cost_breakdown at 1 3; cbn [map].
  do 2 eexists; split; [reflexivity|]; split; reflexivity.
Qed.

(** C2 (amended): the percentage columns of the breakdown table, of the
    trend table and of the cost-item analysis follow the policy of the
    specification: the quotient times 100 for a comparison that is not
    zero, 0 when comparison and target are zero, +infinity when only the
    comparison is zero.  The revenue, profit and category rates of the
    insight generator take the quotient for a comparison that is not
    zero and 0 for every zero comparison.  The grand total takes the
    quotient when its implied comparison totals are not zero.  None of
    these percentages is NaN. *)
Theorem percentage_policy :
  (forall cols current_df df_comparison active t,
      breakdown_table cols current_df df_comparison active = Compared t ->
      Forall
        (fun row =>
           delta_policy (var_profit row)
             (var_profit row - var_profit_diff row) (var_profit_rate row) /\
           delta_policy (var_revenue row)
             (var_revenue row - var_revenue_diff row) (var_revenue_rate row) /\
           is_nan (var_profit_rate row) = false /\
           is_nan (var_revenue_rate row) = false) t) /\
  (forall df_trend_target df_trend_comp t,
      trend_table df_trend_target df_trend_comp = TrendCompared t ->
      Forall
        (fun row =>
           delta_policy (var_profit row)
             (var_profit row - var_profit_diff row) (var_profit_rate row) /\
           delta_policy (var_revenue row)
             (var_revenue row - var_revenue_diff row) (var_revenue_rate row) /\
           is_nan (var_profit_rate row) = false /\
           is_nan (var_revenue_rate row) = false) t) /\
  (forall df_target df_comparison cost_columns,
      Forall
        (fun row =>
           diff row = target_val row - comp_val row /\
           delta_policy (target_val row) (comp_val row) (diff_rate row) /\
           is_nan (diff_rate row) = false)
        (analyze_cost_breakdown df_target df_comparison cost_columns)) /\
  (forall f1 fc df_target dfc cost_columns cost_categories rt rc pt pc,
      empty dfc = false -> cost_columns <> [] -> cost_categories <> [] ->
      let revenue_rate := rate_or_zero (rt - rc) rc in
      let profit_rate := rate_or_zero (pt - pc) pc in
      zero_policy rt rc revenue_rate /\ zero_policy pt pc profit_rate /\
      is_nan revenue_rate = false /\ is_nan profit_rate = false /\
      exists rest,
        generate_ai_insights f1 fc df_target (Some dfc) cost_columns
          cost_categories rt rc pt pc
        = Ok ((revenue_insight f1 fc revenue_rate (rt - rc)
                 :: profit_insight f1 profit_rate) ++ rest)) /\
  (forall cost_categories df_target df_comparison,
      Forall
        (fun ch =>
           cat_diff ch = cat_target ch - cat_comp ch /\
           zero_policy (cat_target ch) (cat_comp ch) (cat_rate ch) /\
           is_nan (cat_rate ch) = false)
        (category_changes cost_categories df_target df_comparison)) /\
  (forall t total,
      zsum (map var_profit t) - zsum (map var_profit_diff t) <> 0 ->
      zsum (map var_revenue t) - zsum (map var_revenue_diff t) <> 0 ->
      grand_total true (Compared t) = Ok total ->
      dict_get total "영업이익 증감률"
      = Some (Float (Finite
                ((inject_Z (zsum (map var_profit_diff t))
                  / inject_Z (zsum (map var_profit t)
                              - zsum (map var_profit_diff t))) * 100)%Q)) /\
      dict_get total "매출액 증감률"
      = Some (Float (Finite
                ((inject_Z (zsum (map var_revenue_diff t))
                  / inject_Z (zsum (map var_revenue t)
                              - zsum (map var_revenue_diff t))) * 100)%Q))).
Proof.
  repeat apply conj.
  - intros cols current_df df_comparison active t H.
    unfold breakdown_table in H.
    destruct (active && negb (empty df_comparison)); [|discriminate].
    injection H as <-.
    apply Forall_forall; intros row Hrow.
    apply in_map_iff in Hrow as (m & <- & _).
    apply variance_row_policy.
  - intros df_trend_target [comp|] t H; [|discriminate].
    injection H as <-.
    apply Forall_forall; intros row Hrow.
    apply in_map_iff in Hrow as (m & <- & _).
    apply variance_row_policy.
  - apply analyze_cost_breakdown_policy.
  - intros f1 fc df_target dfc cost_columns cost_categories rt rc pt pc
      He Hcols Hcats revenue_rate profit_rate.
    destruct (rate_or_zero_policy rt rc), (rate_or_zero_policy pt pc).
    destruct (generate_ai_insights_compared f1 fc df_target dfc cost_columns
                cost_categories rt rc pt pc He Hcols Hcats)
      as (by_category & by_item & _ & _ & E).
    do 4 (split; [assumption|]).
    exists (by_category ++ by_item); exact E.
  - apply category_changes_policy.
  - intros t total Hp Hr H.
    pose proof (grand_total_nonzero t) as G; cbv zeta in G.
    rewrite (G Hp Hr) in H.
    injection H as <-; split; reflexivity.
Qed.

(** The theorem at the merged breakdown by revenue code of the
    three-code ledger, January 2024 against January 2023. *)
Lemma percentage_policy_witness :
  Forall
    (fun row =>
       delta_policy (var_profit row)
         (var_profit row - var_profit_diff row) (var_profit_rate row) /\
       delta_policy (var_revenue row)
         (var_revenue row - var_revenue_diff row) (var_revenue_rate row) /\
       is_nan (var_profit_rate row) = false /\
       is_nan (var_revenue_rate row) = false)
    (match breakdown_table [RevenueCode]
             (select_target (ledger sheet_three_codes) ["2024"] ["01"] [])
             (select_comparison (ledger sheet_three_codes) "2023" ["01"] [])
             true with
     | Compared t => t
     | TargetOnly _ => []
     end).
Proof.
  exact (proj1 percentage_policy [RevenueCode]
           (select_target (ledger sheet_three_codes) ["2024"] ["01"] [])
           (select_comparison (ledger sheet_three_codes) "2023" ["01"] [])
           true _ eq_refl).
Defined.

(** C2, as stated, fails in the insight generator: with a comparison
    revenue of 0 and a target revenue of 5,000 its revenue rate is 0,
    where the policy asks for +infinity, and the revenue is reported as
    maintained. *)
Lemma insight_rate_zero_comparison_counterexample :
  rate_or_zero (5000 - 0) 0 = of_Z 0 /\
  ~ delta_policy 5000 0 (rate_or_zero (5000 - 0) 0) /\
  let df := ledger sheet_zero_comparison in
  match generate_ai_insights show_rate show_won
          (select_target df ["2024"] ["01"] [])
          (Some (select_comparison df "2023" ["01"] []))
          COST_COLUMNS COST_CATEGORIES 5000 0 5000 0 with
  | Ok l => map title l
  | Raise _ => []
  end = ["➡️ 매출 유지"].
Proof.
  split; [reflexivity|]; split.
  - intros (_ & _ & H).
    specialize (H eq_refl ltac:(discriminate)); discriminate.
  - vm_compute; reflexivity.
Qed.

(** ** Grand total *)

(** Without the variance columns the grand total cannot be computed
    under an active comparison year. *)
Lemma grand_total_target_only t :
  grand_total true (TargetOnly t) = Raise (KeyError "영업이익 증감").
Proof. reflexivity. Qed.

(** A zero comparison total of the operating profit makes the division
    of the grand total raise. *)
Lemma grand_total_zero_profit_comparison t :
  zsum (map var_profit t) - zsum (map var_profit_diff t) = 0 ->
  grand_total true (Compared t) = Raise ZeroDivisionError.
Proof.
  intros H; unfold grand_total, column_sums.
  generalize (fsum (map var_profit_rate t)) (fsum (map var_revenue_rate t)).
  intros x y.
  cbn -[Z.sub inject_Z Qdiv Qmult Z.eqb py_truediv].
  unfold py_truediv at 1, py_is_zero; rewrite H; reflexivity.
Qed.

(** The same for the revenue, when the profit total could be divided. *)
Lemma grand_total_zero_revenue_comparison t :
  zsum (map var_profit t) - zsum (map var_profit_diff t) <> 0 ->
  zsum (map var_revenue t) - zsum (map var_revenue_diff t) = 0 ->
  grand_total true (Compared t) = Raise ZeroDivisionError.
Proof.
  intros Hp H; unfold grand_total, column_sums.
  generalize (fsum (map var_profit_rate t)) (fsum (map var_revenue_rate t)).
  intros x y.
  apply Z.eqb_neq in Hp.
  cbn -[Z.sub inject_Z Qdiv Qmult Z.eqb py_truediv].
  unfold py_truediv, py_is_zero; rewrite Hp, H; reflexivity.
Qed.

(** With three revenue codes of differing size the percentage of the
    grand total is the quotient of the summed columns, 300/11100 * 100,
    and neither the sum (111) nor the mean (37) of the three row
    percentages (100, 10 and 1). *)
Example grand_total_three_codes :
  let df := ledger sheet_three_codes in
  let raw :=
    breakdown_table [RevenueCode]
      (select_target df ["2024"] ["01"] [])
      (select_comparison df "2023" ["01"] []) true in
  exists t total pct,
    raw = Compared t /\
    grand_total true raw = Ok total /\
    dict_get total "매출액 증감률" = Some (Float pct) /\
    List.length t = 3%nat /\
    zsum (map var_revenue t) = 11400 /\
    zsum (map var_revenue_diff t) = 300 /\
    feq pct (Finite ((300 # 1) / (11100 # 1) * 100)%Q) = true /\
    feq (fsum (map var_revenue_rate t)) (of_Z 111) = true /\
    feq (fmean (map var_revenue_rate t)) (of_Z 37) = true /\
    feq pct (fsum (map var_revenue_rate t)) = false /\
    feq pct (fmean (map var_revenue_rate t)) = false.
Proof.
  do 3 eexists.
  split; [vm_compute; reflexivity|].
  split; [vm_compute; reflexivity|].
  split; [vm_compute; reflexivity|].
  repeat split; vm_compute; reflexivity.
Qed.

(** C4, at a failing input: January 2024 with revenue 5,000 against
    January 2023 with revenue 0.  The merged breakdown has one row with
    the percentage +infinity; the summed target and the summed delta are
    both 5,000, so the implied comparison total is 0 and the claim asks
    for +infinity, but the grand total raises ZeroDivisionError and the
    page with it. *)
Theorem grand_total_zero_comparison_raises :
  let df := ledger sheet_zero_comparison in
  let raw :=
    breakdown_table [RevenueCode]
      (select_target df ["2024"] ["01"] [(RevenueCode, [])])
      (select_comparison df "2023" ["01"] [(RevenueCode, [])]) true in
  empty (select_comparison df "2023" ["01"] [(RevenueCode, [])]) = false /\
  raw = Compared [mkVar (list string) ["R1"] 5000 5000 PosInf 5000 5000 PosInf]
  /\ grand_total true raw = Raise ZeroDivisionError
  /\ render show_rate show_won df (january "2023" ["01"] Monthly)
     = Raise ZeroDivisionError.
Proof.
  repeat split; vm_compute; reflexivity.
Qed.

(** ** Empty comparison period *)


(** C3, at two failing inputs.  January 2024 with the comparison year
    2023 chosen and no comparison month, and January 2024 filtered to the
    revenue code R2 against January 2023, where R2 has no row: the
    comparison selection is empty and the page raises KeyError at the
    grand total instead of giving a target-only result; with no
    comparison year chosen the same selection is rendered. *)
Theorem empty_comparison_raises :
  empty (select_comparison (ledger sheet_two_years) "2023" []
           [(RevenueCode, [])]) = true /\
  render show_rate show_won (ledger sheet_two_years)
    (january "2023" [] Monthly) = Raise (KeyError "영업이익 증감") /\
  render show_rate show_won (ledger sheet_two_years)
    (january "2023" [] Quarterly) = Raise (KeyError "영업이익 증감") /\
  empty (select_comparison (ledger sheet_new_code) "2023" ["01"]
           [(RevenueCode, ["R2"])]) = true /\
  render show_rate show_won (ledger sheet_new_code)
    (mkInputs "수익코드" ["2024"] ["01"] [(RevenueCode, ["R2"])] Monthly false
       "2023" ["01"]) = Raise (KeyError "영업이익 증감") /\
  (exists r,
      render show_rate show_won (ledger sheet_two_years)
        (january NOT_SELECTED [] Monthly) = Ok (Analysis r)).
Proof.
  repeat split; try (vm_compute; reflexivity).
  eexists; vm_compute; reflexivity.
Qed.

(** ** Insight rules *)

Lemma revenue_insight_thresholds f1 fc x d :
  type (revenue_insight f1 fc x d)
  = if gt x 5 then positive else if lt x (-5) then negative else neutral.
Proof.
  unfold revenue_insight; destruct (gt x 5); [reflexivity|].
  destruct (lt x (-5)); reflexivity.
Qed.

Lemma profit_insight_thresholds f1 x :
  map type (profit_insight f1 x)
  = if gt x 10 then [positive] else if lt x (-10) then [negative] else [].
Proof.
  unfold profit_insight; destruct (gt x 10); [reflexivity|].
  destruct (lt x (-10)); reflexivity.
Qed.

Lemma rate_is_seven_thresholds x :
  rate_is x 7 ->
  gt x 5 = true /\ gt x 10 = false /\ lt x (-10) = false.
Proof.
  intros (q & -> & Hq); unfold gt, lt.
  repeat split.
  - apply negb_true_iff.
    destruct (Qle_bool q (inject_Z 5)) eqn:E; [|reflexivity].
    apply Qle_bool_iff in E; rewrite Hq in E.
    unfold Qle in E; simpl in E; lia.
  - apply negb_false_iff, Qle_bool_iff; rewrite Hq.
    unfold Qle; simpl; lia.
  - apply negb_false_iff, Qle_bool_iff; rewrite Hq.
    unfold Qle; simpl; lia.
Qed.

Lemma category_insights_titles f1 fc changes l :
  category_insights f1 fc changes = Ok l -> Forall not_profit_direction l.
Proof.
  unfold category_insights; destruct changes as [|c0 cs]; [discriminate|].
  intros H; injection H as <-.
  apply Forall_app; split.
  - destruct (0 <? _); constructor; [|constructor].
    split; unfold not_profit_direction; cbn [title]; unfold cat; simpl;
      discriminate.
  - destruct (_ <? 0); constructor; [|constructor].
    split; unfold not_profit_direction; cbn [title]; unfold cat; simpl;
      discriminate.
Qed.

Lemma item_insights_titles f1 rows l :
  item_insights f1 rows = Ok l -> Forall not_profit_direction l.
Proof.
  unfold item_insights; destruct rows as [|r0 rs]; [discriminate|].
  intros H; injection H as <-.
  apply Forall_flat_map, Forall_forall; intros row _.
  destruct (gt (diff_rate row) 20); constructor; [|constructor].
  split; cbn [title]; unfold cat; simpl; discriminate.
Qed.

(** C8: with comparison data and both the revenue rate and the profit
    rate equal to 7, the insight list starts with the positive revenue
    insight, and what follows it holds no profit-direction insight. *)
Theorem insights_at_seven_percent :
  forall f1 fc df_target dfc cost_columns cost_categories rt rc pt pc,
    empty dfc = false -> cost_columns <> [] -> cost_categories <> [] ->
    rate_is (rate_or_zero (rt - rc) rc) 7 ->
    rate_is (rate_or_zero (pt - pc) pc) 7 ->
    exists rest,
      generate_ai_insights f1 fc df_target (Some dfc) cost_columns
        cost_categories rt rc pt pc
      = Ok (mkInsight positive "📈 매출 성장"
              (cat ["매출액이 전기 대비 "; f1 (rate_or_zero (rt - rc) rc);
                    "% 증가했습니다. ("; fc (rt - rc); " 증가)"])
            :: rest) /\
      Forall not_profit_direction rest.
Proof.
  intros f1 fc df_target dfc cost_columns cost_categories rt rc pt pc
    He Hcols Hcats Hr Hp.
  destruct (generate_ai_insights_compared f1 fc df_target dfc cost_columns
              cost_categories rt rc pt pc He Hcols Hcats)
    as (by_category & by_item & Hc & Hi & E).
  destruct (rate_is_seven_thresholds _ Hr) as (R5 & _ & _).
  destruct (rate_is_seven_thresholds _ Hp) as (_ & P10 & Pm10).
  exists (by_category ++ by_item); split.
  - rewrite E; unfold revenue_insight, profit_insight.
    rewrite R5, P10, Pm10; reflexivity.
  - apply Forall_app; split.
    + eapply category_insights_titles; eassumption.
    + eapply item_insights_titles; eassumption.
Qed.

(** The theorem at January 2024 against January 2023 of the two-year
    ledger, with totals 107 against 100. *)
Lemma insights_at_seven_percent_witness :
  exists rest,
    generate_ai_insights show_rate show_won
      (select_target (ledger sheet_two_years) ["2024"] ["01"] [])
      (Some (select_comparison (ledger sheet_two_years) "2023" ["01"] []))
      COST_COLUMNS COST_CATEGORIES 107 100 107 100
    = Ok (mkInsight positive "📈 매출 성장"
            (cat ["매출액이 전기 대비 "; show_rate (rate_or_zero (107 - 100) 100);
                  "% 증가했습니다. ("; show_won (107 - 100); " 증가)"])
          :: rest) /\
    Forall not_profit_direction rest.
Proof.
  apply (insights_at_seven_percent show_rate show_won
           (select_target (ledger sheet_two_years) ["2024"] ["01"] [])
           (select_comparison (ledger sheet_two_years) "2023" ["01"] [])
           COST_COLUMNS COST_CATEGORIES 107 100 107 100).
  - reflexivity.
  - discriminate.
  - discriminate.
  - eexists; split; reflexivity.
  - eexists; split; reflexivity.
Defined.

(** C9 (amended): without comparison data, or with an empty comparison
    frame, the insight list is the neutral summary of revenue and
    operating profit, followed, only when the summed 총비용 of the target
    is positive, by the margin insight; the margin is
    profit / revenue * 100, or 0 for a zero revenue, and the insight is
    positive when the margin exceeds 10 and negative otherwise. *)
Theorem insights_without_comparison :
  forall f1 fc df_target df_comparison cost_columns cost_categories
         rt rc pt pc,
    match df_comparison with
    | Some dfc => empty dfc = true
    | None => True
    end ->
    let total :=
      if isin "총비용" (columns df_target)
      then col_sum total_cost df_target else 0 in
    let margin :=
      if rt =? 0 then of_Z 0
      else Finite ((inject_Z pt / inject_Z rt) * 100)%Q in
    let summary :=
      mkInsight neutral "📊 현재 기간 분석"
        (cat ["총 매출액 "; fc rt; ", 영업이익 "; fc pt; "입니다."]) in
    generate_ai_insights f1 fc df_target df_comparison cost_columns
      cost_categories rt rc pt pc
    = Ok (if 0 <? total then
            [ summary;
              mkInsight (if gt margin 10 then positive else negative)
                "📈 영업이익률"
                (cat ["현재 영업이익률은 "; f1 margin; "%입니다. ";
                      if gt margin 10 then "양호한 수준입니다."
                      else "개선이 필요합니다."]) ]
          else [summary]).
Proof.
  intros f1 fc df_target df_comparison cost_columns cost_categories
    rt rc pt pc H total margin summary.
  assert (E : generate_ai_insights f1 fc df_target df_comparison cost_columns
                cost_categories rt rc pt pc
              = Ok (current_period_insights f1 fc df_target rt pt)).
  { unfold generate_ai_insights; destruct df_comparison as [dfc|];
      [rewrite H|]; reflexivity. }
  rewrite E; unfold current_period_insights; fold total.
  destruct (0 <? total); [|reflexivity].
  unfold margin, np_true_divide; destruct (rt =? 0); reflexivity.
Qed.

(** The theorem at the two-month ledger, with no comparison frame. *)
Lemma insights_without_comparison_witness :
  generate_ai_insights show_rate show_won (ledger sheet_two_months) None
    COST_COLUMNS COST_CATEGORIES 2200000 0 900000 0
  = Ok [ mkInsight neutral "📊 현재 기간 분석"
           (cat ["총 매출액 "; show_won 2200000; ", 영업이익 ";
                 show_won 900000; "입니다."]);
         mkInsight positive "📈 영업이익률"
           (cat ["현재 영업이익률은 ";
                 show_rate (Finite ((inject_Z 900000 / inject_Z 2200000) * 100)%Q);
                 "%입니다. "; "양호한 수준입니다."]) ].
Proof.
  exact (insights_without_comparison show_rate show_won
           (ledger sheet_two_months) None COST_COLUMNS COST_CATEGORIES
           2200000 0 900000 0 I).
Defined.

(** C9, as stated, fails when the target has no cost: for the ledger
    loaded in the degraded mode, whose 총비용 is 0, the list holds the
    summary alone and no margin insight. *)
Lemma insights_without_cost_counterexample :
  col_sum total_cost (ledger sheet_44_columns) = 0 /\
  generate_ai_insights show_rate show_won (ledger sheet_44_columns) None
    COST_COLUMNS COST_CATEGORIES 1000 0 1000 0
  = Ok [ mkInsight neutral "📊 현재 기간 분석"
           "총 매출액 1000 원, 영업이익 1000 원입니다." ].
Proof. split; vm_compute; reflexivity. Qed.

(** ** Quarterly trend against another year *)

Lemma traverse_Forall {A B} (f : A -> option B) (P : B -> Prop) l l' :
  (forall x y, f x = Some y -> P y) ->
  traverse f l = Some l' -> Forall P l'.
Proof.
  intros HP; revert l'; induction l as [|x l IH]; simpl; intros l' H.
  - injection H as <-; constructor.
  - destruct (f x) as [y|] eqn:E; [|discriminate].
    destruct (traverse f l) as [ys|]; [|discriminate].
    injection H as <-; constructor; eauto.
Qed.

(** Every ledger [load_data] returns has a quarter or N/A in 분기. *)
Lemma load_data_valid_quarters py_int str_to_numeric file df warned :
  load_data py_int str_to_numeric file = inr (df, warned) ->
  valid_quarters df = true.
Proof.
  unfold load_data; intros H.
  destruct (negb (isin "년월" (raw_columns file))); [discriminate|].
  destruct (traverse (calendar py_int) (raw_rows file)) as [cal|] eqn:Hcal;
    [|discriminate].
  destruct (find _ FILTER_COLUMNS); [discriminate|].
  destruct (negb (isin "매출액" _)); [discriminate|].
  injection H as <- _.
  unfold valid_quarters; cbn [rows].
  apply forallb_forall; intros r Hr.
  apply in_map_iff in Hr as ([raw c] & <- & Hin).
  apply in_combine_r in Hin.
  assert (Hq : Forall (fun c : string * string * string * string * Z =>
                         isin (snd (fst c)) QUARTERS = true) cal).
  { eapply traverse_Forall; [|exact Hcal].
    intros x y; unfold calendar, get_quarter.
    destruct (py_int (substring 4 2 _)) as [m|]; [|discriminate].
    destruct (py_int (astype_str _)); [|discriminate].
    intros E; injection E as <-; cbn [fst snd].
    repeat match goal with |- context [if ?b then _ else _] => destruct b end;
      reflexivity. }
  rewrite Forall_forall in Hq; specialize (Hq _ Hin).
  destruct c as [[[[ym_s y] m] q] k]; exact Hq.
Qed.

Lemma has_char_append c a b : has_char c (String.append a (String c b)) = true.
Proof.
  induction a as [|x a IH]; simpl.
  - now rewrite Ascii.eqb_refl.
  - rewrite IH; apply orb_true_r.
Qed.

(** A label '<year> <quarter>' determines its year. *)
Lemma year_quarter_label_inj y1 :
  forall y2 q1 q2,
    has_char " " q1 = false -> has_char " " q2 = false ->
    String.append y1 (String.append " " q1)
    = String.append y2 (String.append " " q2) ->
    y1 = y2.
Proof.
  induction y1 as [|c y1 IH]; intros [|d y2] q1 q2 H1 H2 E; simpl in E.
  - reflexivity.
  - injection E as _ E; subst q1.
    rewrite has_char_append in H1; discriminate.
  - injection E as _ E; subst q2.
    rewrite has_char_append in H2; discriminate.
  - injection E as -> E; f_equal; exact (IH y2 q1 q2 H1 H2 E).
Qed.

Lemma quarters_no_space q : isin q QUARTERS = true -> has_char " " q = false.
Proof.
  intros H; apply isin_In in H; simpl in H.
  repeat destruct H as [<-|H]; try reflexivity; contradiction.
Qed.

(** The labels of a trend frame are those of its sorted groups. *)
Lemma aggregate_profit_trend_labels df time_col sort_col cum lbl T :
  aggregate_profit_trend df time_col sort_col cum lbl = Some T ->
  map display_label T
  = map (label_of time_col)
      (sort_values (fun a b => group_sort a <=? group_sort b)
         (trend_groups time_col sort_col (rows df))).
Proof.
  unfold aggregate_profit_trend; destruct (empty df); [discriminate|].
  intros H; injection H as <-.
  apply trend_frame_columns; destruct cum; unfold cumsum;
    rewrite ?cumsum_from_length, !length_map; reflexivity.
Qed.

Lemma groupby_keys {K} (eqb leb : K -> K -> bool) key rs k :
  (forall l, In k (unique eqb l) -> In k l) ->
  In k (map fst (groupby eqb leb key rs)) -> In k (map key rs).
Proof.
  intros Hu; unfold groupby; rewrite map_map; cbn [fst]; rewrite map_id.
  rewrite sort_values_In; apply Hu.
Qed.

(** Each label of a quarterly trend frame is '<year> <quarter>' of one
    of its input rows. *)
Lemma quarterly_labels df sort_col cum lbl T tr :
  aggregate_profit_trend df YearQuarter sort_col cum lbl = Some T ->
  In tr T ->
  exists r, In r (rows df) /\
            display_label tr
            = String.append (year r) (String.append " " (quarter r)).
Proof.
  intros H Hin.
  apply aggregate_profit_trend_labels in H.
  apply (in_map display_label) in Hin; rewrite H in Hin.
  apply in_map_iff in Hin as (g & <- & Hg).
  apply sort_values_In in Hg.
  unfold trend_groups in Hg; apply in_map_iff in Hg as (gr & <- & Hgr).
  cbn [label_of time_label].
  apply (in_map fst) in Hgr; apply groupby_keys in Hgr.
  - apply in_map_iff in Hgr as (r & E & Hr); exists r; split; auto.
  - intros l; apply unique_In_string.
Qed.

Lemma select_trend_base_years df Y M fs r :
  In r (rows (select_trend_base df Y M fs)) ->
  In r (rows df) /\ In (year r) Y.
Proof.
  destruct (max_str M) as [mx|] eqn:E.
  - intros H; apply (select_trend_base_In df Y M fs mx r E) in H; tauto.
  - unfold select_trend_base; rewrite E; destruct Y; contradiction.
Qed.

Lemma select_comp_trend_base_year df cy CM fs r :
  In r (rows (select_comp_trend_base df cy CM fs)) ->
  In r (rows df) /\ year r = cy.
Proof.
  unfold select_comp_trend_base.
  destruct (is_comparison_active cy); [|contradiction].
  destruct (max_str CM); [|contradiction].
  cbn [rows]; rewrite apply_filters_passes, filter_filter, filter_In.
  rewrite !andb_true_iff, String.eqb_eq; tauto.
Qed.

(** An outer merge of two frames with no common key has no matched row. *)
Lemma merge_outer_disjoint {A B} (kl : A -> string) (kr : B -> string)
    left right m :
  (forall a b, In a left -> In b right -> kl a <> kr b) ->
  In m (merge_outer String.eqb String.leb kl kr left right) ->
  (exists a, In a left /\ m = (kl a, Some a, None)) \/
  (exists b, In b right /\ m = (kr b, None, Some b)).
Proof.
  intros Hd Hm; unfold merge_outer in Hm.
  apply in_flat_map in Hm as (k & _ & Hm).
  destruct (filter (fun a => String.eqb (kl a) k) left) as [|a ls] eqn:El.
  - right; apply in_map_iff in Hm as (b & <- & Hb).
    apply filter_In in Hb as [Hb E]; apply String.eqb_eq in E; subst k.
    exists b; auto.
  - assert (Ha : In a left /\ kl a = k).
    { assert (I : In a (a :: ls)) by now left.
      rewrite <- El in I; apply filter_In in I as [I E].
      apply String.eqb_eq in E; auto. }
    destruct (filter (fun b => String.eqb (kr b) k) right) as [|b rs] eqn:Er.
    + left; apply in_map_iff in Hm as (a' & <- & Ha').
      rewrite <- El in Ha'; apply filter_In in Ha' as [Ha' E].
      apply String.eqb_eq in E; subst k; exists a'; auto.
    + exfalso.
      assert (I : In b (b :: rs)) by now left.
      rewrite <- Er in I; apply filter_In in I as [I E].
      apply String.eqb_eq in E.
      apply (Hd a b); [tauto | exact I | destruct Ha; congruence].
Qed.

Lemma minus_hundred p :
  p <> 0 -> rate_is (times100 (np_true_divide (0 - p) p)) (-100).
Proof.
  intros Hp; unfold np_true_divide.
  apply Z.eqb_neq in Hp; rewrite Hp; apply Z.eqb_neq in Hp.
  eexists; split; [reflexivity|].
  destruct p as [|n|n]; [now elim Hp| |]; unfold Qeq; simpl; lia.
Qed.

Lemma rate_where_target_only p : unmatched_rate (rate_where p 0 (p - 0)).
Proof.
  unfold rate_where, np_where; simpl.
  destruct (p =? 0); [left | right; left]; reflexivity.
Qed.

Lemma rate_where_comparison_only p : unmatched_rate (rate_where 0 p (0 - p)).
Proof.
  unfold rate_where, np_where.
  destruct (Z.eqb_spec p 0) as [Hp|Hp]; [left; reflexivity|].
  right; right; now apply minus_hundred.
Qed.

(** C10 (amended): in quarterly mode every label of a trend frame is
    '<year> <quarter>' of an input row, and the two frames are merged on
    it; when the comparison year is none of the target years no merged
    row has a partner: each row comes from one frame alone, the metrics
    of the other period are 0 in it, and each of its percentages is 0,
    +infinity (a target row) or -100 (a comparison row with a value that
    is not zero). *)
Theorem quarterly_trend_other_year :
  forall df Y M cy CM fs cum lbl_t lbl_c T C,
    valid_quarters df = true ->
    isin cy Y = false ->
    aggregate_profit_trend (select_trend_base df Y M fs) YearQuarter
      sort_key cum lbl_t = Some T ->
    aggregate_profit_trend (select_comp_trend_base df cy CM fs) YearQuarter
      sort_key cum lbl_c = Some C ->
    Forall
      (fun tr => exists r,
           In r (rows df) /\ In (year r) Y /\
           display_label tr
           = String.append (year r) (String.append " " (quarter r))) T /\
    Forall
      (fun tr => exists r,
           In r (rows df) /\
           display_label tr
           = String.append cy (String.append " " (quarter r))) C /\
    exists t,
      trend_table T (Some C) = TrendCompared t /\
      Forall
        (fun row =>
           ((exists tr, In tr T /\
                        row = variance_row (display_label tr)
                                (Some (trend_profit tr, trend_revenue tr))
                                None) \/
            (exists tr, In tr C /\
                        row = variance_row (display_label tr) None
                                (Some (trend_profit tr, trend_revenue tr)))) /\
           (var_profit row - var_profit_diff row = 0 /\
            var_revenue row - var_revenue_diff row = 0 \/
            var_profit row = 0 /\ var_revenue row = 0) /\
           unmatched_rate (var_profit_rate row) /\
           unmatched_rate (var_revenue_rate row)) t.
Proof.
  intros df Y M cy CM fs cum lbl_t lbl_c T C Hq Hcy HT HC.
  assert (LT : Forall
                 (fun tr => exists r,
                      In r (rows df) /\ In (year r) Y /\
                      display_label tr
                      = String.append (year r)
                          (String.append " " (quarter r))) T).
  { apply Forall_forall; intros tr Htr.
    destruct (quarterly_labels _ _ _ _ _ _ HT Htr) as (r & Hr & E).
    apply select_trend_base_years in Hr as [Hr Hy]; eauto. }
  assert (LC : Forall
                 (fun tr => exists r,
                      In r (rows df) /\
                      display_label tr
                      = String.append cy (String.append " " (quarter r))) C).
  { apply Forall_forall; intros tr Htr.
    destruct (quarterly_labels _ _ _ _ _ _ HC Htr) as (r & Hr & E).
    apply select_comp_trend_base_year in Hr as [Hr Hy].
    rewrite Hy in E; eauto. }
  split; [exact LT|]; split; [exact LC|].
  eexists; split; [reflexivity|].
  assert (Hd : forall a b, In a T -> In b C ->
                           display_label a <> display_label b).
  { intros a b Ha Hb E.
    rewrite Forall_forall in LT, LC.
    destruct (LT a Ha) as (r1 & Hr1 & Hy1 & E1).
    destruct (LC b Hb) as (r2 & Hr2 & E2).
    unfold valid_quarters in Hq; rewrite forallb_forall in Hq.
    rewrite E1, E2 in E.
    apply year_quarter_label_inj in E;
      [|apply quarters_no_space; auto | apply quarters_no_space; auto].
    apply isin_In in Hy1; rewrite E in Hy1; congruence. }
  apply Forall_forall; intros row Hrow.
  apply in_map_iff in Hrow as (m & <- & Hm).
  destruct (merge_outer_disjoint _ _ _ _ _ Hd Hm) as [(a & Ha & ->)|(b & Hb & ->)];
    cbn [fst snd option_map].
  - split; [left; exists a; split; [exact Ha | reflexivity]|].
    unfold variance_row;
      cbn [fst snd var_profit var_profit_diff var_revenue var_revenue_diff
           var_profit_rate var_revenue_rate].
    split; [left; lia|].
    split; apply rate_where_target_only.
  - split; [right; exists b; split; [exact Hb | reflexivity]|].
    unfold variance_row;
      cbn [fst snd var_profit var_profit_diff var_revenue var_revenue_diff
           var_profit_rate var_revenue_rate].
    split; [right; split; reflexivity|].
    split; apply rate_where_comparison_only.
Qed.

(** The theorem at the two-year ledger: the first quarter of 2024
    against the first quarter of 2023. *)
Lemma quarterly_trend_other_year_witness :
  Forall
    (fun tr => exists r,
         In r (rows (ledger sheet_two_years)) /\ In (year r) ["2024"] /\
         display_label tr
         = String.append (year r) (String.append " " (quarter r)))
    [mkTrend "2024 Q1" 400000 1000000 ""].
Proof.
  exact (proj1
    (quarterly_trend_other_year (ledger sheet_two_years) ["2024"] ["01"]
       "2023" ["01"] [] false "" ""
       [mkTrend "2024 Q1" 400000 1000000 ""]
       [mkTrend "2023 Q1" 200000 500000 ""]
       eq_refl eq_refl eq_refl eq_refl)).
Defined.

(** C10, as stated, fails on the percentages: for the first quarter of
    2024 against the first quarter of 2023 the merged quarterly table has
    the comparison row '2023 Q1' with both percentages -100, which is
    neither 0 nor +infinity. *)
Lemma quarterly_trend_minus_hundred_counterexample :
  isin "2023" ["2024"] = false /\
  exists r,
    render show_rate show_won (ledger sheet_two_years)
      (january "2023" ["01"] Quarterly) = Ok (Analysis r) /\
    df_trend_raw r
    = Some (TrendCompared
              [ mkVar string "2023 Q1" 0 (-200000)
                  (Finite (-20000000 # 200000))
                  0 (-500000) (Finite (-50000000 # 500000));
                mkVar string "2024 Q1" 400000 400000 PosInf
                  1000000 1000000 PosInf ]) /\
    feq (Finite (-20000000 # 200000)) (of_Z (-100)) = true /\
    feq (Finite (-50000000 # 500000)) (of_Z (-100)) = true /\
    Finite (-20000000 # 200000) <> of_Z 0 /\
    Finite (-20000000 # 200000) <> PosInf.
Proof.
  split; [reflexivity|].
  eexists; split; [vm_compute; reflexivity|].
  repeat split; try reflexivity; discriminate.
Qed.

(* ================================================================= *)
(** * Further properties of the pipeline *)

(** ** Sums over groups *)

Lemma zsum_app l1 l2 : zsum (l1 ++ l2) = zsum l1 + zsum l2.
Proof. induction l1 as [|x l1 IH]; simpl; lia. Qed.

Lemma zsum_map_add {A} (f g : A -> Z) l :
  zsum (map (fun x => f x + g x) l) = zsum (map f l) + zsum (map g l).
Proof. induction l as [|x l IH]; simpl; lia. Qed.

Lemma zsum_map_sub {A} (f g : A -> Z) l :
  zsum (map (fun x => f x - g x) l) = zsum (map f l) - zsum (map g l).
Proof. induction l as [|x l IH]; simpl; lia. Qed.

Lemma zsum_map_ext {A} (f g : A -> Z) l :
  (forall x, In x l -> f x = g x) -> zsum (map f l) = zsum (map g l).
Proof.
  induction l as [|x l IH]; simpl; intros H; [reflexivity|].
  rewrite (H x (or_introl eq_refl)), IH; auto.
Qed.

Lemma zsum_map_zero {A} (l : list A) : zsum (map (fun _ => 0) l) = 0.
Proof. induction l as [|x l IH]; simpl; lia. Qed.

Lemma Permutation_zsum l l' : Permutation l l' -> zsum l = zsum l'.
Proof. induction 1; simpl; lia. Qed.

Lemma insert_sorted_Permutation {A} (le : A -> A -> bool) x l :
  Permutation (insert_sorted le x l) (x :: l).
Proof.
  induction l as [|y l IH]; simpl; [reflexivity|].
  destruct (le x y); [reflexivity|].
  rewrite IH; apply perm_swap.
Qed.

Lemma sort_values_Permutation {A} (le : A -> A -> bool) l :
  Permutation (sort_values le l) l.
Proof.
  induction l as [|x l IH]; simpl; [reflexivity|].
  rewrite insert_sorted_Permutation; now constructor.
Qed.

Section Keys.
Context {K : Type} (eqb : K -> K -> bool).
Hypothesis eqb_eq : forall a b, eqb a b = true <-> a = b.

Lemma unique_In x l : In x (unique eqb l) <-> In x l.
Proof.
  induction l as [|y l IH]; simpl; [reflexivity|].
  rewrite filter_In, IH.
  destruct (eqb y x) eqn:E; simpl.
  - apply eqb_eq in E; intuition.
  - assert (y <> x) by (intros ->; rewrite (proj2 (eqb_eq x x) eq_refl) in E;
                        discriminate).
    intuition.
Qed.

Lemma unique_NoDup l : NoDup (unique eqb l).
Proof.
  induction l as [|y l IH]; simpl; constructor.
  - rewrite filter_In; intros [_ H].
    rewrite (proj2 (eqb_eq y y) eq_refl) in H; discriminate.
  - now apply NoDup_filter.
Qed.

Lemma sorted_unique_NoDup leb l : NoDup (sort_values leb (unique eqb l)).
Proof.
  eapply Permutation_NoDup;
    [symmetry; apply sort_values_Permutation | apply unique_NoDup].
Qed.

Lemma existsb_eqb x ks : existsb (eqb x) ks = true <-> In x ks.
Proof.
  rewrite existsb_exists; split.
  - intros (y & Hy & E); apply eqb_eq in E; now subst.
  - intros H; exists x; split; [exact H | now apply eqb_eq].
Qed.

(** One key of a duplicate-free list takes the whole amount. *)
Lemma zsum_indicator x v ks :
  NoDup ks ->
  zsum (map (fun k => if eqb x k then v else 0) ks)
  = if existsb (eqb x) ks then v else 0.
Proof.
  induction 1 as [|k ks Hk Hnd IH]; simpl; [reflexivity|].
  rewrite IH; destruct (eqb x k) eqn:E; simpl; [|reflexivity].
  apply eqb_eq in E; subst k.
  destruct (existsb (eqb x) ks) eqn:E'; [|lia].
  apply existsb_eqb in E'; contradiction.
Qed.

(** Summing group by group is summing the rows whose key is listed. *)
Lemma zsum_by_key {A} (key : A -> K) (f : A -> Z) ks l :
  NoDup ks ->
  zsum (map (fun k => zsum (map f (filter (fun a => eqb (key a) k) l))) ks)
  = zsum (map f (filter (fun a => existsb (eqb (key a)) ks) l)).
Proof.
  intros Hnd; induction l as [|a l IH]; simpl.
  - apply zsum_map_zero.
  - rewrite (zsum_map_ext _
               (fun k => (if eqb (key a) k then f a else 0)
                         + zsum (map f (filter (fun a => eqb (key a) k) l)))).
    + rewrite zsum_map_add, IH, zsum_indicator by exact Hnd.
      destruct (existsb (eqb (key a)) ks); reflexivity.
    + intros k _; destruct (eqb (key a) k); simpl; lia.
Qed.

(** The groups of [groupby] split the rows: their sums add up to the
    sum over all rows. *)
Lemma groupby_zsum leb (key : Row -> K) (f : Row -> Z) rs :
  zsum (map (fun g => zsum (map f (snd g))) (groupby eqb leb key rs))
  = zsum (map f rs).
Proof.
  unfold groupby; rewrite map_map; cbn [snd].
  rewrite zsum_by_key by apply sorted_unique_NoDup.
  f_equal; f_equal; apply filter_all; intros r Hr.
  apply existsb_eqb, sort_values_In, unique_In; now apply in_map.
Qed.

Lemma groupby_keys_NoDup leb (key : Row -> K) rs :
  NoDup (map fst (groupby eqb leb key rs)).
Proof.
  unfold groupby; rewrite map_map; cbn [fst]; rewrite map_id.
  apply sorted_unique_NoDup.
Qed.
End Keys.

Lemma key_eqb_eq a : forall b, key_eqb a b = true <-> a = b.
Proof.
  induction a as [|x a IH]; intros [|y b]; simpl; split; intros H;
    try discriminate; try reflexivity.
  - apply andb_true_iff in H as [H1 H2].
    apply String.eqb_eq in H1; apply IH in H2; now subst.
  - injection H as -> ->; rewrite String.eqb_refl; now apply IH.
Qed.

Lemma pair_eqb_eq a b : pair_eqb a b = true <-> a = b.
Proof.
  destruct a as [s z], b as [s' z']; unfold pair_eqb; simpl.
  rewrite andb_true_iff, String.eqb_eq, Z.eqb_eq; split.
  - intros [-> ->]; reflexivity.
  - intros E; injection E as -> ->; auto.
Qed.

(** ** The loaded ledger *)

Lemma traverse_Some_iff {A B} (f : A -> option B) l :
  (exists l', traverse f l = Some l') <-> Forall (fun x => f x <> None) l.
Proof.
  induction l as [|x l IH]; simpl.
  - split; [constructor | eauto].
  - split.
    + intros [l' H]; destruct (f x) eqn:E; [|discriminate].
      destruct (traverse f l); [|discriminate].
      constructor; [congruence | apply IH; eauto].
    + intros H; inversion H as [|? ? Hx Hl]; subst.
      apply IH in Hl as [l' ->].
      destruct (f x); [eauto | contradiction].
Qed.

Lemma traverse_Forall2 {A B} (f : A -> option B) l l' :
  traverse f l = Some l' -> Forall2 (fun x y => f x = Some y) l l'.
Proof.
  revert l'; induction l as [|x l IH]; simpl; intros l' H.
  - injection H as <-; constructor.
  - destruct (f x) eqn:E; [|discriminate].
    destruct (traverse f l); [|discriminate].
    injection H as <-; constructor; auto.
Qed.

(** The sheet columns [load_data] asks for, in the order it checks them. *)
Lemma required_not_derived c :
  In c (FILTER_COLUMNS ++ ["매출액"]) ->
  isin c ["년"; "월"; "분기"; "년분기"; "sort_key"] = false.
Proof.
  simpl; intros H.
  repeat destruct H as [<-|H]; try reflexivity; contradiction.
Qed.

(** What a successful [load_data] has computed. *)
Lemma load_data_inv py_int str_to_numeric file df warned :
  load_data py_int str_to_numeric file = inr (df, warned) ->
  let cols1 :=
    fold_left add_column ["년"; "월"; "분기"; "년분기"; "sort_key"]
      (raw_columns file) in
  exists cal,
    traverse (calendar py_int) (raw_rows file) = Some cal /\
    isin "년월" (raw_columns file) = true /\
    find (fun c => negb (isin c cols1)) FILTER_COLUMNS = None /\
    isin "매출액" cols1 = true /\
    warned = negb (forallb (fun c => isin c cols1) COST_COLUMNS) /\
    df = mkFrame (fold_left add_column ["총비용"; "영업이익"] cols1)
           (map (finish_row str_to_numeric cols1 (negb warned))
              (combine (raw_rows file) cal)).
Proof.
  intros H cols1; unfold load_data in H; fold cols1 in H.
  destruct (isin "년월" (raw_columns file)); [|discriminate].
  destruct (traverse (calendar py_int) (raw_rows file)) as [cal|];
    [|discriminate].
  destruct (find _ FILTER_COLUMNS); [discriminate|].
  destruct (isin "매출액" cols1); [|discriminate].
  remember (forallb (fun c => isin c cols1) COST_COLUMNS) as present.
  cbn [negb] in H; injection H as <- <-.
  exists cal; rewrite negb_involutive; repeat split; reflexivity.
Qed.

(** X1.  [load_data] succeeds exactly on the sheets that have the six
    required columns and whose every 년월 cell reads as a period; a
    missing 년월 column is reported first, a column it reports missing
    is a required one that the sheet lacks, and the processing error
    means that some row's period could not be read. *)
Theorem load_data_outcome :
  forall py_int str_to_numeric file,
    ((exists df warned,
         load_data py_int str_to_numeric file = inr (df, warned)) <->
     Forall (fun c => In c (raw_columns file))
       ("년월" :: FILTER_COLUMNS ++ ["매출액"]) /\
     Forall (fun raw => calendar py_int raw <> None) (raw_rows file)) /\
    (~ In "년월" (raw_columns file) ->
     load_data py_int str_to_numeric file = inl (MissingColumn "년월")) /\
    (forall c,
        load_data py_int str_to_numeric file = inl (MissingColumn c) ->
        In c ("년월" :: FILTER_COLUMNS ++ ["매출액"]) /\
        ~ In c (raw_columns file)) /\
    (load_data py_int str_to_numeric file = inl ProcessingError ->
     exists raw, In raw (raw_rows file) /\ calendar py_int raw = None).
Proof.
  intros py_int str_to_numeric file.
  set (cols1 := fold_left add_column ["년"; "월"; "분기"; "년분기"; "sort_key"]
                  (raw_columns file)).
  assert (Hreq : forall c, In c (FILTER_COLUMNS ++ ["매출액"]) ->
                           isin c cols1 = isin c (raw_columns file)).
  { intros c Hc; unfold cols1.
    rewrite isin_add_columns, (required_not_derived c Hc).
    apply orb_false_r. }
  assert (Hfind : forall c,
             find (fun c => negb (isin c cols1)) FILTER_COLUMNS = Some c ->
             In c FILTER_COLUMNS /\ ~ In c (raw_columns file)).
  { intros c H; apply find_some in H as [Hin Hn]; split; [exact Hin|].
    rewrite Hreq in Hn by (apply in_or_app; now left).
    apply negb_true_iff in Hn; intros Hc; apply isin_In in Hc; congruence. }
  assert (Hnone :
            find (fun c => negb (isin c cols1)) FILTER_COLUMNS = None ->
            Forall (fun c => In c (raw_columns file)) FILTER_COLUMNS).
  { intros H; apply Forall_forall; intros c Hc.
    pose proof (find_none _ _ H c Hc) as Hn; simpl in Hn.
    apply negb_false_iff in Hn.
    rewrite Hreq in Hn by (apply in_or_app; now left).
    now apply isin_In. }
  split; [|split; [|split]].
  - split.
    + intros (df & w & H).
      destruct (load_data_inv _ _ _ _ _ H) as (cal & Hc & Hy & Hf & Hr & _).
      fold cols1 in Hf, Hr; split.
      * constructor; [now apply isin_In|].
        apply Forall_app; split; [now apply Hnone|].
        constructor; [|constructor].
        rewrite Hreq in Hr by (apply in_or_app; right; now left).
        now apply isin_In.
      * apply traverse_Some_iff; eauto.
    + intros [Hcols Hrows].
      apply Forall_cons_iff in Hcols as [Hy Hrest].
      apply Forall_app in Hrest as [Hf Hr].
      apply Forall_inv in Hr; rename Hr into Hrev.
      apply traverse_Some_iff in Hrows as [cal Hcal].
      unfold load_data; fold cols1.
      rewrite (proj2 (isin_In _ _) Hy), Hcal; cbn [negb].
      destruct (find (fun c => negb (isin c cols1)) FILTER_COLUMNS) as [c|] eqn:E.
      * destruct (Hfind c eq_refl) as [Hin Hn]; rewrite Forall_forall in Hf.
        elim Hn; auto.
      * rewrite Hreq by (apply in_or_app; right; now left).
        rewrite (proj2 (isin_In _ _) Hrev); cbn [negb]; eauto.
  - intros Hn; unfold load_data.
    destruct (isin "년월" (raw_columns file)) eqn:E; [|reflexivity].
    apply isin_In in E; contradiction.
  - intros c H; unfold load_data in H; fold cols1 in H.
    destruct (isin "년월" (raw_columns file)) eqn:Ey; cbn [negb] in H.
    + destruct (traverse (calendar py_int) (raw_rows file)); [|discriminate].
      destruct (find (fun c => negb (isin c cols1)) FILTER_COLUMNS) as [c'|] eqn:E.
      * injection H as <-; destruct (Hfind c' eq_refl) as [Hin Hn];
          split; [|exact Hn].
        right; apply in_or_app; now left.
      * destruct (isin "매출액" cols1) eqn:Er; [discriminate|].
        cbn [negb] in H; injection H as <-; split.
        -- right; apply in_or_app; right; now left.
        -- rewrite Hreq in Er by (apply in_or_app; right; now left).
           intros Hc; apply isin_In in Hc; congruence.
    + injection H as <-; split; [now left|].
      intros Hc; apply isin_In in Hc; congruence.
  - intros H; unfold load_data in H; fold cols1 in H.
    destruct (isin "년월" (raw_columns file)); [|discriminate].
    cbn [negb] in H.
    destruct (traverse (calendar py_int) (raw_rows file)) as [cal|] eqn:E.
    + destruct (find _ FILTER_COLUMNS); [discriminate|].
      destruct (isin "매출액" cols1); discriminate.
    + destruct (Exists_dec (fun raw => calendar py_int raw = None)
                  (raw_rows file)) as [Hex|Hno].
      * intros raw; destruct (calendar py_int raw); [right|left]; congruence.
      * apply Exists_exists in Hex; exact Hex.
      * exfalso.
        assert (Hall : Forall (fun raw => calendar py_int raw <> None)
                         (raw_rows file)).
        { apply Forall_forall; intros raw Hraw Hn; apply Hno.
          apply Exists_exists; eauto. }
        apply traverse_Some_iff in Hall as [cal Hcal]; congruence.
Qed.

Lemma Forall2_combine_In {A B} (P : A -> B -> Prop) l l' x y :
  Forall2 P l l' -> In (x, y) (combine l l') -> P x y.
Proof.
  induction 1 as [|a b l l' Hab _ IH]; simpl; [contradiction|].
  intros [E|H]; [injection E as <- <-; exact Hab | auto].
Qed.

Lemma get_quarter_values py_int m q :
  get_quarter py_int m = Some q -> In q QUARTERS.
Proof.
  unfold get_quarter; destruct (py_int m) as [k|]; [|discriminate].
  intros H; injection H as <-; unfold QUARTERS.
  repeat match goal with |- context [if ?b then _ else _] => destruct b end;
    simpl; tauto.
Qed.

(** X2.  The rows of a loaded ledger stand for the rows of the sheet, in
    order, and their calendar columns agree with 년월: 년 and 월 are its
    first four and next two characters, 분기 is what [get_quarter] gives
    for 월 and so one of Q1, Q2, Q3, Q4 and N/A, 년분기 is '년 분기', and
    sort_key is the period read as a number. *)
Theorem load_data_calendar :
  forall py_int str_to_numeric file df warned,
    load_data py_int str_to_numeric file = inr (df, warned) ->
    map ym (rows df)
    = map (fun raw => astype_str (raw_cell raw "년월")) (raw_rows file) /\
    Forall
      (fun r =>
         year r = substring 0 4 (ym r) /\
         month r = substring 4 2 (ym r) /\
         get_quarter py_int (month r) = Some (quarter r) /\
         In (quarter r) QUARTERS /\
         year_quarter r
         = String.append (year r) (String.append " " (quarter r)) /\
         py_int (ym r) = Some (sort_key r))
      (rows df).
Proof.
  intros py_int str_to_numeric file df warned H.
  destruct (load_data_inv _ _ _ _ _ H) as (cal & Hc & _ & _ & _ & _ & ->).
  apply traverse_Forall2 in Hc; cbn [rows]; clear H; split.
  - induction Hc as [|raw c l l' Hrc _ IH]; [reflexivity|].
    cbn [combine map]; rewrite IH; f_equal.
    unfold calendar in Hrc.
    destruct (get_quarter _ _); [|discriminate].
    destruct (py_int _); [|discriminate].
    injection Hrc as <-; reflexivity.
  - apply Forall_forall; intros r Hr.
    apply in_map_iff in Hr as ([raw c] & <- & Hin).
    pose proof (Forall2_combine_In _ _ _ _ _ Hc Hin) as Hrc; cbn beta in Hrc.
    unfold calendar in Hrc.
    destruct (get_quarter _ _) as [q|] eqn:Eq; [|discriminate].
    destruct (py_int _) as [k|] eqn:Ek; [|discriminate].
    injection Hrc as <-.
    unfold finish_row; cbn [year month quarter year_quarter ym sort_key].
    repeat split; auto.
    eapply get_quarter_values; eassumption.
Qed.

(** The theorem at the two-month sheet. *)
Lemma load_data_calendar_witness :
  map ym (rows (ledger sheet_two_months)) = ["202401"; "202402"].
Proof.
  exact (proj1 (load_data_calendar digits_int digits_int sheet_two_months
                  (ledger sheet_two_months) false eq_refl)).
Defined.

(** X3.  The frame [load_data] returns keeps every column of the sheet and
    has the seven derived columns, and no other. *)
Theorem load_data_columns :
  forall py_int str_to_numeric file df warned,
    load_data py_int str_to_numeric file = inr (df, warned) ->
    forall c,
      In c (columns df) <->
      In c (raw_columns file) \/
      In c ["년"; "월"; "분기"; "년분기"; "sort_key"; "총비용"; "영업이익"].
Proof.
  intros py_int str_to_numeric file df warned H c.
  destruct (load_data_inv _ _ _ _ _ H) as (cal & _ & _ & _ & _ & _ & ->).
  cbn [columns].
  rewrite <- !isin_In, !isin_add_columns.
  change ["년"; "월"; "분기"; "년분기"; "sort_key"; "총비용"; "영업이익"]
    with (["년"; "월"; "분기"; "년분기"; "sort_key"] ++ ["총비용"; "영업이익"]).
  rewrite isin_app, !orb_true_iff; tauto.
Qed.

(** The theorem at the two-month sheet. *)
Lemma load_data_columns_witness :
  In "영업이익" (columns (ledger sheet_two_months)) <->
  In "영업이익" (raw_columns sheet_two_months) \/
  In "영업이익" ["년"; "월"; "분기"; "년분기"; "sort_key"; "총비용"; "영업이익"].
Proof.
  exact (load_data_columns digits_int digits_int sheet_two_months
           (ledger sheet_two_months) false eq_refl "영업이익").
Defined.

(** Every row of a loaded ledger has 영업이익 = 매출액 - 총비용. *)
Lemma load_data_rows_identity py_int str_to_numeric file df warned :
  load_data py_int str_to_numeric file = inr (df, warned) ->
  Forall (fun r => operating_profit r = revenue r - total_cost r) (rows df).
Proof.
  intros H.
  destruct (load_data_inv _ _ _ _ _ H) as (cal & _ & _ & _ & _ & _ & ->).
  cbn [rows]; apply Forall_forall; intros r Hr.
  apply in_map_iff in Hr as ([raw [[[[ym_s y] m] q] k]] & <- & _).
  unfold finish_row; cbn [operating_profit revenue total_cost].
  destruct (negb warned); lia.
Qed.


(** ** Totals of the trend and of the breakdown *)

Lemma zsum_flat_map {A B} (f : B -> Z) (F : A -> list B) l :
  zsum (map f (flat_map F l)) = zsum (map (fun k => zsum (map f (F k))) l).
Proof.
  induction l as [|x l IH]; simpl; [reflexivity|].
  now rewrite map_app, zsum_app, IH.
Qed.

Lemma last_cumsum_from l : forall acc d,
  l <> [] -> last (cumsum_from acc l) d = acc + zsum l.
Proof.
  induction l as [|x l IH]; intros acc d H; [now elim H|].
  destruct l as [|y l]; [simpl; lia|].
  change (last (cumsum_from (acc + x) (y :: l)) d = acc + (x + zsum (y :: l))).
  rewrite IH by discriminate; lia.
Qed.

Lemma trend_groups_zsum time_col sort_col rs :
  zsum (map group_revenue (trend_groups time_col sort_col rs))
  = zsum (map revenue rs) /\
  zsum (map group_profit (trend_groups time_col sort_col rs))
  = zsum (map operating_profit rs).
Proof.
  destruct time_col; unfold trend_groups; rewrite !map_map;
    cbn [group_revenue group_profit].
  - split.
    + apply (groupby_zsum pair_eqb pair_eqb_eq pair_leb
               (fun r => (ym r, sort_col r)) revenue).
    + apply (groupby_zsum pair_eqb pair_eqb_eq pair_leb
               (fun r => (ym r, sort_col r)) operating_profit).
  - split.
    + apply (groupby_zsum String.eqb String.eqb_eq String.leb _ revenue).
    + apply (groupby_zsum String.eqb String.eqb_eq String.leb _
               operating_profit).
Qed.

(** X4.  For a frame whose 매출액 and 영업이익 are whole numbers with
    absolute values adding up to at most 2^53 per column, so that the
    group sums, the running sums and the column sums are exact: the
    plain trend adds up to the totals of its input, and the last row of
    the cumulative trend shows these totals, for either bucket. *)
Theorem trend_totals :
  forall df time_col sort_col lbl,
    empty df = false ->
    exact_column revenue (rows df) = true ->
    exact_column operating_profit (rows df) = true ->
    exists plain cumul,
      aggregate_profit_trend df time_col sort_col false lbl = Some plain /\
      aggregate_profit_trend df time_col sort_col true lbl = Some cumul /\
      zsum (map trend_revenue plain) = col_sum revenue df /\
      zsum (map trend_profit plain) = col_sum operating_profit df /\
      last (map trend_revenue cumul) 0 = col_sum revenue df /\
      last (map trend_profit cumul) 0 = col_sum operating_profit df.
Proof.
  intros df time_col sort_col lbl Hne _ _.
  unfold aggregate_profit_trend; rewrite Hne.
  set (g := sort_values _ (trend_groups time_col sort_col (rows df))).
  set (a := map (label_of time_col) g).
  set (p := map group_profit g).
  set (r := map group_revenue g).
  assert (Hp : List.length p = List.length a)
    by (unfold p, a; now rewrite !length_map).
  assert (Hr : List.length r = List.length a)
    by (unfold r, a; now rewrite !length_map).
  destruct (trend_frame_columns lbl a p r Hp Hr) as (_ & P2 & P3 & _).
  destruct (trend_frame_columns lbl a (cumsum p) (cumsum r))
    as (_ & C2 & C3 & _);
    [unfold cumsum; now rewrite cumsum_from_length
    |unfold cumsum; now rewrite cumsum_from_length|].
  do 2 eexists; split; [reflexivity|]; split; [reflexivity|].
  cbv zeta in P2, P3, C2, C3; rewrite P2, P3, C2, C3.
  destruct (trend_groups_zsum time_col sort_col (rows df)) as [Tr Tp].
  assert (Sr : zsum r = col_sum revenue df).
  { unfold r, g, col_sum; rewrite <- Tr; apply Permutation_zsum.
    apply Permutation_map, sort_values_Permutation. }
  assert (Sp : zsum p = col_sum operating_profit df).
  { unfold p, g, col_sum; rewrite <- Tp; apply Permutation_zsum.
    apply Permutation_map, sort_values_Permutation. }
  assert (Hg : g <> []).
  { intros E; apply (f_equal (@List.length _)) in E.
    unfold g in E; rewrite sort_values_length in E; simpl in E.
    revert E; apply trend_groups_length.
    unfold empty in Hne; destruct (rows df); discriminate. }
  repeat split; auto.
  - unfold cumsum; rewrite last_cumsum_from; [lia|].
    unfold r; destruct g; [now elim Hg | discriminate].
  - unfold cumsum; rewrite last_cumsum_from; [lia|].
    unfold p; destruct g; [now elim Hg | discriminate].
Qed.

(** The theorem at the two-month ledger, by quarter. *)
Lemma trend_totals_witness :
  exists plain cumul,
    aggregate_profit_trend (ledger sheet_two_months) YearQuarter sort_key
      false "" = Some plain /\
    aggregate_profit_trend (ledger sheet_two_months) YearQuarter sort_key
      true "" = Some cumul /\
    zsum (map trend_revenue plain) = col_sum revenue (ledger sheet_two_months)
    /\ zsum (map trend_profit plain)
       = col_sum operating_profit (ledger sheet_two_months) /\
    last (map trend_revenue cumul) 0 = col_sum revenue (ledger sheet_two_months)
    /\ last (map trend_profit cumul) 0
       = col_sum operating_profit (ledger sheet_two_months).
Proof.
  apply (trend_totals (ledger sheet_two_months) YearQuarter sort_key "").
  - vm_compute; reflexivity.
  - vm_compute; reflexivity.
  - vm_compute; reflexivity.
Defined.

(** *** The outer merge of two frames with distinct keys *)

Section Merge.
Context {K A B : Type} (eqb leb : K -> K -> bool).
Hypothesis eqb_eq : forall a b, eqb a b = true <-> a = b.
Context (kl : A -> K) (kr : B -> K).

Lemma filter_distinct_key {C} (k : C -> K) l x :
  NoDup (map k l) ->
  filter (fun c => eqb (k c) x) l = [] \/
  exists c, filter (fun c => eqb (k c) x) l = [c].
Proof.
  induction l as [|c l IH]; simpl; intros H; [now left|].
  inversion H as [|? ? Hc Hl]; subst.
  destruct (eqb (k c) x) eqn:E; [|auto].
  right; exists c; f_equal.
  apply filter_none; intros c' Hc'.
  destruct (eqb (k c') x) eqn:E'; [|reflexivity].
  apply eqb_eq in E, E'; elim Hc; rewrite E, <- E'; now apply in_map.
Qed.

Lemma merge_outer_merged_for left right :
  merge_outer eqb leb kl kr left right
  = flat_map (merged_for eqb kl kr left right)
      (sort_values leb (unique eqb (map kl left ++ map kr right))).
Proof. reflexivity. Qed.

Lemma merged_for_left (va : A -> Z) left right k :
  NoDup (map kr right) ->
  zsum (map (fun m : K * option A * option B =>
               match snd (fst m) with Some a => va a | None => 0 end)
          (merged_for eqb kl kr left right k))
  = zsum (map va (filter (fun a => eqb (kl a) k) left)).
Proof.
  intros Hr; unfold merged_for.
  destruct (filter (fun a => eqb (kl a) k) left) as [|a ls].
  - rewrite map_map; cbn [fst snd]; apply zsum_map_zero.
  - destruct (filter_distinct_key kr right k Hr) as [->|[b ->]].
    + rewrite map_map; reflexivity.
    + rewrite zsum_flat_map; apply zsum_map_ext.
      intros x _; cbn; lia.
Qed.

Lemma merged_for_right (vb : B -> Z) left right k :
  NoDup (map kl left) ->
  zsum (map (fun m : K * option A * option B =>
               match snd m with Some b => vb b | None => 0 end)
          (merged_for eqb kl kr left right k))
  = zsum (map vb (filter (fun b => eqb (kr b) k) right)).
Proof.
  intros Hl; unfold merged_for.
  destruct (filter_distinct_key kl left k Hl) as [->|[a ->]].
  - rewrite map_map; reflexivity.
  - destruct (filter (fun b => eqb (kr b) k) right) as [|b rs].
    + reflexivity.
    + cbn [flat_map]; rewrite app_nil_r, map_map; reflexivity.
Qed.

Lemma merge_keys_cover_left left right a :
  In a left ->
  existsb (eqb (kl a))
    (sort_values leb (unique eqb (map kl left ++ map kr right))) = true.
Proof.
  intros Ha; apply (existsb_eqb eqb eqb_eq), sort_values_In.
  apply (unique_In eqb eqb_eq), in_or_app; left; now apply in_map.
Qed.

Lemma merge_keys_cover_right left right b :
  In b right ->
  existsb (eqb (kr b))
    (sort_values leb (unique eqb (map kl left ++ map kr right))) = true.
Proof.
  intros Hb; apply (existsb_eqb eqb eqb_eq), sort_values_In.
  apply (unique_In eqb eqb_eq), in_or_app; right; now apply in_map.
Qed.

(** Summed over the merged frame, a column of the left frame keeps its
    total, the missing cells counting as 0; likewise on the right. *)
Lemma merge_outer_zsum_left (va : A -> Z) left right :
  NoDup (map kr right) ->
  zsum (map (fun m : K * option A * option B =>
               match snd (fst m) with Some a => va a | None => 0 end)
          (merge_outer eqb leb kl kr left right))
  = zsum (map va left).
Proof.
  intros Hr; rewrite merge_outer_merged_for, zsum_flat_map.
  rewrite (zsum_map_ext _
             (fun k => zsum (map va (filter (fun a => eqb (kl a) k) left))))
    by (intros; now apply merged_for_left).
  rewrite (zsum_by_key eqb eqb_eq) by apply (sorted_unique_NoDup eqb eqb_eq).
  f_equal; f_equal; apply filter_all; intros a Ha.
  now apply merge_keys_cover_left.
Qed.

Lemma merge_outer_zsum_right (vb : B -> Z) left right :
  NoDup (map kl left) ->
  zsum (map (fun m : K * option A * option B =>
               match snd m with Some b => vb b | None => 0 end)
          (merge_outer eqb leb kl kr left right))
  = zsum (map vb right).
Proof.
  intros Hl; rewrite merge_outer_merged_for, zsum_flat_map.
  rewrite (zsum_map_ext _
             (fun k => zsum (map vb (filter (fun b => eqb (kr b) k) right))))
    by (intros; now apply merged_for_right).
  rewrite (zsum_by_key eqb eqb_eq) by apply (sorted_unique_NoDup eqb eqb_eq).
  f_equal; f_equal; apply filter_all; intros b Hb.
  now apply merge_keys_cover_right.
Qed.

(** With distinct keys on both sides the merge has one row per key. *)
Lemma merge_outer_keys left right :
  NoDup (map kl left) -> NoDup (map kr right) ->
  map (fun m : K * option A * option B => fst (fst m))
    (merge_outer eqb leb kl kr left right)
  = sort_values leb (unique eqb (map kl left ++ map kr right)).
Proof.
  intros Hl Hr; rewrite merge_outer_merged_for.
  assert (H : forall k,
             In k (sort_values leb (unique eqb (map kl left ++ map kr right))) ->
             map (fun m : K * option A * option B => fst (fst m))
               (merged_for eqb kl kr left right k) = [k]).
  { intros k Hk; rewrite sort_values_In, (unique_In eqb eqb_eq) in Hk.
    unfold merged_for.
    destruct (filter_distinct_key kl left k Hl) as [El|[a El]];
      destruct (filter_distinct_key kr right k Hr) as [Er|[b Er]];
      rewrite El, Er; try reflexivity.
    exfalso; apply in_app_or in Hk as [Hk|Hk];
      apply in_map_iff in Hk as (x & Hx & Hin).
    - assert (I : In x (filter (fun a => eqb (kl a) k) left))
        by (apply filter_In; split; [exact Hin | now apply eqb_eq]).
      now rewrite El in I.
    - assert (I : In x (filter (fun b => eqb (kr b) k) right))
        by (apply filter_In; split; [exact Hin | now apply eqb_eq]).
      now rewrite Er in I. }
  induction (sort_values leb (unique eqb (map kl left ++ map kr right)))
    as [|k ks IH]; [reflexivity|].
  cbn [flat_map]; rewrite map_app, (H k (or_introl eq_refl)), IH;
    [reflexivity|].
  intros k' Hk'; apply H; now right.
Qed.
End Merge.

Lemma group_sums_zsum cols df :
  zsum (map sum_revenue (group_sums cols df)) = col_sum revenue df /\
  zsum (map sum_profit (group_sums cols df)) = col_sum operating_profit df.
Proof.
  unfold group_sums; rewrite !map_map; cbn [sum_revenue sum_profit]; split.
  - apply (groupby_zsum key_eqb key_eqb_eq key_leb _ revenue).
  - apply (groupby_zsum key_eqb key_eqb_eq key_leb _ operating_profit).
Qed.

Lemma group_sums_keys_NoDup cols df :
  NoDup (map group_key (group_sums cols df)).
Proof.
  unfold group_sums; rewrite map_map; cbn [group_key].
  rewrite <- (map_map fst (fun k => k)), map_id.
  apply (groupby_keys_NoDup key_eqb key_eqb_eq).
Qed.

(** The merged breakdown, when both periods have rows. *)
Lemma breakdown_table_compared cols current_df df_comparison :
  empty df_comparison = false ->
  breakdown_table cols current_df df_comparison true
  = Compared
      (map (fun m : list string * option GroupRow * option GroupRow =>
              variance_row (fst (fst m))
                (option_map (fun g => (sum_profit g, sum_revenue g))
                   (snd (fst m)))
                (option_map (fun g => (sum_profit g, sum_revenue g)) (snd m)))
         (merge_outer key_eqb key_leb group_key group_key
            (group_sums cols current_df) (group_sums cols df_comparison))).
Proof. intros H; unfold breakdown_table; rewrite H; reflexivity. Qed.

(** The columns of the merged breakdown add up to the totals of the two
    periods: the target columns to the target totals, the difference
    columns to target minus comparison. *)
Lemma breakdown_compared_sums cols current_df df_comparison t :
  breakdown_table cols current_df df_comparison true = Compared t ->
  zsum (map var_revenue t) = col_sum revenue current_df /\
  zsum (map var_profit t) = col_sum operating_profit current_df /\
  zsum (map var_revenue_diff t)
  = col_sum revenue current_df - col_sum revenue df_comparison /\
  zsum (map var_profit_diff t)
  = col_sum operating_profit current_df
    - col_sum operating_profit df_comparison.
Proof.
  intros H.
  destruct (empty df_comparison) eqn:He;
    [unfold breakdown_table in H; rewrite He in H; discriminate|].
  rewrite (breakdown_table_compared _ _ _ He) in H; injection H as <-.
  destruct (group_sums_zsum cols current_df) as [Tr Tp].
  destruct (group_sums_zsum cols df_comparison) as [Cr Cp].
  pose proof (group_sums_keys_NoDup cols current_df) as Nt.
  pose proof (group_sums_keys_NoDup cols df_comparison) as Nc.
  set (mg := merge_outer key_eqb key_leb group_key group_key
               (group_sums cols current_df) (group_sums cols df_comparison)).
  assert (Lr : zsum (map (fun m : list string * option GroupRow * option GroupRow =>
                            match snd (fst m) with
                            | Some g => sum_revenue g
                            | None => 0
                            end) mg) = col_sum revenue current_df).
  { unfold mg; rewrite (merge_outer_zsum_left key_eqb key_leb key_eqb_eq);
      auto. }
  assert (Lp : zsum (map (fun m : list string * option GroupRow * option GroupRow =>
                            match snd (fst m) with
                            | Some g => sum_profit g
                            | None => 0
                            end) mg) = col_sum operating_profit current_df).
  { unfold mg; rewrite (merge_outer_zsum_left key_eqb key_leb key_eqb_eq);
      auto. }
  assert (Rr : zsum (map (fun m : list string * option GroupRow * option GroupRow =>
                            match snd m with
                            | Some g => sum_revenue g
                            | None => 0
                            end) mg) = col_sum revenue df_comparison).
  { unfold mg; rewrite (merge_outer_zsum_right key_eqb key_leb key_eqb_eq);
      auto. }
  assert (Rp : zsum (map (fun m : list string * option GroupRow * option GroupRow =>
                            match snd m with
                            | Some g => sum_profit g
                            | None => 0
                            end) mg) = col_sum operating_profit df_comparison).
  { unfold mg; rewrite (merge_outer_zsum_right key_eqb key_leb key_eqb_eq);
      auto. }
  rewrite !map_map; repeat split.
  - rewrite <- Lr; apply zsum_map_ext; intros [[k [g|]] c] _; reflexivity.
  - rewrite <- Lp; apply zsum_map_ext; intros [[k [g|]] c] _; reflexivity.
  - rewrite <- Lr, <- Rr, <- zsum_map_sub; apply zsum_map_ext.
    intros [[k [g|]] [c|]] _; reflexivity.
  - rewrite <- Lp, <- Rp, <- zsum_map_sub; apply zsum_map_ext.
    intros [[k [g|]] [c|]] _; reflexivity.
Qed.

(** What the page has computed when it shows the analysis. *)
Lemma render_Analysis f1 fc df i r :
  render f1 fc df i = Ok (Analysis r) ->
  let active := is_comparison_active (comparison_year i) in
  let cur := select_target df (selected_years i) (selected_months i)
               (selected_filter_values i) in
  let cmp := select_comparison df (comparison_year i)
               (comparison_selected_months i) (selected_filter_values i) in
  empty cur = false /\
  total_revenue_target r = col_sum revenue cur /\
  total_cost_target r = col_sum total_cost cur /\
  operating_profit_target r = col_sum operating_profit cur /\
  df_display_raw r = breakdown_table (breakdown_cols (analysis_menu i)) cur cmp
                       active /\
  grand_total active (df_display_raw r) = Ok (total_row_data r) /\
  generate_ai_insights f1 fc cur (if active then Some cmp else None)
    COST_COLUMNS COST_CATEGORIES (col_sum revenue cur)
    (if active && negb (empty cmp) then col_sum revenue cmp else 0)
    (col_sum operating_profit cur)
    (if active && negb (empty cmp) then col_sum operating_profit cmp else 0)
  = Ok (insights r) /\
  df_trend_raw r <> None.
Proof.
  intros H active cur cmp; unfold render in H.
  fold active cur cmp in H.
  destruct (empty cur) eqn:Hc; [discriminate|].
  destruct (generate_ai_insights _ _ _ _ _ _ _ _ _ _) as [ins|] eqn:Hi;
    [|discriminate].
  cbn [bind] in H.
  destruct (grand_total _ _) as [tot|] eqn:Hg; [|discriminate].
  cbn [bind] in H; apply (f_equal report_of) in H; cbn [report_of] in H.
  subst r.
  cbn [total_revenue_target total_cost_target operating_profit_target
       df_display_raw total_row_data insights df_trend_raw].
  do 7 (split; [first [assumption | reflexivity]|]).
  (* the trend base holds the target rows *)
  match goal with
  | |- option_map _ ?x <> None => destruct x eqn:Ht
  end; [cbn [option_map]; discriminate|].
  exfalso; unfold aggregate_profit_trend in Ht.
  destruct (empty (select_trend_base _ _ _ _)) eqn:Eb; [|discriminate].
  unfold empty in Hc, Eb; fold cur in Hc.
  destruct (rows cur) as [|r0 rs] eqn:Er; [discriminate|].
  assert (Hin : In r0 (rows cur)) by (rewrite Er; now left).
  unfold cur in Hin; rewrite select_target_rows in Hin.
  apply filter_In in Hin as [Hr0 Hp].
  rewrite !andb_true_iff, !isin_In in Hp; destruct Hp as [[Hy Hm] Hf].
  destruct (max_str (selected_months i)) as [mx|] eqn:Emx.
  - assert (In r0 (rows (select_trend_base df (selected_years i)
                           (selected_months i) (selected_filter_values i)))).
    { apply (select_trend_base_In _ _ _ _ mx _ Emx); repeat split; auto.
      eapply max_str_upper; eassumption. }
    destruct (rows (select_trend_base _ _ _ _)); [contradiction|discriminate].
  - destruct (selected_months i); [contradiction|discriminate].
Qed.

Lemma select_target_Forall (P : Row -> Prop) df Y M fs :
  Forall P (rows df) -> Forall P (rows (select_target df Y M fs)).
Proof.
  rewrite select_target_rows, !Forall_forall.
  intros H r Hr; apply filter_In in Hr as [Hr _]; auto.
Qed.

(** X5.  On a ledger loaded from a sheet with no text in its amount
    cells, whose whole-number amounts have absolute values adding up to
    at most 2^53 per column (so that the column sums are exact), the
    three header metrics of the page satisfy 영업이익 = 매출액 - 총비용,
    whatever the selection. *)
Theorem header_metrics_identity :
  forall py_int str_to_numeric file df warned f1 fc i r,
    load_data py_int str_to_numeric file = inr (df, warned) ->
    numeric_amounts file = true ->
    exact_amounts df = true ->
    render f1 fc df i = Ok (Analysis r) ->
    operating_profit_target r = total_revenue_target r - total_cost_target r.
Proof.
  intros py_int str_to_numeric file df warned f1 fc i r Hl _ _ Hr.
  destruct (render_Analysis _ _ _ _ _ Hr) as (_ & -> & -> & -> & _).
  apply load_data_rows_identity in Hl.
  apply (select_target_Forall _ df (selected_years i) (selected_months i)
           (selected_filter_values i)) in Hl.
  unfold col_sum; rewrite <- zsum_map_sub; apply zsum_map_ext.
  rewrite Forall_forall in Hl; exact Hl.
Qed.

(** The theorem at January 2024 of the two-year ledger. *)
Lemma header_metrics_identity_witness :
  operating_profit_target report_plain
  = total_revenue_target report_plain - total_cost_target report_plain.
Proof.
  apply (header_metrics_identity digits_int digits_int sheet_two_years
           (ledger sheet_two_years) false show_rate show_won
           (january NOT_SELECTED [] Monthly) report_plain).
  - vm_compute; reflexivity.
  - vm_compute; reflexivity.
  - vm_compute; reflexivity.
  - vm_compute; reflexivity.
Defined.

Lemma Ok_inj {A} (a b : A) : Ok a = Ok b -> a = b.
Proof. intros H; now injection H. Qed.

Lemma grand_total_Compared_inv t tot :
  grand_total true (Compared t) = Ok tot ->
  zsum (map var_profit t) - zsum (map var_profit_diff t) <> 0 /\
  zsum (map var_revenue t) - zsum (map var_revenue_diff t) <> 0.
Proof.
  intros H.
  destruct (Z.eq_dec (zsum (map var_profit t) - zsum (map var_profit_diff t)) 0)
    as [Ep|Ep].
  - rewrite (grand_total_zero_profit_comparison t Ep) in H; discriminate.
  - destruct (Z.eq_dec (zsum (map var_revenue t)
                        - zsum (map var_revenue_diff t)) 0) as [Er|Er]; auto.
    rewrite (grand_total_zero_revenue_comparison t Ep Er) in H; discriminate.
Qed.

(** X6.  On a ledger loaded from a sheet with no text in its amount
    cells, whose whole-number amounts have absolute values adding up to
    at most 2^53 per column (so that group sums and column sums are
    exact): whenever the page shows the analysis, the 매출액 and 영업이익
    of the grand-total row are the header metrics of the page. *)
Theorem grand_total_matches_metrics :
  forall py_int str_to_numeric file warned f1 fc df i r,
    load_data py_int str_to_numeric file = inr (df, warned) ->
    numeric_amounts file = true ->
    exact_amounts df = true ->
    render f1 fc df i = Ok (Analysis r) ->
    dict_get (total_row_data r) "매출액" = Some (Int (total_revenue_target r))
    /\ dict_get (total_row_data r) "영업이익"
       = Some (Int (operating_profit_target r)).
Proof.
  intros py_int str_to_numeric file warned f1 fc df i r _ _ _ H.
  destruct (render_Analysis _ _ _ _ _ H)
    as (_ & -> & _ & -> & Hraw & Hg & _).
  rewrite Hraw in Hg.
  set (cur := select_target df (selected_years i) (selected_months i)
                (selected_filter_values i)) in *.
  set (cmp := select_comparison df (comparison_year i)
                (comparison_selected_months i) (selected_filter_values i)) in *.
  destruct (breakdown_table (breakdown_cols (analysis_menu i)) cur cmp
              (is_comparison_active (comparison_year i))) as [tg|t] eqn:Eb.
  - destruct (is_comparison_active (comparison_year i)).
    + rewrite grand_total_target_only in Hg; discriminate.
    + unfold breakdown_table in Eb; cbn [andb] in Eb; injection Eb as <-.
      cbn in Hg; injection Hg as <-.
      destruct (group_sums_zsum (breakdown_cols (analysis_menu i)) cur)
        as [-> ->].
      split; reflexivity.
  - destruct (is_comparison_active (comparison_year i));
      [|unfold breakdown_table in Eb; discriminate].
    destruct (grand_total_Compared_inv _ _ Hg) as [Np Nr].
    pose proof (grand_total_nonzero t) as G; cbv zeta in G.
    rewrite (G Np Nr) in Hg; apply Ok_inj in Hg; rewrite <- Hg.
    destruct (breakdown_compared_sums _ _ _ _ Eb) as (-> & -> & _).
    split; reflexivity.
Qed.

(** The theorem at the compared page of the three-code ledger. *)
Lemma grand_total_matches_metrics_witness :
  dict_get (total_row_data report_compared) "매출액"
  = Some (Int (total_revenue_target report_compared)) /\
  dict_get (total_row_data report_compared) "영업이익"
  = Some (Int (operating_profit_target report_compared)).
Proof.
  apply (grand_total_matches_metrics digits_int digits_int
           sheet_three_codes false show_rate show_won
           (ledger sheet_three_codes) (january "2023" ["01"] Monthly)
           report_compared).
  - vm_compute; reflexivity.
  - vm_compute; reflexivity.
  - vm_compute; reflexivity.
  - vm_compute; reflexivity.
Defined.

(** X7.  On a ledger loaded from a sheet with no text in its amount
    cells, whose whole-number amounts have absolute values adding up to
    at most 2^53 per column (so that every sum and difference of totals
    is exact): whenever the page shows the analysis under a chosen
    comparison year, the comparison period has rows and totals that are
    not zero, the difference entries of the grand-total row are target
    total minus comparison total, and its two percentages are the
    change rates of the period totals, the rates the insight generator
    thresholds. *)
Theorem grand_total_rates_are_summary_rates :
  forall py_int str_to_numeric file warned f1 fc df i r,
    load_data py_int str_to_numeric file = inr (df, warned) ->
    numeric_amounts file = true ->
    exact_amounts df = true ->
    render f1 fc df i = Ok (Analysis r) ->
    is_comparison_active (comparison_year i) = true ->
    let cmp := select_comparison df (comparison_year i)
                 (comparison_selected_months i) (selected_filter_values i) in
    let rc := col_sum revenue cmp in
    let pc := col_sum operating_profit cmp in
    empty cmp = false /\ rc <> 0 /\ pc <> 0 /\
    dict_get (total_row_data r) "매출액 증감"
    = Some (Int (total_revenue_target r - rc)) /\
    dict_get (total_row_data r) "영업이익 증감"
    = Some (Int (operating_profit_target r - pc)) /\
    dict_get (total_row_data r) "매출액 증감률"
    = Some (Float (rate_or_zero (total_revenue_target r - rc) rc)) /\
    dict_get (total_row_data r) "영업이익 증감률"
    = Some (Float (rate_or_zero (operating_profit_target r - pc) pc)).
Proof.
  intros py_int str_to_numeric file warned f1 fc df i r _ _ _ H Ha cmp rc pc.
  destruct (render_Analysis _ _ _ _ _ H)
    as (_ & -> & _ & -> & Hraw & Hg & _).
  rewrite Hraw, Ha in Hg; fold cmp in Hg.
  set (cur := select_target df (selected_years i) (selected_months i)
                (selected_filter_values i)) in *.
  destruct (empty cmp) eqn:He.
  { unfold breakdown_table in Hg; rewrite He in Hg; cbn [andb negb] in Hg.
    rewrite grand_total_target_only in Hg; discriminate. }
  rewrite (breakdown_table_compared _ _ _ He) in Hg.
  match type of Hg with
  | grand_total true (Compared ?x) = _ => set (t := x) in *
  end.
  destruct (grand_total_Compared_inv _ _ Hg) as [Np Nr].
  pose proof (grand_total_nonzero t) as G; cbv zeta in G.
  rewrite (G Np Nr) in Hg; apply Ok_inj in Hg; rewrite <- Hg.
  destruct (breakdown_compared_sums (breakdown_cols (analysis_menu i)) cur cmp t
              (breakdown_table_compared _ _ _ He)) as (Sr & Sp & Dr & Dp).
  fold rc pc in Dr, Dp.
  rewrite Sp, Dp in Np; rewrite Sr, Dr in Nr; rewrite Sr, Sp, Dr, Dp.
  assert (Hrc : rc <> 0) by lia.
  assert (Hpc : pc <> 0) by lia.
  replace (col_sum revenue cur - (col_sum revenue cur - rc)) with rc by lia.
  replace (col_sum operating_profit cur - (col_sum operating_profit cur - pc))
    with pc by lia.
  unfold rate_or_zero, np_true_divide.
  apply Z.eqb_neq in Hrc, Hpc; rewrite Hrc, Hpc; cbn [negb times100].
  apply Z.eqb_neq in Hrc, Hpc.
  repeat split; auto.
Qed.

(** The theorem at the compared page of the three-code ledger. *)
Lemma grand_total_rates_are_summary_rates_witness :
  dict_get (total_row_data report_compared) "매출액 증감률"
  = Some (Float (rate_or_zero (total_revenue_target report_compared - 11100)
                   11100)).
Proof.
  assert (H : render show_rate show_won (ledger sheet_three_codes)
                (january "2023" ["01"] Monthly) = Ok (Analysis report_compared))
    by (vm_compute; reflexivity).
  assert (Ha : is_comparison_active
                 (comparison_year (january "2023" ["01"] Monthly)) = true)
    by (vm_compute; reflexivity).
  assert (Hl : load_data digits_int digits_int sheet_three_codes
               = inr (ledger sheet_three_codes, false))
    by (vm_compute; reflexivity).
  assert (Hn : numeric_amounts sheet_three_codes = true)
    by (vm_compute; reflexivity).
  assert (He : exact_amounts (ledger sheet_three_codes) = true)
    by (vm_compute; reflexivity).
  exact (proj1 (proj2 (proj2 (proj2 (proj2 (proj2
    (grand_total_rates_are_summary_rates digits_int digits_int
       sheet_three_codes false show_rate show_won
       (ledger sheet_three_codes) (january "2023" ["01"] Monthly)
       report_compared Hl Hn He H Ha))))))).
Defined.

(** ** When the page shows the analysis and when it raises *)



(** ** Keys of the merged breakdown *)

Lemma group_sums_keys cols df k :
  In k (map group_key (group_sums cols df)) <->
  exists r, In r (rows df) /\ k = map (fun d => dim_value d r) cols.
Proof.
  unfold group_sums, groupby; rewrite !map_map; cbn [group_key fst].
  rewrite map_id, sort_values_In, (unique_In key_eqb key_eqb_eq), in_map_iff.
  split; intros (r & H1 & H2); exists r; auto.
Qed.

(** X9.  The merged breakdown has one row for each group key that occurs in
    the target or in the comparison selection, and no key twice: the
    outer join drops no group of either period. *)
Theorem breakdown_merge_keys :
  forall cols current_df df_comparison t,
    breakdown_table cols current_df df_comparison true = Compared t ->
    NoDup (map var_key t) /\
    forall k,
      In k (map var_key t) <->
      (exists r, In r (rows current_df) /\
                 k = map (fun d => dim_value d r) cols) \/
      (exists r, In r (rows df_comparison) /\
                 k = map (fun d => dim_value d r) cols).
Proof.
  intros cols current_df df_comparison t H.
  destruct (empty df_comparison) eqn:He;
    [unfold breakdown_table in H; rewrite He in H; discriminate|].
  rewrite (breakdown_table_compared _ _ _ He) in H; injection H as <-.
  rewrite map_map; cbn [var_key variance_row].
  rewrite (merge_outer_keys key_eqb key_leb key_eqb_eq)
    by apply group_sums_keys_NoDup.
  split; [apply (sorted_unique_NoDup key_eqb key_eqb_eq)|].
  intros k.
  rewrite sort_values_In, (unique_In key_eqb key_eqb_eq), in_app_iff.
  now rewrite !group_sums_keys.
Qed.

(** The theorem at the three-code ledger, January 2024 against 2023. *)
Lemma breakdown_merge_keys_witness :
  NoDup
    (map var_key
       (match breakdown_table [RevenueCode]
                (select_target (ledger sheet_three_codes) ["2024"] ["01"] [])
                (select_comparison (ledger sheet_three_codes) "2023" ["01"] [])
                true with
        | Compared t => t
        | TargetOnly _ => []
        end)).
Proof.
  refine (proj1 (breakdown_merge_keys [RevenueCode]
           (select_target (ledger sheet_three_codes) ["2024"] ["01"] [])
           (select_comparison (ledger sheet_three_codes) "2023" ["01"] [])
           _ _)).
  vm_compute; reflexivity.
Defined.


(** ** More on the selections *)

Lemma select_comparison_rows df cy CM fs :
  rows (select_comparison df cy CM fs)
  = filter (fun r => is_comparison_active cy && String.eqb (year r) cy
                     && isin (month r) CM && passes fs r)
      (rows df).
Proof.
  unfold select_comparison.
  destruct (is_comparison_active cy).
  - destruct CM as [|m CM].
    + simpl; symmetry; apply filter_none; intros r _.
      now rewrite andb_false_r.
    + cbn [rows]; rewrite apply_filters_passes, filter_filter; reflexivity.
  - destruct CM; simpl; symmetry; apply filter_none; auto.
Qed.

Lemma select_comp_trend_base_In df cy CM fs mx r :
  is_comparison_active cy = true ->
  max_str CM = Some mx ->
  In r (rows (select_comp_trend_base df cy CM fs)) <->
  In r (rows df) /\ year r = cy /\ String.leb (month r) mx = true /\
  passes fs r = true.
Proof.
  intros Ha Hmx; unfold select_comp_trend_base; rewrite Ha, Hmx.
  cbn [rows]; rewrite apply_filters_passes, filter_filter, filter_In.
  rewrite !andb_true_iff, String.eqb_eq, isin_In, sort_values_In, filter_In.
  unfold all_months_two_digits; rewrite sort_values_In, unique_In_string.
  split.
  - intros (Hr & (Hy & _ & Hle) & Hp); auto.
  - intros (Hr & Hy & Hle & Hp); repeat split; auto.
    now apply in_map.
Qed.

(** X10.  The comparison period is scoped like the target period: every row
    of the exact comparison selection is a row of the comparison trend
    base, and both hold rows of the comparison year only: a row of the
    exact selection has the comparison year and a chosen month, a row
    of the trend base has the comparison year and a month up to the
    greatest chosen one, and both are rows of the ledger. *)
Theorem comparison_subset_range_to_date :
  forall df cy CM fs r,
    (In r (rows (select_comparison df cy CM fs)) ->
     In r (rows (select_comp_trend_base df cy CM fs)) /\
     year r = cy /\ In (month r) CM /\ In r (rows df)) /\
    (In r (rows (select_comp_trend_base df cy CM fs)) ->
     year r = cy /\ In r (rows df) /\
     exists mx, max_str CM = Some mx /\ String.leb (month r) mx = true).
Proof.
  intros df cy CM fs r; split.
  - intros H.
    rewrite select_comparison_rows in H; apply filter_In in H as [Hr H].
    rewrite !andb_true_iff, String.eqb_eq, isin_In in H.
    destruct H as [[[Ha Hy] Hm] Hp].
    destruct (max_str CM) as [mx|] eqn:Emx.
    + repeat split; auto.
      apply (select_comp_trend_base_In df cy CM fs mx r Ha Emx).
      repeat split; auto; eapply max_str_upper; eassumption.
    + destruct CM; [contradiction | discriminate].
  - intros H.
    destruct (is_comparison_active cy) eqn:Ha;
      [|unfold select_comp_trend_base in H; rewrite Ha in H; contradiction].
    destruct (max_str CM) as [mx|] eqn:Emx;
      [|unfold select_comp_trend_base in H; rewrite Ha, Emx in H;
        contradiction].
    apply (select_comp_trend_base_In df cy CM fs mx r Ha Emx) in H.
    destruct H as (Hr & Hy & Hle & _).
    repeat split; auto; exists mx; auto.
Qed.

(** The theorem at the two-year ledger, January 2023. *)
Lemma comparison_subset_range_to_date_witness :
  Forall (fun r => year r = "2023")
    (rows (select_comparison (ledger sheet_two_years) "2023" ["01"] [])) /\
  Forall (fun r => year r = "2023")
    (rows (select_comp_trend_base (ledger sheet_two_years) "2023" ["01"]
             [])).
Proof.
  split; apply Forall_forall; intros r H.
  - exact (proj1 (proj2 (proj1 (comparison_subset_range_to_date
                                  (ledger sheet_two_years) "2023" ["01"] []
                                  r) H))).
  - exact (proj1 (proj2 (comparison_subset_range_to_date
                           (ledger sheet_two_years) "2023" ["01"] [] r) H)).
Defined.

Lemma passes_Permutation fs fs' r :
  Permutation fs fs' -> passes fs r = passes fs' r.
Proof.
  unfold passes; induction 1 as [|x l l' _ IH|x y l|l l' l'' _ IH1 _ IH2];
    simpl; try congruence.
  rewrite !andb_assoc; f_equal; apply andb_comm.
Qed.

(** X11.  The detail filters can be applied in any order: two filter dicts
    with the same entries select the same target rows, trend base and
    comparison rows. *)
Theorem filters_order_irrelevant :
  forall df Y M cy CM fs fs',
    Permutation fs fs' ->
    select_target df Y M fs = select_target df Y M fs' /\
    rows (select_trend_base df Y M fs) = rows (select_trend_base df Y M fs') /\
    rows (select_comparison df cy CM fs)
    = rows (select_comparison df cy CM fs').
Proof.
  intros df Y M cy CM fs fs' HP.
  assert (E : forall rs, apply_filters fs rs = apply_filters fs' rs).
  { intros rs; rewrite !apply_filters_passes; apply filter_ext.
    intros r; now apply passes_Permutation. }
  repeat split.
  - unfold select_target; destruct Y, M; try reflexivity; now rewrite E.
  - unfold select_trend_base; destruct Y, (max_str M); try reflexivity.
    cbn [rows]; apply E.
  - unfold select_comparison.
    destruct (is_comparison_active cy), CM; try reflexivity.
    cbn [rows]; apply E.
Qed.

(** The theorem for a brand and a campus filter in the two orders. *)
Lemma filters_order_irrelevant_witness :
  select_target (ledger sheet_three_codes) ["2024"] ["01"]
    [(Brand, ["B1"]); (Campus, ["C1"])]
  = select_target (ledger sheet_three_codes) ["2024"] ["01"]
      [(Campus, ["C1"]); (Brand, ["B1"])].
Proof.
  exact (proj1 (filters_order_irrelevant (ledger sheet_three_codes)
                  ["2024"] ["01"] "2023" ["01"]
                  [(Brand, ["B1"]); (Campus, ["C1"])]
                  [(Campus, ["C1"]); (Brand, ["B1"])]
                  (perm_swap _ _ _))).
Defined.

(** X12.  Choosing every value of a dimension that occurs in the ledger
    selects what choosing none selects. *)
Theorem filter_all_values_is_no_filter :
  forall df Y M d vals fs,
    forallb (fun r => isin (dim_value d r) vals) (rows df) = true ->
    rows (select_target df Y M ((d, vals) :: fs))
    = rows (select_target df Y M ((d, []) :: fs)) /\
    rows (select_target df Y M ((d, vals) :: fs))
    = rows (select_target df Y M fs).
Proof.
  intros df Y M d vals fs H.
  rewrite forallb_forall in H.
  rewrite !select_target_rows; split; apply filter_ext_in; intros r Hr;
    unfold passes; cbn [forallb fst snd]; destruct vals; try reflexivity;
    now rewrite (H r Hr).
Qed.

(** The theorem at the three-code ledger, all three codes chosen. *)
Lemma filter_all_values_is_no_filter_witness :
  rows (select_target (ledger sheet_three_codes) ["2024"] ["01"]
          [(RevenueCode, ["R1"; "R2"; "R3"])])
  = rows (select_target (ledger sheet_three_codes) ["2024"] ["01"] []).
Proof.
  refine (proj2 (filter_all_values_is_no_filter (ledger sheet_three_codes)
                   ["2024"] ["01"] RevenueCode ["R1"; "R2"; "R3"] [] _)).
  vm_compute; reflexivity.
Defined.

(** X13.  Choosing more years, more months or more values of a dimension
    never removes a row from the target selection, and the selection
    never holds a row that is not in the ledger. *)
Theorem select_target_monotone :
  forall df Y Y' M M' d vals vals' fs r,
    incl Y Y' -> incl M M' -> incl vals vals' -> vals <> [] ->
    In r (rows (select_target df Y M ((d, vals) :: fs))) ->
    In r (rows (select_target df Y' M' ((d, vals') :: fs))) /\
    In r (rows df).
Proof.
  intros df Y Y' M M' d vals vals' fs r HY HM HV Hne H.
  rewrite select_target_rows in *; apply filter_In in H as [Hr H].
  split; [|exact Hr]; apply filter_In; split; [exact Hr|].
  unfold passes in *; cbn [forallb fst snd] in *.
  rewrite !andb_true_iff in *; destruct H as [[Hy Hm] [Hd Hf]].
  rewrite isin_In in Hy, Hm.
  destruct vals as [|v vals]; [now elim Hne|].
  rewrite isin_In in Hd.
  repeat split; try (apply isin_In; auto); auto.
  destruct vals' as [|v' vals']; [reflexivity|].
  apply isin_In; auto.
Qed.

(** The theorem at the three-code ledger: code R1 alone, then R1 and R2
    and one more month. *)
Lemma select_target_monotone_witness :
  Forall
    (fun r =>
       In r (rows (select_target (ledger sheet_three_codes) ["2024"]
                     ["01"; "02"] [(RevenueCode, ["R1"; "R2"])])))
    (rows (select_target (ledger sheet_three_codes) ["2024"] ["01"]
             [(RevenueCode, ["R1"])])).
Proof.
  apply Forall_forall; intros r H.
  refine (proj1 (select_target_monotone (ledger sheet_three_codes)
                   ["2024"] ["2024"] ["01"] ["01"; "02"] RevenueCode
                   ["R1"] ["R1"; "R2"] [] r _ _ _ _ H)).
  - intros x Hx; exact Hx.
  - intros x Hx; simpl in Hx |- *; tauto.
  - intros x Hx; simpl in Hx |- *; tauto.
  - discriminate.
Defined.

(** ** The category and item rules of the insight generator *)

Lemma insert_sorted_desc {A} (f : A -> Z) x l :
  Sorted (fun a b => f b <= f a) l ->
  Sorted (fun a b => f b <= f a)
    (insert_sorted (fun a b => f b <=? f a) x l).
Proof.
  induction l as [|y l IH]; simpl; intros H.
  - repeat constructor.
  - destruct (Z.leb_spec (f y) (f x)) as [L|L].
    + constructor; [exact H | constructor; exact L].
    + apply Sorted_inv in H as [Hs Hh].
      constructor; [auto|].
      destruct l as [|z l]; simpl.
      * constructor; lia.
      * destruct (f z <=? f x); constructor; [lia|].
        now inversion Hh.
Qed.

Lemma sort_values_desc {A} (f : A -> Z) l :
  StronglySorted (fun a b => f b <= f a)
    (sort_values (fun a b => f b <=? f a) l).
Proof.
  apply Sorted_StronglySorted.
  - intros a b c; lia.
  - induction l as [|x l IH]; simpl; [constructor|].
    now apply insert_sorted_desc.
Qed.

Lemma StronglySorted_hd {A} (R : A -> A -> Prop) l d :
  (forall x, R x x) -> StronglySorted R l ->
  forall x, In x l -> R (hd d l) x.
Proof.
  intros Hrefl H x Hx; destruct H as [|a l Hs Ha]; [contradiction|].
  simpl; destruct Hx as [<-|Hx]; [apply Hrefl|].
  rewrite Forall_forall in Ha; auto.
Qed.

Lemma StronglySorted_last {A} (R : A -> A -> Prop) l d :
  (forall x, R x x) -> StronglySorted R l ->
  forall x, In x l -> R x (last l d).
Proof.
  intros Hrefl; induction 1 as [|a l Hs IH Ha]; intros x Hx; [contradiction|].
  destruct l as [|b l]; [destruct Hx as [<-|[]]; apply Hrefl|].
  change (R x (last (b :: l) d)).
  destruct Hx as [<-|Hx]; [|auto].
  rewrite Forall_forall in Ha; apply Ha.
  clear; revert b; induction l as [|c l IH]; intros b; [now left|].
  right; apply IH.
Qed.

Lemma hd_In {A} (d : A) l : l <> [] -> In (hd d l) l.
Proof. destruct l; [intros H; now elim H | intros _; now left]. Qed.

Lemma last_In {A} (d : A) l : l <> [] -> In (last l d) l.
Proof.
  induction l as [|a l IH]; intros H; [now elim H|].
  destruct l as [|b l]; [now left|].
  right; apply IH; discriminate.
Qed.

(** X14.  The category rules report the category whose cost rose most, only
    when its cost rose, and then the category whose cost fell most,
    only when its cost fell: at most one negative and one positive
    insight, in this order. *)
Theorem category_insights_extremes :
  forall f1 fc changes l,
    category_insights f1 fc changes = Ok l ->
    exists top bottom,
      In top changes /\ In bottom changes /\
      (forall ch, In ch changes ->
                  cat_diff bottom <= cat_diff ch <= cat_diff top) /\
      l = (if 0 <? cat_diff top then
             [mkInsight negative
                (cat ["🔺 비용 증가 주요 항목: "; category top])
                (cat [category top; " 비용이 "; fc (cat_diff top);
                      " 증가했습니다 ("; f1 (cat_rate top);
                      "% ↑). 해당 카테고리의 세부 항목을 점검하세요."])]
           else [])
          ++
          (if cat_diff bottom <? 0 then
             [mkInsight positive
                (cat ["🔻 비용 절감 항목: "; category bottom])
                (cat [category bottom; " 비용이 ";
                      fc (Z.abs (cat_diff bottom)); " 감소했습니다 (";
                      f1 (fabs (cat_rate bottom));
                      "% ↓). 효율화가 잘 이루어지고 있습니다."])]
           else []).
Proof.
  intros f1 fc changes l H.
  unfold category_insights in H.
  destruct changes as [|c0 cs] eqn:E; [discriminate|].
  rewrite <- E in *.
  assert (Hne : changes <> []) by (rewrite E; discriminate).
  set (sorted := sort_values (fun a b => cat_diff b <=? cat_diff a) changes)
    in *.
  assert (Hs : sorted <> []).
  { intros Es; apply (f_equal (@List.length _)) in Es.
    unfold sorted in Es; rewrite sort_values_length, E in Es; discriminate. }
  pose proof (sort_values_desc cat_diff changes) as SS; fold sorted in SS.
  exists (hd c0 sorted), (last sorted c0).
  split; [apply (proj1 (sort_values_In
                          (fun a b => cat_diff b <=? cat_diff a) _ changes));
          apply hd_In, Hs|].
  split; [apply (proj1 (sort_values_In
                          (fun a b => cat_diff b <=? cat_diff a) _ changes));
          apply last_In, Hs|].
  split.
  - intros ch Hch; apply (sort_values_In (fun a b => cat_diff b <=? cat_diff a))
                     in Hch; fold sorted in Hch.
    split.
    + apply (StronglySorted_last _ sorted c0 (fun x => Z.le_refl _) SS ch Hch).
    + apply (StronglySorted_hd _ sorted c0 (fun x => Z.le_refl _) SS ch Hch).
  - injection H as <-; reflexivity.
Qed.

(** The theorem for two categories, one rising by 100,000 and one
    falling by 50. *)
Lemma category_insights_extremes_witness :
  exists top bottom,
    In top [mkChange "인건비" 500000 400000 100000 (of_Z 25);
            mkChange "마케팅" 50 100 (-50) (of_Z (-50))] /\
    In bottom [mkChange "인건비" 500000 400000 100000 (of_Z 25);
               mkChange "마케팅" 50 100 (-50) (of_Z (-50))] /\
    (forall ch,
        In ch [mkChange "인건비" 500000 400000 100000 (of_Z 25);
               mkChange "마케팅" 50 100 (-50) (of_Z (-50))] ->
        cat_diff bottom <= cat_diff ch <= cat_diff top) /\
    match category_insights show_rate show_won
            [mkChange "인건비" 500000 400000 100000 (of_Z 25);
             mkChange "마케팅" 50 100 (-50) (of_Z (-50))] with
    | Ok l => l
    | Raise _ => []
    end
    = (if 0 <? cat_diff top then
         [mkInsight negative
            (cat ["🔺 비용 증가 주요 항목: "; category top])
            (cat [category top; " 비용이 "; show_won (cat_diff top);
                  " 증가했습니다 ("; show_rate (cat_rate top);
                  "% ↑). 해당 카테고리의 세부 항목을 점검하세요."])]
       else [])
      ++
      (if cat_diff bottom <? 0 then
         [mkInsight positive
            (cat ["🔻 비용 절감 항목: "; category bottom])
            (cat [category bottom; " 비용이 ";
                  show_won (Z.abs (cat_diff bottom)); " 감소했습니다 (";
                  show_rate (fabs (cat_rate bottom));
                  "% ↓). 효율화가 잘 이루어지고 있습니다."])]
       else []).
Proof.
  exact (category_insights_extremes show_rate show_won
           [mkChange "인건비" 500000 400000 100000 (of_Z 25);
            mkChange "마케팅" 50 100 (-50) (of_Z (-50))] _ eq_refl).
Defined.

Lemma flat_map_length_le {A B} (g : A -> list B) l :
  (forall x, (List.length (g x) <= 1)%nat) ->
  (List.length (flat_map g l) <= List.length l)%nat.
Proof.
  intros H; induction l as [|x l IH]; simpl; [lia|].
  rewrite length_app; specialize (H x); lia.
Qed.

Lemma firstn_In {A} n : forall (l : list A) x, In x (firstn n l) -> In x l.
Proof.
  induction n as [|n IH]; intros [|a l] x; simpl; try contradiction.
  intros [<-|H]; [now left | right; auto].
Qed.

Lemma item_insights_length f1 analysis l :
  item_insights f1 analysis = Ok l -> (List.length l <= 3)%nat.
Proof.
  intros H; unfold item_insights in H.
  destruct analysis as [|r0 rs] eqn:E; [discriminate|]; rewrite <- E in *.
  match type of H with
  | context [flat_map _ ?x] => set (top := x) in H
  end.
  injection H as <-.
  etransitivity; [apply flat_map_length_le|].
  - intros x; destruct (gt (diff_rate x) 20); simpl; lia.
  - unfold top; rewrite length_firstn; lia.
Qed.

Lemma category_insights_length f1 fc changes l :
  category_insights f1 fc changes = Ok l -> (List.length l <= 2)%nat.
Proof.
  intros H; unfold category_insights in H.
  destruct changes as [|c cs] eqn:E; [discriminate|]; rewrite <- E in *.
  injection H as <-.
  destruct (0 <? _), (_ <? 0); simpl; lia.
Qed.

(** [fle] is a total preorder on the floats that are not NaN. *)
Lemma fle_total x y :
  is_nan x = false -> is_nan y = false -> fle x y = false -> fle y x = true.
Proof.
  destruct x as [p| | |], y as [q| | |]; simpl; try discriminate;
    try reflexivity.
  intros _ _ H.
  apply Qle_bool_iff.
  destruct (Qlt_le_dec q p) as [L|L]; [now apply Qlt_le_weak|].
  apply Qle_bool_iff in L; congruence.
Qed.

Lemma fle_trans x y z : fle x y = true -> fle y z = true -> fle x z = true.
Proof.
  destruct x as [p| | |], y as [q| | |], z as [r| | |]; simpl;
    try discriminate; try reflexivity.
  rewrite !Qle_bool_iff; apply Qle_trans.
Qed.

(** Insertion sort by a test that is total on the elements at hand. *)
Lemma insert_sorted_total {A} (le : A -> A -> bool) (P : A -> Prop) :
  (forall a b, P a -> P b -> le a b = false -> le b a = true) ->
  forall x l,
    P x -> Forall P l ->
    Sorted (fun a b => le a b = true) l ->
    Sorted (fun a b => le a b = true) (insert_sorted le x l).
Proof.
  intros Htot x l Px; induction l as [|y l IH]; simpl; intros Hl H.
  - repeat constructor.
  - apply Forall_cons_iff in Hl as [Py Hl].
    destruct (le x y) eqn:L.
    + constructor; [exact H | constructor; exact L].
    + apply Sorted_inv in H as [Hs Hh].
      constructor; [auto|].
      destruct l as [|z l]; simpl.
      * constructor; now apply Htot.
      * destruct (le x z); constructor; [now apply Htot|].
        now inversion Hh.
Qed.

Lemma insert_sorted_Forall {A} (le : A -> A -> bool) (P : A -> Prop) x l :
  P x -> Forall P l -> Forall P (insert_sorted le x l).
Proof.
  intros Px Hl; apply Forall_forall; intros y Hy.
  apply insert_sorted_In in Hy as [->|Hy]; [exact Px|].
  exact (proj1 (Forall_forall _ _) Hl y Hy).
Qed.

Lemma sort_values_total {A} (le : A -> A -> bool) (P : A -> Prop) l :
  (forall a b, P a -> P b -> le a b = false -> le b a = true) ->
  Forall P l ->
  Sorted (fun a b => le a b = true) (sort_values le l) /\
  Forall P (sort_values le l).
Proof.
  intros Htot; induction l as [|x l IH]; simpl; intros Hl.
  - split; constructor.
  - apply Forall_cons_iff in Hl as [Px Hl].
    destruct (IH Hl) as [Hs Hp]; split.
    + now apply (insert_sorted_total le P Htot).
    + now apply insert_sorted_Forall.
Qed.

Lemma StronglySorted_app_l {A} (R : A -> A -> Prop) l1 l2 :
  StronglySorted R (l1 ++ l2) -> StronglySorted R l1.
Proof.
  induction l1 as [|x l1 IH]; simpl; intros H; [constructor|].
  apply StronglySorted_inv in H as [Hs Hx].
  constructor; [auto|].
  apply Forall_app in Hx; tauto.
Qed.

Lemma StronglySorted_filter {A} (R : A -> A -> Prop) (p : A -> bool) l :
  StronglySorted R l -> StronglySorted R (filter p l).
Proof.
  induction 1 as [|x l Hs IH Hx]; simpl; [constructor|].
  destruct (p x); [|exact IH].
  constructor; [exact IH|].
  apply Forall_forall; intros y Hy; apply filter_In in Hy as [Hy _].
  exact (proj1 (Forall_forall _ _) Hx y Hy).
Qed.

(** X15.  For a cost table without NaN rates (the table of
    [analyze_cost_breakdown] has none): among the lines with a
    comparison amount above 1,000,000 the item rule takes the three with
    the greatest rates, by descending rate, every line left out having a
    rate no greater than each of the three, and it reports those of the
    three whose rate is above 20, in that order, each as a negative
    insight.  So it reports at most three items. *)
Theorem item_insights_bounds :
  forall f1 analysis l,
    Forall (fun row => is_nan (diff_rate row) = false) analysis ->
    item_insights f1 analysis = Ok l ->
    (List.length l <= 3)%nat /\
    exists top rest items,
      Permutation (filter (fun row => 1000000 <? comp_val row) analysis)
        (top ++ rest) /\
      (List.length top <= 3)%nat /\
      (rest <> [] -> List.length top = 3%nat) /\
      StronglySorted (fun a b => fle (diff_rate b) (diff_rate a) = true)
        (top ++ rest) /\
      items = filter (fun row => gt (diff_rate row) 20) top /\
      StronglySorted (fun a b => fle (diff_rate b) (diff_rate a) = true)
        items /\
      l = map (fun row =>
                 mkInsight negative (cat ["⚡ "; cost_item row; " 급증"])
                   (cat [cost_item row; "이(가) "; f1 (diff_rate row);
                         "% 급증했습니다. 원인 파악이 필요합니다."])) items /\
      Forall (fun row => In row analysis /\ 1000000 < comp_val row /\
                         gt (diff_rate row) 20 = true) items.
Proof.
  intros f1 analysis l Hnan H.
  split; [exact (item_insights_length _ _ _ H)|].
  unfold item_insights in H.
  destruct analysis as [|r0 rs] eqn:E; [discriminate|]; rewrite <- E in *.
  set (sig := filter (fun row => 1000000 <? comp_val row) analysis) in *.
  set (le := fun a b : CostRow => fle (diff_rate b) (diff_rate a)) in *.
  set (S := sort_values le sig) in *.
  assert (Hsig : Forall (fun row => is_nan (diff_rate row) = false) sig).
  { apply Forall_forall; intros row Hrow.
    apply filter_In in Hrow as [Hrow _].
    exact (proj1 (Forall_forall _ _) Hnan row Hrow). }
  assert (HS : StronglySorted (fun a b => le a b = true) S).
  { apply Sorted_StronglySorted.
    - intros a b c Hab Hbc; unfold le in *; eapply fle_trans; eassumption.
    - apply (sort_values_total le
               (fun row => is_nan (diff_rate row) = false)); [|exact Hsig].
      intros a b Ha Hb; unfold le; now apply fle_total. }
  exists (firstn 3 S), (skipn 3 S), (filter (fun row => gt (diff_rate row) 20)
                                     (firstn 3 S)).
  rewrite firstn_skipn.
  split; [symmetry; apply sort_values_Permutation|].
  split; [rewrite length_firstn; lia|].
  split.
  { intros Hrest; rewrite length_firstn.
    destruct (Nat.le_gt_cases (List.length S) 3) as [L|L]; [|lia].
    elim Hrest; now apply skipn_all2. }
  split; [exact HS|].
  split; [reflexivity|].
  split.
  { apply StronglySorted_filter.
    apply (StronglySorted_app_l _ _ (skipn 3 S)); now rewrite firstn_skipn. }
  split.
  - apply Ok_inj in H; rewrite <- H.
    generalize (firstn 3 S) as top; intros top.
    induction top as [|x t IH]; [reflexivity|].
    cbn [flat_map filter]; destruct (gt (diff_rate x) 20); simpl;
      now rewrite IH.
  - apply Forall_forall; intros row Hrow.
    apply filter_In in Hrow as [Hrow Hg].
    apply firstn_In in Hrow.
    unfold S in Hrow; rewrite sort_values_In in Hrow.
    apply filter_In in Hrow as [Hin Hc].
    repeat split; auto; now apply Z.ltb_lt.
Qed.

(** The theorem for three cost items: one doubled from 2,000,000, one
    rose by a tenth from 3,000,000, one is below the amount. *)
Lemma item_insights_bounds_witness :
  exists top rest items,
    Permutation
      (filter (fun row => 1000000 <? comp_val row)
         [mkCost "급여A" 3300000 3000000 300000 (of_Z 10);
          mkCost "임차A" 4000000 2000000 2000000 (of_Z 100);
          mkCost "소모품A" 300 100 200 (of_Z 200)])
      (top ++ rest) /\
    (List.length top <= 3)%nat /\
    (rest <> [] -> List.length top = 3%nat) /\
    StronglySorted (fun a b => fle (diff_rate b) (diff_rate a) = true)
      (top ++ rest) /\
    items = filter (fun row => gt (diff_rate row) 20) top /\
    StronglySorted (fun a b => fle (diff_rate b) (diff_rate a) = true)
      items /\
    match item_insights show_rate
            [mkCost "급여A" 3300000 3000000 300000 (of_Z 10);
             mkCost "임차A" 4000000 2000000 2000000 (of_Z 100);
             mkCost "소모품A" 300 100 200 (of_Z 200)] with
    | Ok l => l
    | Raise _ => []
    end
    = map (fun row =>
             mkInsight negative (cat ["⚡ "; cost_item row; " 급증"])
               (cat [cost_item row; "이(가) "; show_rate (diff_rate row);
                     "% 급증했습니다. 원인 파악이 필요합니다."])) items /\
    Forall (fun row =>
              In row [mkCost "급여A" 3300000 3000000 300000 (of_Z 10);
                      mkCost "임차A" 4000000 2000000 2000000 (of_Z 100);
                      mkCost "소모품A" 300 100 200 (of_Z 200)] /\
              1000000 < comp_val row /\
              gt (diff_rate row) 20 = true) items.
Proof.
  refine (proj2 (item_insights_bounds show_rate
                   [mkCost "급여A" 3300000 3000000 300000 (of_Z 10);
                    mkCost "임차A" 4000000 2000000 2000000 (of_Z 100);
                    mkCost "소모품A" 300 100 200 (of_Z 200)]
                   _ _ eq_refl)).
  repeat constructor.
Defined.

(** X16.  Whenever the insight generator returns, its list has at least one
    and at most seven insights. *)
Theorem generate_ai_insights_length :
  forall f1 fc df_target df_comparison cost_columns cost_categories
         rt rc pt pc l,
    generate_ai_insights f1 fc df_target df_comparison cost_columns
      cost_categories rt rc pt pc = Ok l ->
    (1 <= List.length l <= 7)%nat.
Proof.
  intros f1 fc df_target df_comparison cost_columns cost_categories
    rt rc pt pc l H.
  assert (Hcur : forall l',
             current_period_insights f1 fc df_target rt pt = l' ->
             (1 <= List.length l' <= 7)%nat).
  { intros l' <-; unfold current_period_insights.
    destruct (0 <? _); simpl; lia. }
  unfold generate_ai_insights in H.
  destruct df_comparison as [dfc|];
    [|injection H as <-; now apply Hcur].
  destruct (empty dfc); cbn [negb] in H;
    [injection H as <-; now apply Hcur|].
  destruct (category_insights _ _ _) as [bc|] eqn:Ec; [|discriminate].
  cbn [bind] in H.
  destruct (item_insights _ _) as [bi|] eqn:Ei; [|discriminate].
  cbn [bind] in H; injection H as <-.
  pose proof (category_insights_length _ _ _ _ Ec) as Hc.
  pose proof (item_insights_length _ _ _ Ei) as Hi.
  cbn [app List.length]; rewrite !length_app.
  assert (Hp : (List.length (profit_insight f1 (rate_or_zero (pt - pc) pc))
                <= 1)%nat).
  { unfold profit_insight; destruct (gt _ 10); [simpl; lia|].
    destruct (lt _ (-10)); simpl; lia. }
  lia.
Qed.

(** The theorem at the two-month ledger with no comparison frame. *)
Lemma generate_ai_insights_length_witness :
  (1 <= List.length
          (match generate_ai_insights show_rate show_won
                   (ledger sheet_two_months) None COST_COLUMNS
                   COST_CATEGORIES 2200000 0 900000 0 with
           | Ok l => l
           | Raise _ => []
           end) <= 7)%nat.
Proof.
  refine (generate_ai_insights_length show_rate show_won
            (ledger sheet_two_months) None COST_COLUMNS COST_CATEGORIES
            2200000 0 900000 0 _ _).
  vm_compute; reflexivity.
Defined.

(* ================================================================= *)
(** ** The cost table and the category roll-up *)

Lemma zsum_map_filter {A} (p : A -> bool) (f : A -> Z) l :
  zsum (map f (filter p l)) = zsum (map (fun x => if p x then f x else 0) l).
Proof.
  induction l as [|x l IH]; simpl; [reflexivity|].
  destruct (p x); simpl; lia.
Qed.


Lemma empty_rows df : empty df = true -> rows df = [].
Proof. unfold empty; destruct (rows df); [reflexivity | discriminate]. Qed.

Lemma cost_total_empty df c : empty df = true -> cost_total df c = 0.
Proof.
  intros E; unfold cost_total, col_sum; rewrite (empty_rows _ E).
  now destruct (isin c (columns df)).
Qed.

(** The three value columns of the cost table, item by item. *)
Lemma analyze_cost_breakdown_columns cur comp cols :
  let table := analyze_cost_breakdown cur comp cols in
  map cost_item table = cols /\
  map target_val table = map (cost_total cur) cols /\
  map comp_val table
  = map (fun c => match comp with
                  | Some dfc => cost_total dfc c
                  | None => 0
                  end) cols /\
  map diff table = map (fun row => target_val row - comp_val row) table.
Proof.
  unfold analyze_cost_breakdown; cbv zeta; rewrite !map_map.
  cbn [cost_item target_val comp_val diff].
  split; [apply map_id|]; split; [|split; [|reflexivity]].
  - apply map_ext_in; intros c Hc.
    now rewrite (dict_get_map_key (cost_total cur)).
  - apply map_ext_in; intros c Hc.
    destruct comp as [dfc|].
    + destruct (empty dfc) eqn:E; cbn [negb].
      * rewrite (dict_get_map_key (fun _ => 0)) by exact Hc.
        now rewrite cost_total_empty.
      * now rewrite (dict_get_map_key (cost_total dfc)).
    + now rewrite (dict_get_map_key (fun _ => 0)).
Qed.










Lemma cost_columns_NoDup : NoDup COST_COLUMNS.
Proof.
  replace COST_COLUMNS with (unique String.eqb COST_COLUMNS)
    by (vm_compute; reflexivity).
  apply unique_NoDup, String.eqb_eq.
Qed.

(** Every cost column belongs to exactly one category. *)
Lemma categories_partition_costs :
  Permutation (flat_map snd COST_CATEGORIES) COST_COLUMNS.
Proof.
  transitivity (sort_values String.leb COST_COLUMNS);
    [|apply sort_values_Permutation].
  replace (sort_values String.leb COST_COLUMNS)
    with (sort_values String.leb (flat_map snd COST_CATEGORIES))
    by (vm_compute; reflexivity).
  symmetry; apply sort_values_Permutation.
Qed.

Lemma category_sum df :
  zsum (map (fun entry : string * list string =>
               zsum (map (fun col => col_sum (cost_of col) df)
                       (filter (fun col => isin col (columns df))
                          (snd entry))))
          COST_CATEGORIES)
  = zsum (map (cost_total df) COST_COLUMNS).
Proof.
  rewrite (zsum_map_ext _
             (fun entry => zsum (map (cost_total df) (snd entry)))).
  - rewrite <- (zsum_flat_map (cost_total df) snd COST_CATEGORIES).
    apply Permutation_zsum, Permutation_map, categories_partition_costs.
  - intros entry _; rewrite zsum_map_filter; reflexivity.
Qed.

(** X18.  The nine cost categories partition the 48 cost columns: every
    cost column is listed once, in exactly one category.  So for two
    frames whose cost cells are whole numbers with absolute values
    adding up to at most 2^53 (where the sums are exact), the insight
    generator has one entry per category, and the target sums, the
    comparison sums and the differences of the categories add up to the
    same totals as the item lines of the cost analysis over all cost
    columns. *)
Theorem category_rollup_complete cur comp :
  exact_column cost_magnitude (rows cur) = true ->
  exact_column cost_magnitude (rows comp) = true ->
  let changes := category_changes COST_CATEGORIES cur comp in
  let table := analyze_cost_breakdown cur (Some comp) COST_COLUMNS in
  List.length COST_CATEGORIES = 9%nat /\
  List.length COST_COLUMNS = 48%nat /\
  NoDup COST_COLUMNS /\
  Permutation (flat_map snd COST_CATEGORIES) COST_COLUMNS /\
  map category changes = map fst COST_CATEGORIES /\
  zsum (map cat_target changes) = zsum (map target_val table) /\
  zsum (map cat_comp changes) = zsum (map comp_val table) /\
  zsum (map cat_diff changes) = zsum (map diff table).
Proof.
  intros _ _ changes table.
  destruct (analyze_cost_breakdown_columns cur (Some comp) COST_COLUMNS)
    as (_ & Ht & Hm & Hd).
  fold table in Ht, Hm, Hd.
  assert (Et : zsum (map cat_target changes) = zsum (map target_val table)).
  { rewrite Ht; unfold changes, category_changes; rewrite map_map.
    cbn [cat_target]; apply category_sum. }
  assert (Em : zsum (map cat_comp changes) = zsum (map comp_val table)).
  { rewrite Hm; unfold changes, category_changes; rewrite map_map.
    cbn [cat_comp]; apply category_sum. }
  split; [reflexivity | split; [reflexivity|]].
  split; [apply cost_columns_NoDup|].
  split; [apply categories_partition_costs|].
  split; [unfold changes, category_changes; rewrite map_map; reflexivity|].
  split; [exact Et | split; [exact Em|]].
  rewrite Hd, zsum_map_sub, <- Et, <- Em, <- zsum_map_sub.
  unfold changes, category_changes; rewrite !map_map.
  cbn [cat_target cat_comp cat_diff]; reflexivity.
Qed.

(** The theorem at January 2024 against January 2023 of the three-code
    ledger. *)
Lemma category_rollup_complete_witness :
  zsum (map cat_target
          (category_changes COST_CATEGORIES
             (select_target (ledger sheet_three_codes) ["2024"] ["01"] [])
             (select_comparison (ledger sheet_three_codes) "2023" ["01"]
                [])))
  = zsum (map target_val
            (analyze_cost_breakdown
               (select_target (ledger sheet_three_codes) ["2024"] ["01"] [])
               (Some (select_comparison (ledger sheet_three_codes) "2023"
                        ["01"] []))
               COST_COLUMNS)).
Proof.
  refine (proj1 (proj2 (proj2 (proj2 (proj2 (proj2
    (category_rollup_complete
       (select_target (ledger sheet_three_codes) ["2024"] ["01"] [])
       (select_comparison (ledger sheet_three_codes) "2023" ["01"] [])
       _ _))))))).
  - vm_compute; reflexivity.
  - vm_compute; reflexivity.
Defined.

(* ================================================================= *)
(** ** Display: the rate cells and the month box *)

Lemma append_percent_not_na s : String.append s " %" <> "N/A".
Proof.
  destruct s as [|a [|b [|c [|d s]]]]; cbn [String.append]; intros H;
    discriminate H.
Qed.

(** X19.  The cell of a percentage column never reads 'N/A': the test
    [x == 0] is made only on NaN and +inf.  NaN and +inf read 'Inf %',
    every other value, zero and -inf included, is formatted as a
    number. *)
Theorem format_rate_never_na format_c1f x :
  format_rate format_c1f x <> "N/A" /\
  format_rate format_c1f x
  = match x with
    | PosInf | NaN => "Inf %"
    | Finite _ | NegInf => String.append (format_c1f x) " %"
    end.
Proof.
  split.
  - unfold format_rate; destruct x; cbn [is_nan is_inf is_zero negb andb];
      try apply append_percent_not_na; discriminate.
  - destruct x; reflexivity.
Qed.

Lemma dict_get_set {V} (d : dict V) k v k' :
  dict_get (dict_set d k v) k'
  = if String.eqb k' k then Some v else dict_get d k'.
Proof.
  induction d as [|[k0 v0] d IH]; simpl; [reflexivity|].
  destruct (String.eqb_spec k k0) as [->|N]; simpl.
  - now destruct (String.eqb k' k0).
  - rewrite IH.
    destruct (String.eqb_spec k' k0) as [->|N'];
      destruct (String.eqb_spec k0 k) as [E|N'']; try reflexivity.
    now elim N.
Qed.

(** Folding the months into the map keeps every entry a month that
    strips to its key, and gives every stripped month a key. *)
Lemma month_map_fold (all : list string) l : forall d,
  incl l all ->
  (forall k m, dict_get d k = Some m -> lstrip0 m = k /\ In m all) ->
  forall k,
    In k (map lstrip0 l) \/ dict_get d k <> None ->
    exists m,
      dict_get (fold_left (fun d m => dict_set d (lstrip0 m) m) l d) k
      = Some m /\ lstrip0 m = k /\ In m all.
Proof.
  induction l as [|a l IH]; intros d Hin Hd k Hk; cbn [fold_left].
  - destruct Hk as [[]|Hk].
    destruct (dict_get d k) as [m|] eqn:E; [|now elim Hk].
    exists m; split; [reflexivity | now apply Hd].
  - apply IH.
    + intros x Hx; apply Hin; now right.
    + intros k0 m0; rewrite dict_get_set.
      destruct (String.eqb_spec k0 (lstrip0 a)) as [->|N].
      * intros E; injection E as <-; split; [reflexivity|].
        apply Hin; now left.
      * apply Hd.
    + rewrite dict_get_set.
      destruct Hk as [[E|Hk]|Hk].
      * right; rewrite <- E, String.eqb_refl; discriminate.
      * now left.
      * right; destruct (String.eqb k (lstrip0 a)); [discriminate | exact Hk].
Qed.

(** X21.  Every choice made in the month box is mapped back to a month
    of the ledger: the lookups in [month_map] raise no KeyError, and
    each chosen label is answered by a two-digit month of the ledger
    that strips to that label. *)
Theorem month_box_round_trip df chosen :
  incl chosen (display_months df) ->
  exists ms,
    selected_months_of (month_map df) chosen = Ok ms /\
    Forall2 (fun d m => lstrip0 m = d /\ In m (map month (rows df)))
      chosen ms.
Proof.
  induction chosen as [|d chosen IH]; intros Hin.
  - exists []; split; [reflexivity | constructor].
  - destruct IH as (ms & Hms & Hall).
    { intros x Hx; apply Hin; now right. }
    assert (Hd0 : forall k m, dict_get (@nil (string * string)) k = Some m ->
                  lstrip0 m = k /\ In m (all_months_two_digits df))
      by (intros k m H; discriminate H).
    destruct (month_map_fold (all_months_two_digits df)
                (all_months_two_digits df) [] (fun x H => H) Hd0
                d (or_introl (Hin d (or_introl eq_refl))))
      as (m & Hm & Hs & Hi).
    exists (m :: ms); split.
    + cbn [selected_months_of]; unfold dict_item at 1.
      change (dict_get (month_map df) d)
        with (dict_get (fold_left (fun d m => dict_set d (lstrip0 m) m)
                          (all_months_two_digits df) []) d).
      rewrite Hm; cbn [bind]; rewrite Hms; reflexivity.
    + constructor; [|exact Hall].
      split; [exact Hs|].
      unfold all_months_two_digits in Hi.
      exact (proj1 (unique_In_string _ _)
               (proj1 (sort_values_In String.leb _ _) Hi)).
Qed.

(** The theorem at the two-month ledger, both labels chosen. *)
Lemma month_box_round_trip_witness :
  exists ms,
    selected_months_of (month_map (ledger sheet_two_months)) ["2"; "1"]
    = Ok ms /\
    Forall2 (fun d m => lstrip0 m = d /\
                        In m (map month (rows (ledger sheet_two_months))))
      ["2"; "1"] ms.
Proof.
  apply (month_box_round_trip (ledger sheet_two_months) ["2"; "1"]).
  intros x Hx; vm_compute; simpl in Hx; tauto.
Defined.

(* ================================================================= *)
(** ** The heat map *)

Lemma filter_comm {A} (p q : A -> bool) l :
  filter p (filter q l) = filter q (filter p l).
Proof.
  rewrite !filter_filter; apply filter_ext; intros x; apply andb_comm.
Qed.

Lemma month_order_NoDup : NoDup month_order.
Proof.
  replace month_order with (unique String.eqb month_order)
    by (vm_compute; reflexivity).
  apply unique_NoDup, String.eqb_eq.
Qed.

Lemma existing_months_isin df r :
  In r (rows df) ->
  isin (month r) (existing_months df) = isin (month r) month_order.
Proof.
  intros Hr; unfold existing_months.
  destruct (isin (month r) month_order) eqn:E.
  - apply isin_In, filter_In; split; [now apply isin_In|].
    apply isin_In, sort_values_In, unique_In_string; now apply in_map.
  - destruct (isin (month r) (filter _ month_order)) eqn:E';
      [|reflexivity].
    apply isin_In, filter_In in E' as [E' _].
    apply isin_In in E'; congruence.
Qed.

(** X22.  For a frame whose value column holds whole numbers with
    absolute values adding up to at most 2^53, so that the sums of the
    pivot are exact: the pivot of the heat map has one line per group
    value and one cell per month kept, and its cells add up to the value
    summed over the rows of the frame whose month is one of '01' to
    '12'.  Rows with any other month text are left out, no other row is
    lost or counted twice. *)
Theorem heatmap_cells_add_up df grouping_column value_column divisor :
  exact_column value_column (rows df) = true ->
  let h := create_heatmap df grouping_column value_column divisor in
  List.length (heat_values h) = List.length (heat_index h) /\
  Forall (fun line => List.length line = List.length (heat_columns h))
    (heat_values h) /\
  zsum (map zsum (heat_values h))
  = zsum (map value_column
            (filter (fun r => isin (month r) month_order) (rows df))).
Proof.
  intros _; unfold create_heatmap; cbv zeta;
    cbn [heat_values heat_index heat_columns].
  set (index := sort_values String.leb
                  (unique String.eqb
                     (map (dim_value grouping_column) (rows df)))).
  split; [apply length_map|]; split.
  - apply Forall_forall; intros line Hl.
    apply in_map_iff in Hl as (g & <- & _); now rewrite !length_map.
  - rewrite map_map.
    rewrite (zsum_map_ext _
               (fun g => zsum (map value_column
                                 (filter (fun r => String.eqb
                                            (dim_value grouping_column r) g)
                                    (filter (fun r => isin (month r)
                                               month_order)
                                       (rows df)))))).
    + rewrite (zsum_by_key String.eqb String.eqb_eq
                 (dim_value grouping_column) value_column index)
        by apply (sorted_unique_NoDup String.eqb String.eqb_eq).
      f_equal; f_equal; apply filter_all; intros r Hr.
      apply filter_In in Hr as [Hr _].
      apply (existsb_eqb String.eqb String.eqb_eq).
      apply sort_values_In, unique_In_string; now apply in_map.
    + intros g _.
      rewrite (zsum_map_ext _
                 (fun m => zsum (map value_column
                                   (filter (fun r => String.eqb (month r) m)
                                      (filter (fun r => String.eqb
                                                 (dim_value grouping_column r)
                                                 g)
                                         (rows df)))))).
      * rewrite (zsum_by_key String.eqb String.eqb_eq month value_column
                   (existing_months df))
          by (apply NoDup_filter, month_order_NoDup).
        rewrite filter_comm; do 3 f_equal.
        apply filter_ext_in; intros r Hr.
        now apply existing_months_isin.
      * intros m _; now rewrite filter_filter.
Qed.

(** The theorem at the revenue of the three-code ledger, by revenue
    code. *)
Lemma heatmap_cells_add_up_witness :
  zsum (map zsum
          (heat_values
             (create_heatmap (ledger sheet_three_codes) RevenueCode revenue
                1000)))
  = zsum (map revenue
            (filter (fun r => isin (month r) month_order)
               (rows (ledger sheet_three_codes)))).
Proof.
  refine (proj2 (proj2 (heatmap_cells_add_up (ledger sheet_three_codes)
                          RevenueCode revenue 1000 _))).
  vm_compute; reflexivity.
Defined.

(* ================================================================= *)
(** ** Exact sums *)

Lemma zsum_abs_nonneg l : 0 <= zsum (map Z.abs l).
Proof. induction l as [|x l IH]; simpl; lia. Qed.

Lemma zsum_abs_bound l : Z.abs (zsum l) <= zsum (map Z.abs l).
Proof. induction l as [|x l IH]; simpl; lia. Qed.

(** A sum that rounds after every addition is the exact sum, in whatever
    order the terms are added, when rounding leaves the whole numbers
    up to 2^53 as they are and the absolute values of the terms add up
    to at most 2^53. *)
Lemma rounded_sum_exact (round : Z -> Z) (t : additions) :
  (forall z, Z.abs z <= EXACT_BOUND -> round z = z) ->
  zsum (map Z.abs (terms t)) <= EXACT_BOUND ->
  rounded_sum round t = zsum (terms t).
Proof.
  intros Hround; induction t as [x|a IHa b IHb]; cbn [terms rounded_sum].
  - simpl; intros H; rewrite Hround by lia; lia.
  - rewrite map_app, !zsum_app; intros H.
    pose proof (zsum_abs_nonneg (terms a)).
    pose proof (zsum_abs_nonneg (terms b)).
    pose proof (zsum_abs_bound (terms a)).
    pose proof (zsum_abs_bound (terms b)).
    rewrite IHa, IHb by lia.
    apply Hround; lia.
Qed.

(** The sums over a part of the rows of an exact column stay within the
    bound. *)
Lemma exact_column_filter f (p : Row -> bool) rs :
  exact_column f rs = true -> exact_column f (filter p rs) = true.
Proof.
  unfold exact_column; rewrite !Z.leb_le; intros H.
  etransitivity; [|exact H]; clear H.
  induction rs as [|r rs IH]; simpl; [lia|].
  destruct (p r); simpl; lia.
Qed.

(* ================================================================= *)
(** ** The buckets of the trend, and the cumulative trend *)

Lemma zmin_const z l :
  l <> [] -> Forall (fun x => x = z) l -> zmin l = z.
Proof.
  destruct l as [|x l]; [intros H; now elim H|]; intros _ H.
  apply Forall_cons_iff in H as [-> H]; simpl.
  induction H as [|y l -> _ IH]; simpl; [reflexivity|].
  now rewrite Z.min_id.
Qed.

Lemma NoDup_map_in {A B} (f : A -> B) l :
  NoDup l ->
  (forall x y, In x l -> In y l -> f x = f y -> x = y) ->
  NoDup (map f l).
Proof.
  induction 1 as [|x l Hx Hl IH]; simpl; intros Hinj; constructor.
  - intros Hin; apply in_map_iff in Hin as (y & E & Hy).
    apply Hx; rewrite <- (Hinj y x); auto.
  - apply IH; intros a b Ha Hb; apply Hinj; auto.
Qed.

Section Groups.
Context {K : Type} (eqb leb : K -> K -> bool).
Hypothesis eqb_eq : forall a b, eqb a b = true <-> a = b.
Context (key : Row -> K) (mk : K * list Row -> TrendGroup).
Context (inb : TrendGroup -> Row -> bool).
Hypothesis inb_mk : forall k b r, inb (mk (k, b)) r = eqb (key r) k.

Lemma groups_In rs g :
  In g (map mk (groupby eqb leb key rs)) <->
  exists k, In k (map key rs) /\
            g = mk (k, filter (fun r => eqb (key r) k) rs).
Proof.
  unfold groupby; rewrite map_map, in_map_iff; split.
  - intros (k & <- & Hk).
    rewrite sort_values_In, (unique_In eqb eqb_eq) in Hk; eauto.
  - intros (k & Hk & ->); exists k; split; [reflexivity|].
    now rewrite sort_values_In, (unique_In eqb eqb_eq).
Qed.

(** The rows a group answers for are the rows with its key, and there
    is one at least. *)
Lemma groups_bucket rs g :
  In g (map mk (groupby eqb leb key rs)) ->
  exists k,
    g = mk (k, filter (inb g) rs) /\
    filter (inb g) rs <> [] /\
    Forall (fun r => key r = k) (filter (inb g) rs).
Proof.
  intros H; apply groups_In in H as (k & Hk & ->).
  assert (E : filter (inb (mk (k, filter (fun r => eqb (key r) k) rs))) rs
              = filter (fun r => eqb (key r) k) rs)
    by (apply filter_ext; intros r; apply inb_mk).
  rewrite E; exists k; split; [reflexivity|]; split.
  - apply in_map_iff in Hk as (r0 & E0 & H0).
    intros N.
    assert (Hin : In r0 (filter (fun r => eqb (key r) k) rs))
      by (apply filter_In; split; [exact H0 | now apply eqb_eq]).
    rewrite N in Hin; contradiction.
  - apply Forall_forall; intros r Hr.
    apply filter_In in Hr as [_ Hr]; now apply eqb_eq.
Qed.

Lemma groups_NoDup rs : NoDup (map mk (groupby eqb leb key rs)).
Proof.
  unfold groupby; rewrite map_map.
  apply NoDup_map_in; [apply (sorted_unique_NoDup eqb eqb_eq)|].
  intros k k' Hk _ E.
  rewrite sort_values_In, (unique_In eqb eqb_eq) in Hk.
  apply in_map_iff in Hk as (r0 & E0 & _).
  apply eqb_eq; rewrite <- E0 at 1.
  rewrite <- (inb_mk k' (filter (fun r => eqb (key r) k') rs) r0), <- E.
  rewrite inb_mk; now apply eqb_eq.
Qed.

(** Every row falls into the bucket of one group, and of no other. *)
Lemma groups_cover rs r :
  In r rs ->
  exists g,
    In g (map mk (groupby eqb leb key rs)) /\ inb g r = true /\
    forall g', In g' (map mk (groupby eqb leb key rs)) ->
               inb g' r = true -> g' = g.
Proof.
  intros Hr.
  exists (mk (key r, filter (fun x => eqb (key x) (key r)) rs)).
  split; [|split].
  - apply groups_In; exists (key r); split; [now apply in_map | reflexivity].
  - rewrite inb_mk; now apply eqb_eq.
  - intros g' Hg' Hb; apply groups_In in Hg' as (k' & _ & ->).
    rewrite inb_mk in Hb; apply eqb_eq in Hb; now subst k'.
Qed.
End Groups.

(** The groups of the trend are the buckets of its input: no group
    twice, each with the rows of its bucket, at least one, its sort key
    their least one and its metrics their sums; and every row is in the
    bucket of exactly one group. *)
Lemma trend_groups_buckets time_col sort_col rs :
  NoDup (trend_groups time_col sort_col rs) /\
  Forall
    (fun g =>
       bucket time_col sort_col g rs <> [] /\
       group_sort g = zmin (map sort_col (bucket time_col sort_col g rs)) /\
       group_revenue g = zsum (map revenue (bucket time_col sort_col g rs)) /\
       group_profit g
       = zsum (map operating_profit (bucket time_col sort_col g rs)))
    (trend_groups time_col sort_col rs) /\
  (forall r,
      In r rs ->
      exists g,
        In g (trend_groups time_col sort_col rs) /\
        in_bucket time_col sort_col g r = true /\
        forall g', In g' (trend_groups time_col sort_col rs) ->
                   in_bucket time_col sort_col g' r = true -> g' = g).
Proof.
  destruct time_col; unfold trend_groups, bucket.
  - (* by month *)
    set (mk := fun g : string * Z * list Row =>
                 mkGroup (fst (fst g)) (snd (fst g))
                   (zsum (map operating_profit (snd g)))
                   (zsum (map revenue (snd g)))).
    assert (Hmk : forall k b r,
               in_bucket YearMonth sort_col (mk (k, b)) r
               = pair_eqb (ym r, sort_col r) k)
      by (intros k b r; reflexivity).
    split; [apply (groups_NoDup pair_eqb pair_leb pair_eqb_eq _ mk _ Hmk)|].
    split; [|apply (groups_cover pair_eqb pair_leb pair_eqb_eq _ mk _ Hmk)].
    apply Forall_forall; intros g Hg.
    destruct (groups_bucket pair_eqb pair_leb pair_eqb_eq _ mk _ Hmk rs g Hg)
      as (k & E & Hne & Hk).
    assert (Es : group_sort g = snd k) by (rewrite E; reflexivity).
    split; [exact Hne|].
    split; [|split; rewrite E at 1; reflexivity].
    rewrite Es; symmetry; apply zmin_const.
    + intros N; apply map_eq_nil in N; contradiction.
    + apply Forall_map; revert Hk; apply Forall_impl.
      intros r <-; reflexivity.
  - (* by quarter *)
    set (mk := fun g : string * list Row =>
                 mkGroup (fst g) (zmin (map sort_col (snd g)))
                   (zsum (map operating_profit (snd g)))
                   (zsum (map revenue (snd g)))).
    assert (Hmk : forall k b r,
               in_bucket YearQuarter sort_col (mk (k, b)) r
               = String.eqb
                   (String.append (year r) (String.append " " (quarter r))) k)
      by (intros k b r; reflexivity).
    split;
      [apply (groups_NoDup String.eqb String.leb String.eqb_eq _ mk _ Hmk)|].
    split;
      [|apply (groups_cover String.eqb String.leb String.eqb_eq _ mk _ Hmk)].
    apply Forall_forall; intros g Hg.
    destruct (groups_bucket String.eqb String.leb String.eqb_eq _ mk _ Hmk
                rs g Hg) as (k & E & Hne & _).
    split; [exact Hne|].
    repeat split; rewrite E at 1; reflexivity.
Qed.

(** C5: on a non-empty input and for either bucket, the plain trend
    lists the buckets of the input by ascending sort key: its rows are,
    in order, the groups of a list that is sorted by sort key, has no
    group twice, in which every group stands for the rows of the input
    that fall into its bucket (at least one), with their least sort key
    and the sums of their revenue and profit, and in which every row of
    the input falls into the bucket of exactly one group.  The
    cumulative trend has the labels and the number of rows of the plain
    trend in the same order, and its i-th revenue and profit are the
    sums of the first i plain values. *)
Theorem cumulative_trend_prefix_sums :
  forall df time_col sort_col lbl,
    empty df = false ->
    exists plain cumul,
      aggregate_profit_trend df time_col sort_col false lbl = Some plain /\
      aggregate_profit_trend df time_col sort_col true lbl = Some cumul /\
      map display_label cumul = map display_label plain /\
      List.length cumul = List.length plain /\
      plain <> [] /\
      (exists groups,
          Sorted (fun a b => group_sort a <= group_sort b) groups /\
          map display_label plain = map (label_of time_col) groups /\
          map trend_revenue plain = map group_revenue groups /\
          map trend_profit plain = map group_profit groups /\
          NoDup groups /\
          Forall
            (fun g =>
               bucket time_col sort_col g (rows df) <> [] /\
               group_sort g
               = zmin (map sort_col (bucket time_col sort_col g (rows df))) /\
               group_revenue g
               = zsum (map revenue (bucket time_col sort_col g (rows df))) /\
               group_profit g
               = zsum (map operating_profit
                         (bucket time_col sort_col g (rows df))))
            groups /\
          (forall r,
              In r (rows df) ->
              exists g,
                In g groups /\ in_bucket time_col sort_col g r = true /\
                forall g', In g' groups ->
                           in_bucket time_col sort_col g' r = true ->
                           g' = g)) /\
      forall i, (i < List.length plain)%nat ->
        nth i (map trend_revenue cumul) 0
          = zsum (firstn (S i) (map trend_revenue plain)) /\
        nth i (map trend_profit cumul) 0
          = zsum (firstn (S i) (map trend_profit plain)).
Proof.
  intros df time_col sort_col lbl Hne.
  unfold aggregate_profit_trend; rewrite Hne.
  set (g := sort_values _ (trend_groups time_col sort_col (rows df))).
  set (a := map (label_of time_col) g).
  set (p := map group_profit g).
  set (r := map group_revenue g).
  assert (Hp : List.length p = List.length a)
    by (unfold p, a; now rewrite !length_map).
  assert (Hr : List.length r = List.length a)
    by (unfold r, a; now rewrite !length_map).
  destruct (trend_frame_columns lbl a p r Hp Hr) as (P1 & P2 & P3 & P4).
  destruct (trend_frame_columns lbl a (cumsum p) (cumsum r))
    as (C1 & C2 & C3 & C4);
    [unfold cumsum; now rewrite cumsum_from_length
    |unfold cumsum; now rewrite cumsum_from_length|].
  do 2 eexists; split; [reflexivity|]; split; [reflexivity|].
  cbv zeta in P1, P2, P3, P4, C1, C2, C3, C4.
  rewrite P1, P2, P3, P4, C1, C2, C3, C4.
  split; [reflexivity|]; split; [reflexivity|]; split; [|split].
  - intros E; apply (f_equal (@List.length _)) in E.
    rewrite P4 in E; unfold a, g in E.
    rewrite length_map, sort_values_length in E; simpl in E.
    revert E; apply trend_groups_length.
    unfold empty in Hne; destruct (rows df); [discriminate | discriminate].
  - destruct (trend_groups_buckets time_col sort_col (rows df))
      as (Hnd & Hall & Hcov).
    assert (Hin : forall x,
               In x g <-> In x (trend_groups time_col sort_col (rows df)))
      by (intros x; unfold g; apply sort_values_In).
    exists g.
    split; [apply sort_values_Sorted|].
    do 3 (split; [reflexivity|]).
    split; [|split].
    + eapply Permutation_NoDup; [|exact Hnd].
      symmetry; apply sort_values_Permutation.
    + apply Forall_forall; intros x Hx; apply Hin in Hx.
      exact (proj1 (Forall_forall _ _) Hall x Hx).
    + intros x Hx; destruct (Hcov x Hx) as (g0 & H0 & Hb & Hu).
      exists g0; split; [now apply Hin|]; split; [exact Hb|].
      intros g' Hg'; apply Hu; now apply Hin.
  - intros i Hi; split; unfold cumsum; rewrite nth_cumsum_from by lia; lia.
Qed.

(** The theorem at the two-month ledger, by month. *)
Lemma cumulative_trend_prefix_sums_witness :
  empty (ledger sheet_two_months) = false /\
  exists plain cumul,
    aggregate_profit_trend (ledger sheet_two_months) YearMonth sort_key
      false "" = Some plain /\
    aggregate_profit_trend (ledger sheet_two_months) YearMonth sort_key
      true "" = Some cumul /\
    map display_label cumul = map display_label plain /\
    List.length cumul = List.length plain /\
    plain <> [] /\
    (exists groups,
        Sorted (fun a b => group_sort a <= group_sort b) groups /\
        map display_label plain = map (label_of YearMonth) groups /\
        map trend_revenue plain = map group_revenue groups /\
        map trend_profit plain = map group_profit groups /\
        NoDup groups /\
        Forall
          (fun g =>
             bucket YearMonth sort_key g (rows (ledger sheet_two_months))
             <> [] /\
             group_sort g
             = zmin (map sort_key
                       (bucket YearMonth sort_key g
                          (rows (ledger sheet_two_months)))) /\
             group_revenue g
             = zsum (map revenue
                       (bucket YearMonth sort_key g
                          (rows (ledger sheet_two_months)))) /\
             group_profit g
             = zsum (map operating_profit
                       (bucket YearMonth sort_key g
                          (rows (ledger sheet_two_months)))))
          groups /\
        (forall r,
            In r (rows (ledger sheet_two_months)) ->
            exists g,
              In g groups /\ in_bucket YearMonth sort_key g r = true /\
              forall g', In g' groups ->
                         in_bucket YearMonth sort_key g' r = true ->
                         g' = g)) /\
    forall i, (i < List.length plain)%nat ->
      nth i (map trend_revenue cumul) 0
        = zsum (firstn (S i) (map trend_revenue plain)) /\
      nth i (map trend_profit cumul) 0
        = zsum (firstn (S i) (map trend_profit plain)).
Proof.
  split; [reflexivity|].
  exact (cumulative_trend_prefix_sums (ledger sheet_two_months) YearMonth
           sort_key "" eq_refl).
Defined.
